(** * Pixelle-Video: the e-commerce product scraper

    A shallow embedding of [pixelle_video/services/ecommerce] ([base.py],
    [models.py], [taobao.py]) and the properties its specification states
    about it; then of its callers, the scraping, analysis and planning steps
    of [pixelle_video/pipelines/ecommerce.py] and [scripts/taobao_login.py],
    with further properties read off the code.

    Conventions of the embedding.
    - Python [str] values are lists of characters ([list ascii], code points
      0..255).  On that range [\d] is [0-9] and [\s] is the whitespace set of
      [str.isspace].
    - A call that may raise returns [Exc A]: [inl e] is a raised instance of
      [Exception] (what [except Exception] catches), [inr a] a normal return.
    - Everything the browser, the network and the file system answer is read
      from an oracle record, one field per call site, so that every theorem
      quantifies over all their possible answers. *)

From Stdlib Require Import Ascii String DecimalString DecimalNat.
From stdpp Require Import base option list strings gmap.

Abbreviation str := (list ascii).

(** A text literal. *)
Definition py (s : string) : str := list_ascii_of_string s.

(** ** Python [str] operations *)

Module Str.

Definition eqb (a b : ascii) : bool := bool_decide (a = b).

(** [s.startswith(p)], returning what follows the prefix. *)
Fixpoint strip_prefix (p s : str) : option str :=
  match p, s with
  | [], _ => Some s
  | a :: p', b :: s' => if eqb a b then strip_prefix p' s' else None
  | _ :: _, [] => None
  end.

Definition startswith (s p : str) : bool := bool_decide (is_Some (strip_prefix p s)).

(** [sub in s] *)
Fixpoint contains (sub s : str) : bool :=
  startswith s sub ||
  match s with
  | [] => false
  | _ :: s' => contains sub s'
  end.

Definition code (c : ascii) : nat := nat_of_ascii c.

Definition between (lo hi : nat) (c : ascii) : bool :=
  bool_decide (lo ≤ code c ≤ hi).

(** [c.isspace()] for code points below 256. *)
Definition isspace (c : ascii) : bool :=
  between 9 13 c || between 28 32 c || eqb c "133"%char || eqb c "160"%char.

(** [s.lower()] for code points below 256: A-Z and the Latin-1 capitals. *)
Definition lower_char (c : ascii) : ascii :=
  if between 65 90 c || (between 192 222 c && negb (eqb c "215"%char))
  then ascii_of_nat (code c + 32) else c.

Definition lower (s : str) : str := lower_char <$> s.

(** The longest prefix of characters that satisfy [p]. *)
Fixpoint take_while (p : ascii → bool) (s : str) : str :=
  match s with
  | c :: s' => if p c then c :: take_while p s' else []
  | [] => []
  end.

(** [s.lstrip(chars)], for the characters that satisfy [p]. *)
Fixpoint lstrip_by (p : ascii → bool) (s : str) : str :=
  match s with
  | c :: s' => if p c then lstrip_by p s' else s
  | [] => []
  end.

(** [s.strip()] *)
Definition strip (s : str) : str :=
  reverse (lstrip_by isspace (reverse (lstrip_by isspace s))).

(** [s.split(sep, 1)] for a one-character separator: the text before the
    first separator and, when there is one, the text after it. *)
Fixpoint split1 (sep : ascii) (s : str) : str * option str :=
  match s with
  | [] => ([], None)
  | c :: s' =>
      if eqb c sep then ([], Some s')
      else let '(a, b) := split1 sep s' in (c :: a, b)
  end.

(** [s.split(sep)] for a one-character separator. *)
Fixpoint split (sep : ascii) (s : str) : list str :=
  match s with
  | [] => [[]]
  | c :: s' =>
      if eqb c sep then [] :: split sep s'
      else match split sep s' with
           | w :: ws => (c :: w) :: ws
           | [] => [[c]]
           end
  end.

(** [s.replace(a, b)] for one-character [a]. *)
Definition replace_char (a : ascii) (b : str) (s : str) : str :=
  s ≫= (λ c, if eqb c a then b else [c]).

End Str.

(** ** Regular expressions

    The fragment of Python's [re] syntax that [taobao.py] uses, with the
    matching order of a backtracking engine: alternatives left to right,
    quantifiers greedy, at most one capturing group. *)

Module Re.

Inductive regex :=
| Lit (s : str)                                   (* literal text *)
| Cls (p : ascii → bool)                          (* one character of a class *)
| Rep (p : ascii → bool) (lo : nat) (hi : option nat)  (* class{lo,hi}, greedy *)
| Cat (r1 r2 : regex)
| Alt (r1 r2 : regex)
| Grp (r : regex)                                 (* ( ... ), group 1 *)
| Eos.                                            (* $ *)

(** [\d], [[a-zA-Z0-9]], [\s] *)
Definition digit : ascii → bool := Str.between 48 57.
Definition alnum (c : ascii) : bool :=
  Str.between 97 122 c || Str.between 65 90 c || Str.between 48 57 c.
Definition space : ascii → bool := Str.isspace.
Definition one_of (cs : str) (c : ascii) : bool := bool_decide (c ∈ cs).
Definition none_of (p : ascii → bool) (c : ascii) : bool := negb (p c).

Definition plus (p : ascii → bool) : regex := Rep p 1 None.
Definition star (p : ascii → bool) : regex := Rep p 0 None.
Definition opt (p : ascii → bool) : regex := Rep p 0 (Some 1).

(** [$] without [re.MULTILINE]: at the end of the text, or just before a
    newline that ends it. *)
Definition at_eos (s : str) : bool :=
  match s with
  | [] => true
  | [c] => Str.eqb c "010"%char
  | _ => false
  end.

(** Greedy repetition: take one more character when allowed, and fall back
    to stopping here when the rest of the pattern then fails. *)
Fixpoint rep {X} (p : ascii → bool) (lo hi : nat) (s : str)
    (k : str → option X) : option X :=
  let stop := if lo is 0 then k s else None in
  match hi, s with
  | S hi', c :: s' =>
      if p c then
        match rep p (pred lo) hi' s' k with
        | Some x => Some x
        | None => stop
        end
      else stop
  | _, _ => stop
  end.

(** [match_re r s g k]: match [r] at the start of [s], then continue with
    [k] on the group captured so far and the unread text. *)
Fixpoint match_re {X} (r : regex) (s : str) (g : option str)
    (k : option str → str → option X) : option X :=
  match r with
  | Lit l => match Str.strip_prefix l s with Some s' => k g s' | None => None end
  | Cls p => match s with c :: s' => if p c then k g s' else None | [] => None end
  | Rep p lo hi => rep p lo (default (length s) hi) s (k g)
  | Cat r1 r2 => match_re r1 s g (λ g1 s1, match_re r2 s1 g1 k)
  | Alt r1 r2 =>
      match match_re r1 s g k with
      | Some x => Some x
      | None => match_re r2 s g k
      end
  | Grp r1 => match_re r1 s g (λ _ s1, k (Some (take (length s - length s1) s)) s1)
  | Eos => if at_eos s then k g s else None
  end.

(** A match object: the matched text ([group(0)]), [group(1)], and the
    text after the match. *)
Record Match := { m_text : str; m_group : option str; m_rest : str }.

Definition match_at (r : regex) (s : str) : option Match :=
  match_re r s None
    (λ g rest, Some {| m_text := take (length s - length rest) s;
                       m_group := g; m_rest := rest |}).

(** [re.search(r, s)]: the first position with a match, and the text
    before it. *)
Fixpoint search (r : regex) (s : str) : option (str * Match) :=
  match match_at r s with
  | Some m => Some ([], m)
  | None =>
      match s with
      | [] => None
      | c :: s' => (λ '(pre, m), (c :: pre, m)) <$> search r s'
      end
  end.

(** [re.search(r, s).group(1)] *)
Definition search_group (r : regex) (s : str) : option str :=
  search r s ≫= (λ '(_, m), m_group m).

(** The scan of [re.sub] and [re.findall], left to right over
    non-overlapping matches: [skip] characters of the last match are still
    to be passed; after an empty match the scan moves on by one character. *)
Fixpoint sub_scan (r : regex) (repl : str) (skip : nat) (s : str) : str :=
  match skip with
  | S n => match s with [] => [] | _ :: s' => sub_scan r repl n s' end
  | 0 =>
      match match_at r s with
      | Some m =>
          repl ++
          match s with
          | [] => []
          | c :: s' =>
              match length (m_text m) with
              | 0 => c :: sub_scan r repl 0 s'
              | S n => sub_scan r repl n s'
              end
          end
      | None =>
          match s with
          | [] => []
          | c :: s' => c :: sub_scan r repl 0 s'
          end
      end
  end.

(** [re.sub(r, repl, s)] for a replacement without group references. *)
Definition sub (r : regex) (repl : str) (s : str) : str := sub_scan r repl 0 s.

Fixpoint findall_scan (r : regex) (skip : nat) (s : str) : list str :=
  match skip with
  | S n => match s with [] => [] | _ :: s' => findall_scan r n s' end
  | 0 =>
      match match_at r s with
      | Some m =>
          default (m_text m) (m_group m) ::
          match s with
          | [] => []
          | _ :: s' => findall_scan r (pred (length (m_text m))) s'
          end
      | None =>
          match s with
          | [] => []
          | _ :: s' => findall_scan r 0 s'
          end
      end
  end.

(** [re.findall(r, s)]: group 1 of every match when the pattern has a
    group, the matched text otherwise. *)
Definition findall (r : regex) (s : str) : list str := findall_scan r 0 s.

End Re.

Import Re.

(** ** Image resolver: the patterns and the rewrite of [_extract_main_images] *)

(** A pattern written as the sequence of its parts. *)
Definition seq (rs : list regex) : regex := foldr Cat (Lit []) rs.

(** [r'(O1CN01[a-zA-Z0-9]+)'] *)
Definition image_id_re : regex := Grp (seq [Lit (py "O1CN01"); plus alnum]).

(** [r'\.jpg_q\d+\.jpg_\.webp$'] *)
Definition quality_webp_re : regex :=
  seq [Lit (py ".jpg_q"); plus digit; Lit (py ".jpg_.webp"); Eos].

(** [r'\.jpg_q\d+\.jpg$'] *)
Definition quality_jpg_re : regex :=
  seq [Lit (py ".jpg_q"); plus digit; Lit (py ".jpg"); Eos].

(** [r'\.jpg_\d+x\d+[^.]*\.jpg_\.webp$'] *)
Definition size_webp_re : regex :=
  seq [Lit (py ".jpg_"); plus digit; Lit (py "x"); plus digit;
       star (none_of (one_of (py "."))); Lit (py ".jpg_.webp"); Eos].

(** The three [re.sub] calls that turn a gallery URL into its
    high-resolution form. *)
Definition to_high_res (url : str) : str :=
  let clean_url := sub quality_webp_re (py ".jpg_.webp") url in
  let clean_url := sub quality_jpg_re (py ".jpg") clean_url in
  let clean_url := sub size_webp_re (py ".jpg_.webp") clean_url in
  clean_url.

(** [re.search(r'(O1CN01[a-zA-Z0-9]+)', url)] and its [group(1)]. *)
Definition image_id (url : str) : option str := search_group image_id_re url.

(** [seller_id and f"_!!{seller_id}" not in url]: the URL is skipped. *)
Definition skipped_by_seller (seller_id : option str) (url : str) : bool :=
  match seller_id with
  | Some (c :: sid) => negb (Str.contains (py "_!!" ++ c :: sid) url)
  | Some [] | None => false
  end.

(** One turn of the loop over [main_images]; the state is
    [(cleaned_images, seen_ids)]. *)
Definition clean_step (seller_id : option str)
    (st : list str * gset str) (url : str) : list str * gset str :=
  let '(cleaned_images, seen_ids) := st in
  if skipped_by_seller seller_id url then st
  else match image_id url with
       | Some img_id =>
           if decide (img_id ∈ seen_ids) then st
           else (cleaned_images ++ [to_high_res url], {[img_id]} ∪ seen_ids)
       | None => st
       end.

Definition clean_images (seller_id : option str) (main_images : list str) : list str :=
  (foldl (clean_step seller_id) ([], ∅) main_images).1.

(** ** Exceptions *)

(** A raised exception: its class and [str(e)]. *)
Record exn := Raise { exn_class : str; exn_msg : str }.

Definition Exc (A : Type) : Type := exn + A.

Definition ValueError (msg : str) : exn := Raise (py "ValueError") msg.

(** ** Python containers used by the scraper *)

(** [enumerate(xs, start)] *)
Fixpoint enumerate {A} (start : nat) (xs : list A) : list (nat * A) :=
  match xs with
  | [] => []
  | x :: xs' => (start, x) :: enumerate (S start) xs'
  end.

(** [d.get(key)] on a dict kept as its items in insertion order. *)
Fixpoint dict_get {V} (key : str) (d : list (str * V)) : option V :=
  match d with
  | [] => None
  | (k, v) :: d' => if decide (key = k) then Some v else dict_get key d'
  end.

(** [list(dict.fromkeys(xs))]: a dict keeps its keys in insertion order, and
    setting a key that is present does not move it. *)
Definition dict_fromkeys (xs : list str) : list str :=
  foldl (λ keys x, if decide (x ∈ keys) then keys else keys ++ [x]) [] xs.

(** [collections.Counter]: a dict from element to count, in insertion order. *)
Fixpoint counter_add (x : str) (counts : list (str * nat)) : list (str * nat) :=
  match counts with
  | [] => [(x, 1)]
  | (y, n) :: rest =>
      if decide (x = y) then (y, S n) :: rest else (y, n) :: counter_add x rest
  end.

Definition Counter (xs : list str) : list (str * nat) :=
  foldl (λ counts x, counter_add x counts) [] xs.

(** [max(items, key=itemgetter(1))]: a later item replaces the best one only
    when its count is strictly larger. *)
Fixpoint max_count (best : str * nat) (items : list (str * nat)) : str * nat :=
  match items with
  | [] => best
  | it :: rest => max_count (if bool_decide (best.2 < it.2) then it else best) rest
  end.

(** [Counter.most_common(1)], which is [heapq.nlargest(1, items, key=count)]. *)
Definition most_common_1 (counts : list (str * nat)) : list (str * nat) :=
  match counts with
  | [] => []
  | it :: rest => [max_count it rest]
  end.

(** ** Seller identity: [_extract_seller_id] *)

(** [r'_!!(\d{10,13})'] *)
Definition seller_mark_re : regex :=
  seq [Lit (py "_!!"); Grp (Rep digit 10 (Some 13))].

(** [r'seller[Ii]d["\s:=]+["\']?(\d{10,13})'] *)
Definition seller_field_re : regex :=
  seq [Lit (py "seller"); Cls (one_of (py "Ii")); Lit (py "d");
       plus (λ c, one_of ("034"%char :: py ":=") c || space c);
       opt (one_of ["034"%char; "039"%char]);
       Grp (Rep digit 10 (Some 13))].

(** [id.startswith('6000000')]: a platform-generic identifier. *)
Definition platform_generic (id : str) : bool := Str.startswith id (py "6000000").

Definition real_seller_ids (content : str) : list str :=
  filter (λ id, negb (platform_generic id)) (findall seller_mark_re content).

(** The vote over the identifiers found in the page markup. *)
Definition seller_vote (content : str) : option str :=
  match real_seller_ids content with
  | [] => None
  | real_ids =>
      match most_common_1 (Counter real_ids) with
      | (seller_id, _) :: _ => Some seller_id
      | [] => None
      end
  end.

(** The fallback on a [sellerId] field of the page data. *)
Definition seller_fallback (content : str) : option str :=
  match search_group seller_field_re content with
  | Some sid => if platform_generic sid then None else Some sid
  | None => None
  end.

(** [_extract_seller_id], on what [page.content()] answered; any exception
    is logged and the result is [None]. *)
Definition _extract_seller_id (page_content : Exc str) : option str :=
  match page_content with
  | inl _ => None
  | inr content =>
      match seller_vote content with
      | Some seller_id => Some seller_id
      | None => seller_fallback content
      end
  end.

(** ** Data model ([models.py]) *)

(** A [pathlib.Path], by the way it was built.  A field that the source
    fills with [str(path)] holds the path itself. *)
Inductive Path :=
| Home                                  (* Path.home() *)
| Path_of (s : str)                     (* Path(s) *)
| Join (dir : Path) (name : str).       (* dir / name *)

Infix "//" := Join (at level 40, left associativity).

Module ProductInfo.

Record t := Build {
  url : str;
  platform : str;
  product_id : option str;
  title : str;
  price : option str;
  original_price : option str;
  shop_name : option str;
  shop_url : option str;
  main_images : list str;
  detail_images : list str;
  local_images : list Path;
  shipping : option str;
  freight : option str;
  sales : option str;
  rating : option str;
  review_count : option str;
  description : option str;
  highlights : list str;
  specifications : list (str * str);
  services : list str;
  promotions : list str;
  sku_options : list (str * list str);
  image_descriptions : list str;
  raw_html_path : option Path;
  raw_json_path : option Path;
  screenshot_path : option Path
}.

(** [ProductInfo(url=..., platform=..., product_id=..., title=...)]: every
    other field takes its default. *)
Definition new (url platform : str) (product_id : option str) (title : str) : t :=
  {| url := url; platform := platform; product_id := product_id; title := title;
     price := None; original_price := None; shop_name := None; shop_url := None;
     main_images := []; detail_images := []; local_images := [];
     shipping := None; freight := None; sales := None; rating := None;
     review_count := None; description := None; highlights := [];
     specifications := []; services := []; promotions := []; sku_options := [];
     image_descriptions := []; raw_html_path := None; raw_json_path := None;
     screenshot_path := None |}.

(** Attribute assignment, [product.field = v]. *)
Definition set_title (v : str) (p : t) : t :=
  Build (p.(url)) (p.(platform)) (p.(product_id)) v (p.(price))
    (p.(original_price)) (p.(shop_name)) (p.(shop_url)) (p.(main_images))
    (p.(detail_images)) (p.(local_images)) (p.(shipping)) (p.(freight))
    (p.(sales)) (p.(rating)) (p.(review_count)) (p.(description)) (p.(highlights))
    (p.(specifications)) (p.(services)) (p.(promotions)) (p.(sku_options))
    (p.(image_descriptions)) (p.(raw_html_path)) (p.(raw_json_path))
    (p.(screenshot_path)).
Definition set_price (v : option str) (p : t) : t :=
  Build (p.(url)) (p.(platform)) (p.(product_id)) (p.(title)) v
    (p.(original_price)) (p.(shop_name)) (p.(shop_url)) (p.(main_images))
    (p.(detail_images)) (p.(local_images)) (p.(shipping)) (p.(freight))
    (p.(sales)) (p.(rating)) (p.(review_count)) (p.(description)) (p.(highlights))
    (p.(specifications)) (p.(services)) (p.(promotions)) (p.(sku_options))
    (p.(image_descriptions)) (p.(raw_html_path)) (p.(raw_json_path))
    (p.(screenshot_path)).
Definition set_original_price (v : option str) (p : t) : t :=
  Build (p.(url)) (p.(platform)) (p.(product_id)) (p.(title)) (p.(price)) v
    (p.(shop_name)) (p.(shop_url)) (p.(main_images)) (p.(detail_images))
    (p.(local_images)) (p.(shipping)) (p.(freight)) (p.(sales)) (p.(rating))
    (p.(review_count)) (p.(description)) (p.(highlights)) (p.(specifications))
    (p.(services)) (p.(promotions)) (p.(sku_options)) (p.(image_descriptions))
    (p.(raw_html_path)) (p.(raw_json_path)) (p.(screenshot_path)).
Definition set_shop_name (v : option str) (p : t) : t :=
  Build (p.(url)) (p.(platform)) (p.(product_id)) (p.(title)) (p.(price))
    (p.(original_price)) v (p.(shop_url)) (p.(main_images)) (p.(detail_images))
    (p.(local_images)) (p.(shipping)) (p.(freight)) (p.(sales)) (p.(rating))
    (p.(review_count)) (p.(description)) (p.(highlights)) (p.(specifications))
    (p.(services)) (p.(promotions)) (p.(sku_options)) (p.(image_descriptions))
    (p.(raw_html_path)) (p.(raw_json_path)) (p.(screenshot_path)).
Definition set_shipping (v : option str) (p : t) : t :=
  Build (p.(url)) (p.(platform)) (p.(product_id)) (p.(title)) (p.(price))
    (p.(original_price)) (p.(shop_name)) (p.(shop_url)) (p.(main_images))
    (p.(detail_images)) (p.(local_images)) v (p.(freight)) (p.(sales))
    (p.(rating)) (p.(review_count)) (p.(description)) (p.(highlights))
    (p.(specifications)) (p.(services)) (p.(promotions)) (p.(sku_options))
    (p.(image_descriptions)) (p.(raw_html_path)) (p.(raw_json_path))
    (p.(screenshot_path)).
Definition set_freight (v : option str) (p : t) : t :=
  Build (p.(url)) (p.(platform)) (p.(product_id)) (p.(title)) (p.(price))
    (p.(original_price)) (p.(shop_name)) (p.(shop_url)) (p.(main_images))
    (p.(detail_images)) (p.(local_images)) (p.(shipping)) v (p.(sales))
    (p.(rating)) (p.(review_count)) (p.(description)) (p.(highlights))
    (p.(specifications)) (p.(services)) (p.(promotions)) (p.(sku_options))
    (p.(image_descriptions)) (p.(raw_html_path)) (p.(raw_json_path))
    (p.(screenshot_path)).
Definition set_sales (v : option str) (p : t) : t :=
  Build (p.(url)) (p.(platform)) (p.(product_id)) (p.(title)) (p.(price))
    (p.(original_price)) (p.(shop_name)) (p.(shop_url)) (p.(main_images))
    (p.(detail_images)) (p.(local_images)) (p.(shipping)) (p.(freight)) v
    (p.(rating)) (p.(review_count)) (p.(description)) (p.(highlights))
    (p.(specifications)) (p.(services)) (p.(promotions)) (p.(sku_options))
    (p.(image_descriptions)) (p.(raw_html_path)) (p.(raw_json_path))
    (p.(screenshot_path)).
Definition set_rating (v : option str) (p : t) : t :=
  Build (p.(url)) (p.(platform)) (p.(product_id)) (p.(title)) (p.(price))
    (p.(original_price)) (p.(shop_name)) (p.(shop_url)) (p.(main_images))
    (p.(detail_images)) (p.(local_images)) (p.(shipping)) (p.(freight))
    (p.(sales)) v (p.(review_count)) (p.(description)) (p.(highlights))
    (p.(specifications)) (p.(services)) (p.(promotions)) (p.(sku_options))
    (p.(image_descriptions)) (p.(raw_html_path)) (p.(raw_json_path))
    (p.(screenshot_path)).
Definition set_description (v : option str) (p : t) : t :=
  Build (p.(url)) (p.(platform)) (p.(product_id)) (p.(title)) (p.(price))
    (p.(original_price)) (p.(shop_name)) (p.(shop_url)) (p.(main_images))
    (p.(detail_images)) (p.(local_images)) (p.(shipping)) (p.(freight))
    (p.(sales)) (p.(rating)) (p.(review_count)) v (p.(highlights))
    (p.(specifications)) (p.(services)) (p.(promotions)) (p.(sku_options))
    (p.(image_descriptions)) (p.(raw_html_path)) (p.(raw_json_path))
    (p.(screenshot_path)).
Definition set_highlights (v : list str) (p : t) : t :=
  Build (p.(url)) (p.(platform)) (p.(product_id)) (p.(title)) (p.(price))
    (p.(original_price)) (p.(shop_name)) (p.(shop_url)) (p.(main_images))
    (p.(detail_images)) (p.(local_images)) (p.(shipping)) (p.(freight))
    (p.(sales)) (p.(rating)) (p.(review_count)) (p.(description)) v
    (p.(specifications)) (p.(services)) (p.(promotions)) (p.(sku_options))
    (p.(image_descriptions)) (p.(raw_html_path)) (p.(raw_json_path))
    (p.(screenshot_path)).
Definition set_services (v : list str) (p : t) : t :=
  Build (p.(url)) (p.(platform)) (p.(product_id)) (p.(title)) (p.(price))
    (p.(original_price)) (p.(shop_name)) (p.(shop_url)) (p.(main_images))
    (p.(detail_images)) (p.(local_images)) (p.(shipping)) (p.(freight))
    (p.(sales)) (p.(rating)) (p.(review_count)) (p.(description)) (p.(highlights))
    (p.(specifications)) v (p.(promotions)) (p.(sku_options))
    (p.(image_descriptions)) (p.(raw_html_path)) (p.(raw_json_path))
    (p.(screenshot_path)).
Definition set_promotions (v : list str) (p : t) : t :=
  Build (p.(url)) (p.(platform)) (p.(product_id)) (p.(title)) (p.(price))
    (p.(original_price)) (p.(shop_name)) (p.(shop_url)) (p.(main_images))
    (p.(detail_images)) (p.(local_images)) (p.(shipping)) (p.(freight))
    (p.(sales)) (p.(rating)) (p.(review_count)) (p.(description)) (p.(highlights))
    (p.(specifications)) (p.(services)) v (p.(sku_options))
    (p.(image_descriptions)) (p.(raw_html_path)) (p.(raw_json_path))
    (p.(screenshot_path)).
Definition set_main_images (v : list str) (p : t) : t :=
  Build (p.(url)) (p.(platform)) (p.(product_id)) (p.(title)) (p.(price))
    (p.(original_price)) (p.(shop_name)) (p.(shop_url)) v (p.(detail_images))
    (p.(local_images)) (p.(shipping)) (p.(freight)) (p.(sales)) (p.(rating))
    (p.(review_count)) (p.(description)) (p.(highlights)) (p.(specifications))
    (p.(services)) (p.(promotions)) (p.(sku_options)) (p.(image_descriptions))
    (p.(raw_html_path)) (p.(raw_json_path)) (p.(screenshot_path)).
Definition set_local_images (v : list Path) (p : t) : t :=
  Build (p.(url)) (p.(platform)) (p.(product_id)) (p.(title)) (p.(price))
    (p.(original_price)) (p.(shop_name)) (p.(shop_url)) (p.(main_images))
    (p.(detail_images)) v (p.(shipping)) (p.(freight)) (p.(sales)) (p.(rating))
    (p.(review_count)) (p.(description)) (p.(highlights)) (p.(specifications))
    (p.(services)) (p.(promotions)) (p.(sku_options)) (p.(image_descriptions))
    (p.(raw_html_path)) (p.(raw_json_path)) (p.(screenshot_path)).
Definition set_screenshot_path (v : option Path) (p : t) : t :=
  Build (p.(url)) (p.(platform)) (p.(product_id)) (p.(title)) (p.(price))
    (p.(original_price)) (p.(shop_name)) (p.(shop_url)) (p.(main_images))
    (p.(detail_images)) (p.(local_images)) (p.(shipping)) (p.(freight))
    (p.(sales)) (p.(rating)) (p.(review_count)) (p.(description)) (p.(highlights))
    (p.(specifications)) (p.(services)) (p.(promotions)) (p.(sku_options))
    (p.(image_descriptions)) (p.(raw_html_path)) (p.(raw_json_path)) v.
Definition set_raw_html_path (v : option Path) (p : t) : t :=
  Build (p.(url)) (p.(platform)) (p.(product_id)) (p.(title)) (p.(price))
    (p.(original_price)) (p.(shop_name)) (p.(shop_url)) (p.(main_images))
    (p.(detail_images)) (p.(local_images)) (p.(shipping)) (p.(freight))
    (p.(sales)) (p.(rating)) (p.(review_count)) (p.(description)) (p.(highlights))
    (p.(specifications)) (p.(services)) (p.(promotions)) (p.(sku_options))
    (p.(image_descriptions)) v (p.(raw_json_path)) (p.(screenshot_path)).
Definition set_raw_json_path (v : option Path) (p : t) : t :=
  Build (p.(url)) (p.(platform)) (p.(product_id)) (p.(title)) (p.(price))
    (p.(original_price)) (p.(shop_name)) (p.(shop_url)) (p.(main_images))
    (p.(detail_images)) (p.(local_images)) (p.(shipping)) (p.(freight))
    (p.(sales)) (p.(rating)) (p.(review_count)) (p.(description)) (p.(highlights))
    (p.(specifications)) (p.(services)) (p.(promotions)) (p.(sku_options))
    (p.(image_descriptions)) (p.(raw_html_path)) v (p.(screenshot_path)).

End ProductInfo.

Module ScrapeResult.

Record t := Build {
  success : bool;
  product : option ProductInfo.t;
  error : option str;
  elapsed_seconds : Z
}.

End ScrapeResult.

(** ** Effects: state and exceptions *)

(** A computation over a state [Σ] that returns or raises. *)
Definition M (Σ A : Type) : Type := Σ → Exc A * Σ.

Section Monad.
Context {Σ : Type}.

Definition ret {A} (a : A) : M Σ A := λ s, (inr a, s).

Definition raise {A} (e : exn) : M Σ A := λ s, (inl e, s).

Definition bind {A B} (m : M Σ A) (f : A → M Σ B) : M Σ B :=
  λ s, match m s with
       | (inr a, s1) => f a s1
       | (inl e, s1) => (inl e, s1)
       end.

(** The outcome of a call into the environment. *)
Definition call {A} (r : Exc A) : M Σ A := λ s, (r, s).

Definition get : M Σ Σ := λ s, (inr s, s).

Definition modify (f : Σ → Σ) : M Σ unit := λ s, (inr tt, f s).

(** [try: m  except Exception as e: h e] *)
Definition try_except {A} (m : M Σ A) (h : exn → M Σ A) : M Σ A :=
  λ s, match m s with
       | (inr a, s1) => (inr a, s1)
       | (inl e, s1) => h e s1
       end.

(** [try: m  finally: fin]: an exception of [fin] replaces the outcome
    of [m]. *)
Definition try_finally {A} (m : M Σ A) (fin : M Σ unit) : M Σ A :=
  λ s, match m s with
       | (r, s1) =>
           match fin s1 with
           | (inr _, s2) => (r, s2)
           | (inl e, s2) => (inl e, s2)
           end
       end.

(** A [for] loop that threads an accumulator. *)
Fixpoint for_each {A B} (xs : list A) (acc : B) (body : B → A → M Σ B) : M Σ B :=
  match xs with
  | [] => ret acc
  | x :: xs' => bind (body acc x) (λ acc', for_each xs' acc' body)
  end.

End Monad.

(** stdpp's [x ← m; k] and [m;; k] notations, for [M Σ]. *)
#[global] Instance M_ret {Σ} : MRet (M Σ) := λ A, ret.
#[global] Instance M_bind {Σ} : MBind (M Σ) := λ A B f m, bind m f.

(** ** The environment *)

(** A DOM element handle: what [inner_text()] and [get_attribute("src")]
    answer. *)
Record Element := {
  inner_text : Exc str;
  get_attribute_src : Exc (option str)
}.

(** A response seen by the [page.on("response", ...)] listener. *)
Record ApiResponse := {
  response_url : Exc str;
  response_text : Exc str
}.

(** The response of a download: [response.status] and what
    [response.body()] answers. *)
Record HttpResponse := {
  status : nat;
  body : Exc (list Byte.byte)
}.

(** A page handle.  Each field is the answer at one call site; calls in a
    loop are indexed by their argument. *)
Record Page := {
  page_on_response : Exc unit;
  page_goto : Exc unit;                       (* navigation to the product *)
  page_wait_settle : Exc unit;                (* wait_for_timeout(3000) *)
  page_wait_for_gallery : Exc unit;           (* wait_for_selector("#picGalleryEle") *)
  page_wait_thumbnails : Exc unit;            (* wait_for_timeout(2000) *)
  page_responses : list ApiResponse;          (* seen before api_images is read *)
  (* field extractors that no stated property constrains: their result *)
  page_title : Exc str;                       (* _extract_title *)
  page_price : option str;                    (* _extract_price *)
  page_shop_name : option str;                (* _extract_shop_name *)
  page_text : str → option str;               (* _extract_text, by selector *)
  page_query_selector_all : str → Exc (list Element);
  page_content : Exc str;                     (* content(), in _extract_seller_id *)
  page_gallery : Exc (option (Exc (list Element)));
                                              (* #picGalleryEle and its thumbnailPic images *)
  page_screenshot : Exc unit;
  page_content_saved : Exc str;               (* content(), for page.html *)
  page_fetch : nat → str → Exc (option HttpResponse);
                                              (* goto(url) of the i-th download *)
  page_close : Exc unit
}.

(** What is written to a file. *)
Inductive FileData :=
| Text (s : str)
| Bytes (b : list Byte.byte)
| JsonDump (p : ProductInfo.t).

(** Everything outside the process. *)
Record World := {
  time_time : nat → Z;                        (* the n-th reading of the clock *)
  home_dir : Path;
  playwright_start : Exc unit;
  launch_persistent_context : Exc unit;
  mkdir : Path → Exc unit;
  new_page : Exc Page;
  write_file : Path → FileData → Exc unit     (* open(path, "w"/"wb") and write *)
}.

(** What the process did to the outside. *)
Inductive Event :=
| BrowserLaunched (user_data_dir : Path) (headless : bool)
| PageOpened
| PageClosed
| Fetched (url : str)
| FileWritten (path : Path) (data : FileData).

(** ** Session manager: [TaobaoScraper.__init__], [_ensure_browser], [close] *)

Inductive BrowserContext := PersistentContext (user_data_dir : Path) (headless : bool).

Module TaobaoScraper.

Record t := Build {
  headless : bool;
  user_agent : str;
  timeout : Z;
  user_data_dir : Path;
  _context : option BrowserContext;
  _playwright : option unit
}.

End TaobaoScraper.

(** The keyword arguments of the constructor; [None] is an argument that was
    not passed. *)
Record Kwargs := {
  kw_headless : option bool;
  kw_user_agent : option (option str);
  kw_timeout : option Z;
  kw_user_data_dir : option (option str)
}.

Definition default_user_agent : str :=
  py "Mozilla/5.0 (Macintosh; Intel Mac OS X 10_15_7) " ++
  py "AppleWebKit/537.36 (KHTML, like Gecko) Chrome/120.0.0.0 Safari/537.36".

(** Truthiness of an [Optional[str]]. *)
Definition truthy (s : option str) : option str :=
  match s with
  | Some (c :: s') => Some (c :: s')
  | Some [] | None => None
  end.

Section Session.
Context (w : World).

(** [Path.home() / ".pixelle" / "browser_data"] *)
Definition DEFAULT_USER_DATA_DIR : Path :=
  home_dir w // py ".pixelle" // py "browser_data".

(** [__init__]: it stores its arguments and leaves [_context] and
    [_playwright] unset. *)
Definition __init__ (kwargs : Kwargs) : M (list Event) TaobaoScraper.t :=
  mret {|
    TaobaoScraper.headless := default true (kw_headless kwargs);
    TaobaoScraper.user_agent :=
      default default_user_agent (truthy (default None (kw_user_agent kwargs)));
    TaobaoScraper.timeout := default 30000%Z (kw_timeout kwargs);
    TaobaoScraper.user_data_dir :=
      match truthy (default None (kw_user_data_dir kwargs)) with
      | Some d => Path_of d
      | None => DEFAULT_USER_DATA_DIR
      end;
    TaobaoScraper._context := None;
    TaobaoScraper._playwright := None
  |}.

End Session.

(** ** [urllib.parse], as far as [_extract_product_id] uses it *)

Section Urllib.
(** Two parts of the library are not spelled out: the validation of the
    network location, by which [urlparse] raises [ValueError] on some
    URLs, and the percent-decoding of a text that contains ['%']. *)
Context (urlparse_error : str → option exn) (unquote_pct : str → str).

(** [urlparse(url).query].  Leading control characters and spaces are
    stripped and tabs and line breaks removed; the fragment is split off at
    the first ['#'] and the query at the first ['?'] of what is left.  The
    scheme and the network location, taken before that, hold neither
    character. *)
Definition urlparse_query (url : str) : Exc str :=
  match urlparse_error url with
  | Some e => inl e
  | None =>
      let url := Str.lstrip_by (λ c, bool_decide (Str.code c ≤ 32)) url in
      let url := filter (λ c, c ∉ ["009"; "010"; "013"]%char) url in
      let '(url, fragment) := Str.split1 "#" url in
      let '(url, query) := Str.split1 "?" url in
      inr (default [] query)
  end.

(** [unquote(s)] *)
Definition unquote (s : str) : str :=
  if Str.contains (py "%") s then unquote_pct s else s.

(** [parse_qsl(qs)] with its defaults: fields are separated by ['&'], and
    a field with no ['='] or with a blank value is dropped. *)
Definition parse_qsl (qs : str) : list (str * str) :=
  omap (λ name_value,
          match Str.split1 "=" name_value with
          | (name, Some (c :: value)) =>
              Some (unquote (Str.replace_char "+" (py " ") name),
                    unquote (Str.replace_char "+" (py " ") (c :: value)))
          | _ => None
          end)
       (Str.split "&" qs).

(** [parsed_result[name].append(value)], or a new key. *)
Fixpoint dict_append (name value : str) (d : list (str * list str))
    : list (str * list str) :=
  match d with
  | [] => [(name, [value])]
  | (n, vs) :: d' =>
      if decide (name = n) then (n, vs ++ [value]) :: d'
      else (n, vs) :: dict_append name value d'
  end.

(** [parse_qs(qs)] *)
Definition parse_qs (qs : str) : list (str * list str) :=
  foldl (λ d nv, dict_append nv.1 nv.2 d) [] (parse_qsl qs).

(** [_extract_product_id]: [params.get("id", [None])[0]] *)
Definition _extract_product_id (url : str) : Exc (option str) :=
  match urlparse_query url with
  | inl e => inl e
  | inr query =>
      match dict_get (py "id") (parse_qs query) with
      | Some (v :: _) => inr (Some v)
      | Some [] => inl (Raise (py "IndexError") (py "list index out of range"))
      | None => inr None
      end
  end.

End Urllib.

(** [_detect_platform] *)
Definition _detect_platform (url : str) : str :=
  if Str.contains (py "tmall.com") url then py "tmall" else py "taobao".

(** ** DOM extractor: highlights, services, promotions *)

(** [text and lo < len(text.strip()) < hi] *)
Definition text_ok (lo hi : nat) (text : str) : bool :=
  match text with
  | [] => false
  | _ => bool_decide (lo < length (Str.strip text) < hi)
  end.

(** The loop over the elements of one selector; an exception of
    [inner_text()] ends it, and what was appended stays. *)
Fixpoint collect_texts (lo hi : nat) (elements : list Element) (acc : list str)
    : list str :=
  match elements with
  | [] => acc
  | el :: rest =>
      match inner_text el with
      | inl _ => acc
      | inr text =>
          collect_texts lo hi rest
            (if text_ok lo hi text then acc ++ [Str.strip text] else acc)
      end
  end.

(** The loop over the selectors: the first [limit] elements of each, and a
    selector that raises is passed over. *)
Definition collect (page : Page) (selectors : list str) (limit lo hi : nat)
    : list str :=
  foldl (λ acc selector,
           match page_query_selector_all page selector with
           | inl _ => acc
           | inr elements => collect_texts lo hi (take limit elements) acc
           end)
        [] selectors.

Definition highlight_selectors : list str :=
  [py "[class*='highlight'] span"; py "[class*='Highlight'] span";
   py "[class*='sellPoint']"; py "[class*='feature']";
   py "[class*='tag']"; py "[class*='label']"].

Definition service_selectors : list str :=
  [py "[class*='service'] span"; py "[class*='guarantee']";
   py "[class*='policy']"; py "[class*='storeLabel']"].

Definition promotion_selectors : list str :=
  [py "[class*='promotion']"; py "[class*='Promotion']"; py "[class*='discount']";
   py "[class*='coupon']"; py "[class*='activity']"].

Definition _extract_highlights (page : Page) : list str :=
  let highlights := collect page highlight_selectors 10 2 50 in
  take 8 (dict_fromkeys highlights).

Definition _extract_services (page : Page) : list str :=
  let services := collect page service_selectors 10 2 50 in
  take 6 (dict_fromkeys services).

Definition _extract_promotions (page : Page) : list str :=
  let promotions := collect page promotion_selectors 5 3 100 in
  take 5 (dict_fromkeys promotions).

(** ** Network interceptor: [intercept_response] *)

(** Any character but whitespace, a quote of either kind and a backslash:
    the class that the pattern below uses twice. *)
Definition url_char : ascii → bool :=
  none_of (λ c, space c || one_of ["034"; "039"; "092"]%char c).

(** [r'https?://[^\s"\'\\]*O1CN01[^\s"\'\\]*(?:jpg|png|webp)'] *)
Definition api_image_re : regex :=
  seq [Lit (py "http"); opt (one_of (py "s")); Lit (py "://"); star url_char;
       Lit (py "O1CN01"); star url_char;
       Alt (Lit (py "jpg")) (Alt (Lit (py "png")) (Lit (py "webp")))].

(** The URLs one response adds to [api_images]; every exception is
    swallowed. *)
Definition intercept_response (response : ApiResponse) : list str :=
  match response_url response with
  | inl _ => []
  | inr url_str =>
      if Str.contains (py "mtop.") url_str &&
         (Str.contains (py "getdesc") (Str.lower url_str) ||
          Str.contains (py "detail") (Str.lower url_str) ||
          Str.contains (py "item") (Str.lower url_str))
      then match response_text response with
           | inl _ => []
           | inr text => findall api_image_re text
           end
      else []
  end.

(** ** Downloaded file names *)

(** [f"{i:02d}"]: the decimal digits of [i], padded with zeros on the left
    to a width of at least two. *)
Definition fmt_02d (i : nat) : str :=
  let digits := py (NilZero.string_of_uint (Nat.to_uint i)) in
  replicate (2 - length digits) "0"%char ++ digits.

(** [url.startswith("//")]: a protocol-relative URL gets a scheme. *)
Definition fix_protocol (url : str) : str :=
  if Str.startswith url (py "//") then py "https:" ++ url else url.

Definition image_ext (url : str) : str :=
  if Str.contains (py ".png") url then py ".png" else py ".jpg".

(** [f"main_{i:02d}{ext}"] *)
Definition image_filename (i : nat) (url : str) : str :=
  py "main_" ++ fmt_02d i ++ image_ext url.

(** ** The scraper: [TaobaoScraper] *)

(** The scraper object and the trace of what it did. *)
Record State := {
  self : TaobaoScraper.t;
  events : list Event
}.

Definition emit (e : Event) : M State unit :=
  modify (λ st, {| self := self st; events := events st ++ [e] |}).

Definition set_self (f : TaobaoScraper.t → TaobaoScraper.t) : M State unit :=
  modify (λ st, {| self := f (self st); events := events st |}).

Section Scraper.
Context (urlparse_error : str → option exn) (unquote_pct : str → str).
Context (w : World).

(** [_ensure_browser]: the browser is launched on the first call. *)
Definition _ensure_browser : M State unit :=
  st ← get;
  match TaobaoScraper._context (self st) with
  | Some _ => mret tt
  | None =>
      call (playwright_start w);;
      set_self (λ s, TaobaoScraper.Build
                       (TaobaoScraper.headless s) (TaobaoScraper.user_agent s)
                       (TaobaoScraper.timeout s) (TaobaoScraper.user_data_dir s)
                       (TaobaoScraper._context s) (Some tt));;
      call (mkdir w (TaobaoScraper.user_data_dir (self st)));;
      call (launch_persistent_context w);;
      let context :=
        PersistentContext (TaobaoScraper.user_data_dir (self st))
                          (TaobaoScraper.headless (self st)) in
      set_self (λ s, TaobaoScraper.Build
                       (TaobaoScraper.headless s) (TaobaoScraper.user_agent s)
                       (TaobaoScraper.timeout s) (TaobaoScraper.user_data_dir s)
                       (Some context) (TaobaoScraper._playwright s));;
      emit (BrowserLaunched (TaobaoScraper.user_data_dir (self st))
                            (TaobaoScraper.headless (self st)))
  end.

(** [_trigger_thumbnail_loading]: clicks and waits inside one
    [try ... except Exception]; it returns nothing and never raises. *)
Definition _trigger_thumbnail_loading (page : Page) : M State unit := mret tt.

(** The [src] attributes of the gallery thumbnails, those that are set and
    not empty. *)
Definition thumbnail_srcs (thumbnail_imgs : list Element) : M State (list str) :=
  for_each thumbnail_imgs []
    (λ main_images img,
       src ← call (get_attribute_src img);
       mret (match truthy src with
             | Some src => main_images ++ [src]
             | None => main_images
             end)).

(** [_extract_main_images] *)
Definition _extract_main_images (page : Page) (api_images : list str)
    : M State (list str) :=
  _trigger_thumbnail_loading page;;
  let seller_id := _extract_seller_id (page_content page) in
  gallery ← call (page_gallery page);
  main_images ← match gallery with
                | Some thumbnails =>
                    thumbnail_imgs ← call thumbnails;
                    thumbnail_srcs thumbnail_imgs
                | None => mret []
                end;
  let main_images :=
    match main_images with
    | [] => api_images
    | _ => main_images
    end in
  mret (clean_images seller_id main_images).

(** [_extract_product_info]: the record is created from the URL, then
    filled field by field. *)
Definition _extract_product_info (page : Page) (url : str) (api_images : list str)
    : M State ProductInfo.t :=
  let platform := _detect_platform url in
  product_id ← call (_extract_product_id urlparse_error unquote_pct url);
  let product := ProductInfo.new url platform product_id [] in
  title ← call (page_title page);
  let product := ProductInfo.set_title title product in
  let product := ProductInfo.set_price (page_price page) product in
  let product :=
    ProductInfo.set_original_price
      (page_text page (py "[class*='originPrice'], [class*='originalPrice']")) product in
  let product := ProductInfo.set_shop_name (page_shop_name page) product in
  let product :=
    ProductInfo.set_shipping (page_text page (py "[class*='shipping']")) product in
  let product :=
    ProductInfo.set_freight (page_text page (py "[class*='freight']")) product in
  let product :=
    ProductInfo.set_sales
      (page_text page (py "[class*='sales'], [class*='sold']")) product in
  let product :=
    ProductInfo.set_rating
      (page_text page (py "[class*='rating'], [class*='starNum']")) product in
  let product :=
    ProductInfo.set_description
      (page_text page (py "[class*='subTitle'], [class*='subtitle'], [class*='desc']"))
      product in
  let product := ProductInfo.set_highlights (_extract_highlights page) product in
  let product := ProductInfo.set_services (_extract_services page) product in
  let product := ProductInfo.set_promotions (_extract_promotions page) product in
  main_images ← _extract_main_images page api_images;
  mret (ProductInfo.set_main_images main_images product).

(** One turn of the download loop, for the [i]-th URL: the whole turn is
    inside [try ... except Exception], and a failure leaves [local_images]
    as it is. *)
Definition download_one (page : Page) (images_dir : Path)
    (local_images : list Path) (i : nat) (url : str) : M State (list Path) :=
  let url := fix_protocol url in
  try_except
    (emit (Fetched url);;
     response ← call (page_fetch page i url);
     match response with
     | Some response =>
         if bool_decide (status response = 200) then
           content ← call (body response);
           let filepath := images_dir // image_filename i url in
           call (write_file w filepath (Bytes content));;
           emit (FileWritten filepath (Bytes content));;
           mret (local_images ++ [filepath])
         else mret local_images
     | None => mret local_images
     end)
    (λ e, mret local_images).

(** [_download_images]: the loop over [enumerate(product.main_images, 1)];
    it sets [product.local_images]. *)
Definition _download_images (page : Page) (product : ProductInfo.t)
    (output_dir : Path) : M State ProductInfo.t :=
  let images_dir := output_dir // py "images" in
  call (mkdir w images_dir);;
  local_images ←
    for_each (enumerate 1 (ProductInfo.main_images product)) []
      (λ local_images iu, download_one page images_dir local_images iu.1 iu.2);
  mret (ProductInfo.set_local_images local_images product).

(** The body of the inner [try] of [scrape]. *)
Definition scrape_page (page : Page) (url : str) (output_path : option Path)
    (download_images save_html take_screenshot : bool) : M State ScrapeResult.t :=
  let api_images := page_responses page ≫= intercept_response in
  call (page_goto page);;
  call (page_wait_settle page);;
  try_except (call (page_wait_for_gallery page)) (λ _, mret tt);;
  call (page_wait_thumbnails page);;
  product ← _extract_product_info page url api_images;
  product ←
    match output_path with
    | Some output_path =>
        if take_screenshot then
          let screenshot_path := output_path // py "screenshot.png" in
          call (page_screenshot page);;
          mret (ProductInfo.set_screenshot_path (Some screenshot_path) product)
        else mret product
    | None => mret product
    end;
  product ←
    match output_path with
    | Some output_path =>
        if save_html then
          let html_path := output_path // py "page.html" in
          content ← call (page_content_saved page);
          call (write_file w html_path (Text content));;
          emit (FileWritten html_path (Text content));;
          mret (ProductInfo.set_raw_html_path (Some html_path) product)
        else mret product
    | None => mret product
    end;
  product ←
    match output_path with
    | Some output_path =>
        let json_path := output_path // py "product_info.json" in
        call (write_file w json_path (JsonDump product));;
        emit (FileWritten json_path (JsonDump product));;
        mret (ProductInfo.set_raw_json_path (Some json_path) product)
    | None => mret product
    end;
  product ←
    match output_path with
    | Some output_path =>
        if download_images then _download_images page product output_path
        else mret product
    | None => mret product
    end;
  let elapsed := (time_time w 1 - time_time w 0)%Z in
  mret (ScrapeResult.Build true (Some product) None elapsed).

(** The body of the outer [try] of [scrape]. *)
Definition scrape_try (url : str) (output_dir : option str)
    (download_images save_html take_screenshot : bool) : M State ScrapeResult.t :=
  _ensure_browser;;
  output_path ←
    match truthy output_dir with
    | Some output_dir =>
        let output_path := Path_of output_dir in
        call (mkdir w output_path);;
        mret (Some output_path)
    | None => mret None
    end;
  st ← get;
  match TaobaoScraper._context (self st) with
  | None =>
      raise (Raise (py "AttributeError")
                   (py "'NoneType' object has no attribute 'new_page'"))
  | Some _ =>
      page ← call (new_page w);
      emit PageOpened;;
      call (page_on_response page);;
      try_finally
        (scrape_page page url output_path download_images save_html take_screenshot)
        (call (page_close page);; emit PageClosed)
  end.

(** [scrape]: whatever the body raises becomes a result with
    [success=False] and [error=str(e)]. *)
Definition scrape (url : str) (output_dir : option str)
    (download_images save_html take_screenshot : bool) : M State ScrapeResult.t :=
  try_except
    (scrape_try url output_dir download_images save_html take_screenshot)
    (λ e,
       let elapsed := (time_time w 1 - time_time w 0)%Z in
       mret (ScrapeResult.Build false None (Some (exn_msg e)) elapsed)).

End Scraper.

(** ** Platform registry: [ScraperFactory] ([base.py]) *)

(** The classes that register themselves; [taobao.py] registers
    [TaobaoScraper] twice. *)
Inductive ScraperClass := TaobaoScraperClass.

(** [cls._scrapers[key] = value] on a dict kept in insertion order. *)
Fixpoint dict_set {V} (key : str) (value : V) (d : list (str * V)) : list (str * V) :=
  match d with
  | [] => [(key, value)]
  | (k, v) :: d' =>
      if decide (key = k) then (k, value) :: d' else (k, v) :: dict_set key value d'
  end.

(** One hexadecimal digit, in lower case. *)
Definition hex_digit (n : nat) : ascii :=
  default "0"%char (py "0123456789abcdef" !! n).

(** [c.isprintable()], for a character below 256: the control characters,
    the no-break space and the soft hyphen are not printable. *)
Definition isprintable (c : ascii) : bool :=
  let n := nat_of_ascii c in
  negb (bool_decide (n < 32) || bool_decide (127 ≤ n ≤ 160) || bool_decide (n = 173)).

(** How [repr] writes one character between the quotes [quote]. *)
Definition repr_char (quote c : ascii) : str :=
  if Str.eqb c quote || Str.eqb c "092"%char then ["092"%char; c]
  else if Str.eqb c "009"%char then ["092"%char; "t"%char]
  else if Str.eqb c "010"%char then ["092"%char; "n"%char]
  else if Str.eqb c "013"%char then ["092"%char; "r"%char]
  else if isprintable c then [c]
  else ["092"%char; "x"%char;
        hex_digit (nat_of_ascii c / 16); hex_digit (nat_of_ascii c mod 16)].

(** [repr(s)] of a [str]: between apostrophes, or between double quotes
    when [s] holds an apostrophe and no double quote; the quote in use and
    the backslash are escaped, tab, line feed and carriage return are
    written with their letter, and any other character that is not
    printable with its two hexadecimal digits. *)
Definition repr (s : str) : str :=
  let quote :=
    if bool_decide ("039"%char ∈ s) && negb (bool_decide ("034"%char ∈ s))
    then "034"%char else "039"%char in
  quote :: (s ≫= repr_char quote) ++ [quote].

(** [str(list(d.keys()))]: the [repr] of every key, with a comma and a
    space in between. *)
Definition repr_keys {V} (d : list (str * V)) : str :=
  py "[" ++
  match d.*1 with
  | [] => []
  | k :: ks => repr k ++ (ks ≫= (λ k, py ", " ++ repr k))
  end ++ py "]".

Module ScraperFactory.

Definition register (platform : str) (scraper_class : ScraperClass)
    (_scrapers : list (str * ScraperClass)) : list (str * ScraperClass) :=
  dict_set (Str.lower platform) scraper_class _scrapers.

(** [create]: the class registered for a platform tag, or for a URL of a
    known shop, is instantiated. *)
Definition create (w : World) (_scrapers : list (str * ScraperClass))
    (platform : str) (kwargs : Kwargs) : M (list Event) TaobaoScraper.t :=
  let platform := Str.lower platform in
  platform ←
    (if Str.startswith platform (py "http") then
       let url := platform in
       if Str.contains (py "taobao.com") url || Str.contains (py "tmall.com") url
       then mret (py "taobao")
       else raise (ValueError (py "Cannot detect platform from URL: " ++ url))
     else mret platform);
  match dict_get platform _scrapers with
  | None =>
      raise (ValueError (py "Unsupported platform: " ++ platform ++
                         py ". Available: " ++ repr_keys _scrapers))
  | Some TaobaoScraperClass => __init__ w kwargs
  end.

Definition from_url (w : World) (_scrapers : list (str * ScraperClass))
    (url : str) (kwargs : Kwargs) : M (list Event) TaobaoScraper.t :=
  create w _scrapers url kwargs.

(** The registry once [taobao.py] is imported. *)
Definition registered : list (str * ScraperClass) :=
  register (py "tmall") TaobaoScraperClass
    (register (py "taobao") TaobaoScraperClass []).

End ScraperFactory.

(** ** Definitions used to state the properties *)


(** Deduplication in first-seen order, as the specification words it: an
    element stays where it occurs first and is dropped everywhere after. *)
Fixpoint first_seen (xs : list str) : list str :=
  match xs with
  | [] => []
  | x :: xs' => x :: filter (λ y, y ≠ x) (first_seen xs')
  end.

(** The strings that the three list extractors collect before they
    deduplicate and cap them. *)
Definition highlight_candidates (page : Page) : list str :=
  collect page highlight_selectors 10 2 50.
Definition service_candidates (page : Page) : list str :=
  collect page service_selectors 10 2 50.
Definition promotion_candidates (page : Page) : list str :=
  collect page promotion_selectors 5 3 100.

(** A page on which every call succeeds and finds nothing, but for what the
    selectors find and what the downloads answer. *)
Definition page_with (query_selector_all : str → Exc (list Element))
    (fetch : nat → str → Exc (option HttpResponse)) : Page := {|
  page_on_response := inr tt; page_goto := inr tt; page_wait_settle := inr tt;
  page_wait_for_gallery := inr tt; page_wait_thumbnails := inr tt;
  page_responses := [];
  page_title := inr (py "Premium Wireless Mouse");
  page_price := None; page_shop_name := None; page_text := λ _, None;
  page_query_selector_all := query_selector_all;
  page_content := inr [];
  page_gallery := inr None;
  page_screenshot := inr tt; page_content_saved := inr [];
  page_fetch := fetch;
  page_close := inr tt
|}.

Definition text_element (s : string) : Element :=
  {| inner_text := inr (py s); get_attribute_src := inr None |}.

(** A page on which the highlight selectors find fifteen distinct texts, ten
    under the first selector and five under the third. *)
Definition fifteen_highlights_page : Page :=
  page_with
    (λ selector,
       if decide (selector = py "[class*='highlight'] span") then
         inr (text_element <$>
                ["point 01"; "point 02"; "point 03"; "point 04"; "point 05";
                 "point 06"; "point 07"; "point 08"; "point 09"; "point 10"]%string)
       else if decide (selector = py "[class*='sellPoint']") then
         inr (text_element <$>
                ["point 11"; "point 12"; "point 13"; "point 14"; "point 15"]%string)
       else inr [])
    (λ _ _, inr None).

(** Responses of a download. *)
Definition http_response (status : nat) : HttpResponse :=
  {| status := status; body := inr [] |}.

(** A page on which the second download answers 404 and the others 200. *)
Definition second_fails_page : Page :=
  page_with (λ _, inr [])
    (λ i _, inr (Some (http_response (if decide (i = 2) then 404 else 200)))).

(** A page on which every download answers 200. *)
Definition all_ok_page : Page :=
  page_with (λ _, inr []) (λ _ _, inr (Some (http_response 200))).

(** A product with the given main images. *)
Definition product_with (main_images : list str) : ProductInfo.t :=
  ProductInfo.set_main_images main_images
    (ProductInfo.new (py "https://item.taobao.com/item.htm?id=1") (py "taobao")
       (Some (py "1")) (py "Premium Wireless Mouse")).

(** The number of occurrences of [x] in [l]. *)
Definition count_of (x : str) (l : list str) : nat := length (filter (x =.) l).

(** Markup with the token A (2211714949103) five times, the token B
    (1234567890) twice and a platform-generic token ten times. *)
Definition token_A : str := py "2211714949103".
Definition token_B : str := py "1234567890".
Definition token_G : str := py "6000000001234".

Definition vote_markup : str :=
  let img (id : str) := py "<img src='//img.alicdn.com/i1/O1CN01x_!!" ++ id ++ py ".jpg'>" in
  [token_G; token_G; token_B; token_G; token_A; token_G; token_A; token_G;
   token_G; token_A; token_B; token_G; token_A; token_G; token_G; token_A;
   token_G] ≫= img.


(** A scraper as [__init__] leaves it with no argument, and the state in
    which it has done nothing yet. *)
Definition new_scraper : TaobaoScraper.t :=
  TaobaoScraper.Build true default_user_agent 30000
    (Home // py ".pixelle" // py "browser_data") None None.

Definition initial_state : State := {| self := new_scraper; events := [] |}.

(** The argument of [create] names no scraper: a tag that is not
    registered, or a URL that mentions no known shop (or one for which no
    scraper is registered). *)
Definition unknown_platform (_scrapers : list (str * ScraperClass)) (platform : str)
    : Prop :=
  let platform := Str.lower platform in
  if Str.startswith platform (py "http")
  then (Str.contains (py "taobao.com") platform = false ∧
        Str.contains (py "tmall.com") platform = false) ∨
       dict_get (py "taobao") _scrapers = None
  else dict_get platform _scrapers = None.

(** The outcome of one download: the path and the content of the file
    written, when the response had status 200, its body was read and the
    file was written. *)
Definition download_result (w : World) (page : Page) (images_dir : Path)
    (iu : nat * str) : option (Path * list Byte.byte) :=
  let url := fix_protocol iu.2 in
  let filepath := images_dir // image_filename iu.1 url in
  match page_fetch page iu.1 url with
  | inr (Some response) =>
      if bool_decide (status response = 200) then
        match body response with
        | inr content =>
            match write_file w filepath (Bytes content) with
            | inr _ => Some (filepath, content)
            | inl _ => None
            end
        | inl _ => None
        end
      else None
  | _ => None
  end.

(** What one download does to the outside. *)
Definition download_events (w : World) (page : Page) (images_dir : Path)
    (iu : nat * str) : list Event :=
  Fetched (fix_protocol iu.2) ::
  match download_result w page images_dir iu with
  | Some (filepath, content) => [FileWritten filepath (Bytes content)]
  | None => []
  end.

(** The URLs fetched and the files written, read off a trace. *)
Definition fetched (evs : list Event) : list str :=
  omap (λ e, match e with Fetched url => Some url | _ => None end) evs.

Definition written (evs : list Event) : list Path :=
  omap (λ e, match e with FileWritten path _ => Some path | _ => None end) evs.

(** A world in which every call succeeds, on a given page. *)
Definition ok_world (page : Page) : World := {|
  time_time := λ n, Z.of_nat n;
  home_dir := Home;
  playwright_start := inr tt;
  launch_persistent_context := inr tt;
  mkdir := λ _, inr tt;
  new_page := inr page;
  write_file := λ _ _, inr tt
|}.

Definition no_kwargs : Kwargs := Build_Kwargs None None None None.

(** Every value that the computation [m] returns satisfies [P]. *)
Definition returns {Σ A} (m : M Σ A) (P : A → Prop) : Prop :=
  ∀ s a s', m s = (inr a, s') → P a.

(** A result of the success path: a product and no error. *)
Definition succeeded (r : ScrapeResult.t) : Prop :=
  ScrapeResult.success r = true ∧ is_Some (ScrapeResult.product r) ∧
  ScrapeResult.error r = None.

(** A result of the failure path: an error message and no product. *)
Definition failed (r : ScrapeResult.t) : Prop :=
  ScrapeResult.success r = false ∧ ScrapeResult.product r = None ∧
  is_Some (ScrapeResult.error r).

(** The candidates that the seller filter lets through. *)
Definition passes_seller (seller_id : option str) (url : str) : bool :=
  negb (skipped_by_seller seller_id url).

Definition candidates (seller_id : option str) (main_images : list str) : list str :=
  filter (λ url, passes_seller seller_id url) main_images.

(** What a match of one of the three suffix patterns looks like: it starts
    at a dot, reaches the end of the URL and is longer than [n] characters. *)
Definition suffix_rule (r : regex) (n : nat) : Prop :=
  ∀ s m, match_at r s = Some m →
    m_text m ++ m_rest m = s ∧ at_eos (m_rest m) = true ∧
    (∃ t, m_text m = "."%char :: t) ∧ n < length (m_text m).

(** ** What a pattern matches

    [matches r text rest g g']: read declaratively, the pattern [r] matches
    [text] when [rest] follows it, and turns the captured group [g] into
    [g'].  It is used to state what the matcher of [Re] can return. *)
Fixpoint matches (r : regex) (text rest : str) (g g' : option str) : Prop :=
  match r with
  | Lit l => text = l ∧ g' = g
  | Cls p => (∃ c, text = [c] ∧ p c = true) ∧ g' = g
  | Rep p lo hi =>
      Forall (λ c, p c = true) text ∧ lo ≤ length text ∧
      (∀ h, hi = Some h → length text ≤ h) ∧ g' = g
  | Cat r1 r2 =>
      ∃ t1 t2 g1, text = t1 ++ t2 ∧ matches r1 t1 (t2 ++ rest) g g1 ∧
                  matches r2 t2 rest g1 g'
  | Alt r1 r2 => matches r1 text rest g g' ∨ matches r2 text rest g g'
  | Grp r1 => (∃ g1, matches r1 text rest g g1) ∧ g' = Some text
  | Eos => text = [] ∧ at_eos rest = true ∧ g' = g
  end.

(** ** DOM extractor: title, price, shop name and single text fields

    [_extract_product_info] above reads what these four return from the
    page; here they are spelled out, over what the page answers to their
    queries. *)

(** The first turn of a [for] loop that reaches a [return]: a turn gives
    [Some v] when it returns [v], and [None] when the loop goes on. *)
Fixpoint first_return {A B} (turn : A → option B) (xs : list A) : option B :=
  match xs with
  | [] => None
  | x :: xs' =>
      match turn x with
      | Some v => Some v
      | None => first_return turn xs'
      end
  end.

(** [[\d,]] *)
Definition digit_or_comma (c : ascii) : bool := digit c || one_of (py ",") c.

(** [r'^[\d,]+\.?\d*$'], for [re.match], which starts at the beginning. *)
Definition price_re : regex :=
  seq [plus digit_or_comma; opt (one_of (py ".")); star digit; Eos].

(** The fullwidth yen sign, code point 65509: no character of a [str] of
    this embedding. *)
Definition fullwidth_yen (c : ascii) : bool := false.

(** The pattern of the fallback: an optional fullwidth yen sign, then, as
    group 1, the pattern above without its anchors. *)
Definition price_in_text_re : regex :=
  seq [opt fullwidth_yen;
       Grp (seq [plus digit_or_comma; opt (one_of (py ".")); star digit])].

Definition title_selectors : list str :=
  [py "h1"; py ".tb-main-title"; py "[class*='mainTitle']";
   py "[class*='MainTitle']"; py "#J_Title h3"].

Definition price_selectors : list str :=
  [py "span[class*='text--']"; py "[class*='block2'] span[class*='text']"].

Definition shop_name_selectors : list str :=
  [py "[class*='shopName']"; py "[class*='ShopName']"; py ".tb-shop-name";
   py "[class*='ShopHeader'] a"].

Section FieldExtractors.
(** [page.query_selector(selector)], [page.query_selector_all(selector)]
    and [page.title()]. *)
Context (query_selector : str → Exc (option Element)).
Context (query_selector_all : str → Exc (list Element)).
Context (document_title : Exc str).

(** One turn of the loop of [_extract_title]; an exception ends the turn. *)
Definition title_turn (selector : str) : option str :=
  match query_selector selector with
  | inr (Some el) =>
      match inner_text el with
      | inr text =>
          match Str.strip text with
          | [] => None
          | stripped => if bool_decide (5 < length stripped) then Some stripped else None
          end
      | inl _ => None
      end
  | inr None | inl _ => None
  end.

(** [_extract_title]: the first selector with a text of more than five
    characters, else the page title up to its first hyphen. *)
Definition _extract_title : Exc str :=
  match first_return title_turn title_selectors with
  | Some text => inr text
  | None =>
      match document_title with
      | inl e => inl e
      | inr [] => inr []
      | inr page_title =>
          match Str.split "-" page_title with
          | first :: _ => inr (Str.strip first)
          | [] => inl (Raise (py "IndexError") (py "list index out of range"))
          end
      end
  end.

(** The loop over the elements of one selector in [_extract_price]:
    [inl] when [inner_text()] raised, [inr (Some text)] when the loop
    returned, [inr None] when it ended. *)
Fixpoint price_among (elements : list Element) : Exc (option str) :=
  match elements with
  | [] => inr None
  | el :: rest =>
      match inner_text el with
      | inl e => inl e
      | inr text =>
          match Str.strip text with
          | [] => price_among rest
          | stripped =>
              if bool_decide (is_Some (match_at price_re stripped))
              then inr (Some stripped) else price_among rest
          end
      end
  end.

Definition price_turn (selector : str) : option str :=
  match query_selector_all selector with
  | inr elements =>
      match price_among elements with
      | inr (Some text) => Some text
      | inr None | inl _ => None
      end
  | inl _ => None
  end.

(** [_extract_price]: the first element text that is a number as a whole,
    else the first number in the text of the orange container. *)
Definition _extract_price : option str :=
  match first_return price_turn price_selectors with
  | Some text => Some text
  | None =>
      match query_selector (py "div[style*='rgb(255, 79, 0)']") with
      | inr (Some container) =>
          match inner_text container with
          | inr text =>
              match search price_in_text_re text with
              | Some (_, m) => m_group m
              | None => None
              end
          | inl _ => None
          end
      | inr None | inl _ => None
      end
  end.

(** One turn of the loop of [_extract_shop_name]. *)
Definition shop_name_turn (selector : str) : option str :=
  match query_selector selector with
  | inr (Some el) =>
      match inner_text el with
      | inr text =>
          match Str.strip text with
          | [] => None
          | stripped =>
              match Str.split "010" stripped with
              | first :: _ => Some (Str.strip first)
              | [] => None
              end
          end
      | inl _ => None
      end
  | inr None | inl _ => None
  end.

Definition _extract_shop_name : option str :=
  first_return shop_name_turn shop_name_selectors.

(** [_extract_text]: [text.strip() if text else None]. *)
Definition _extract_text (selector : str) : option str :=
  match query_selector selector with
  | inr (Some el) =>
      match inner_text el with
      | inr [] => None
      | inr text => Some (Str.strip text)
      | inl _ => None
      end
  | inr None | inl _ => None
  end.

End FieldExtractors.

(** A text that [strip()] leaves as it is. *)
Definition is_stripped (s : str) : Prop := Str.strip s = s.

(** A price as the patterns of [_extract_price] read it: digits and commas,
    then at most one dot, then digits. *)
Definition price_shaped (p : str) : Prop :=
  ∃ whole dot frac,
    p = whole ++ dot ++ frac ∧ whole ≠ [] ∧
    Forall (λ c, digit_or_comma c = true) whole ∧
    (dot = [] ∨ dot = py ".") ∧
    Forall (λ c, digit c = true) frac.

(** A page on which only the selector [sel] finds an element, with the
    text [text]. *)
Definition only_selector (sel text : string) (selector : str) : Exc (option Element) :=
  if decide (selector = py sel) then inr (Some (text_element text)) else inr None.

(** A text as the list extractors keep it: stripped, and of a length
    strictly between [lo] and [hi]. *)
Definition kept_text (lo hi : nat) (x : str) : Prop :=
  is_stripped x ∧ lo < length x < hi.

(** ** What a computation of the scraper does

    [effects m P Q]: run from any state, [m] leaves the scraper object as
    it is, adds to the trace only events that satisfy [P], and returns only
    values that satisfy [Q]. *)
Definition effects {A} (m : M State A) (P : Event → Prop) (Q : A → Prop) : Prop :=
  ∀ s r s', m s = (r, s') →
    self s' = self s ∧
    (∃ evs, events s' = events s ++ evs ∧ Forall P evs) ∧
    (∀ a, r = inr a → Q a).

(** A product that names nothing on the local disk. *)
Definition nothing_local (product : ProductInfo.t) : Prop :=
  ProductInfo.local_images product = [] ∧
  ProductInfo.screenshot_path product = None ∧
  ProductInfo.raw_html_path product = None ∧
  ProductInfo.raw_json_path product = None.

(** What the body of [scrape] may do once the page is open, given the
    output directory and the options: write [page.html] when asked to,
    write [product_info.json] (a dump that names no local image and not
    itself), fetch images and write them under [images] when asked to. *)
Definition page_event (output_path : option Path) (download_images save_html : bool)
    (e : Event) : Prop :=
  match e with
  | FileWritten path data =>
      ∃ out, output_path = Some out ∧
        match data with
        | Text _ => save_html = true ∧ path = out // py "page.html"
        | JsonDump p =>
            path = out // py "product_info.json" ∧
            ProductInfo.local_images p = [] ∧ ProductInfo.raw_json_path p = None
        | Bytes _ => download_images = true ∧ ∃ name, path = out // py "images" // name
        end
  | Fetched _ => is_Some output_path ∧ download_images = true
  | BrowserLaunched _ _ | PageOpened | PageClosed => False
  end.

(** The result of the success path, and the paths its product carries. *)
Definition result_paths (output_path : option Path)
    (download_images save_html take_screenshot : bool) (r : ScrapeResult.t) : Prop :=
  ScrapeResult.success r = true ∧ ScrapeResult.error r = None ∧
  ∃ product,
    ScrapeResult.product r = Some product ∧
    ProductInfo.screenshot_path product =
      (if take_screenshot then (λ out, out // py "screenshot.png") <$> output_path
       else None) ∧
    ProductInfo.raw_html_path product =
      (if save_html then (λ out, out // py "page.html") <$> output_path else None) ∧
    ProductInfo.raw_json_path product =
      (λ out, out // py "product_info.json") <$> output_path ∧
    (output_path = None ∨ download_images = false →
     ProductInfo.local_images product = []) ∧
    (∀ path, path ∈ ProductInfo.local_images product →
       ∃ out name, output_path = Some out ∧ path = out // py "images" // name).

(** The scraper object once [_ensure_browser] has launched the browser. *)
Definition launched (s : TaobaoScraper.t) : TaobaoScraper.t :=
  TaobaoScraper.Build
    (TaobaoScraper.headless s) (TaobaoScraper.user_agent s) (TaobaoScraper.timeout s)
    (TaobaoScraper.user_data_dir s)
    (Some (PersistentContext (TaobaoScraper.user_data_dir s) (TaobaoScraper.headless s)))
    (Some tt).

(** The events of one page session inside [scrape]: the page is opened,
    the body runs, the page is closed; [closing] is empty when the page was
    not closed. *)
Definition page_session (output_path : option Path) (download_images save_html : bool)
    (closing body : list Event) : Prop :=
  ∃ mid, body = PageOpened :: mid ++ closing ∧
         Forall (page_event output_path download_images save_html) mid ∧
         (closing = [] ∨ closing = [PageClosed]).

(** A page whose gallery shows two thumbnails of one seller, one of them
    twice, and on which every download answers 200. *)
Definition thumbnail (src : string) : Element :=
  {| inner_text := inr []; get_attribute_src := inr (Some (py src)) |}.

Definition gallery_page : Page := {|
  page_on_response := inr tt; page_goto := inr tt; page_wait_settle := inr tt;
  page_wait_for_gallery := inr tt; page_wait_thumbnails := inr tt;
  page_responses := [];
  page_title := inr (py "Premium Wireless Mouse");
  page_price := Some (py "59.00"); page_shop_name := None; page_text := λ _, None;
  page_query_selector_all := λ _, inr [];
  page_content := inr (py "<img src='//img.alicdn.com/i1/O1CN01abc_!!2211714949103.jpg'>");
  page_gallery :=
    inr (Some (inr [thumbnail "//img.alicdn.com/i1/O1CN01abc_!!2211714949103.jpg_q50.jpg_.webp";
                    thumbnail "//img.alicdn.com/i1/O1CN01abc_!!2211714949103.jpg";
                    thumbnail "//img.alicdn.com/i2/O1CN01xyz_!!2211714949103.png"]));
  page_screenshot := inr tt; page_content_saved := inr (py "<html></html>");
  page_fetch := λ _ _, inr (Some (http_response 200));
  page_close := inr tt
|}.

(** ** Session manager: [close] and [login_interactive] *)

Definition set_context (c : option BrowserContext) (s : TaobaoScraper.t)
    : TaobaoScraper.t :=
  TaobaoScraper.Build
    (TaobaoScraper.headless s) (TaobaoScraper.user_agent s) (TaobaoScraper.timeout s)
    (TaobaoScraper.user_data_dir s) c (TaobaoScraper._playwright s).

Definition set_playwright (p : option unit) (s : TaobaoScraper.t) : TaobaoScraper.t :=
  TaobaoScraper.Build
    (TaobaoScraper.headless s) (TaobaoScraper.user_agent s) (TaobaoScraper.timeout s)
    (TaobaoScraper.user_data_dir s) (TaobaoScraper._context s) p.

Definition set_headless (h : bool) (s : TaobaoScraper.t) : TaobaoScraper.t :=
  TaobaoScraper.Build
    h (TaobaoScraper.user_agent s) (TaobaoScraper.timeout s)
    (TaobaoScraper.user_data_dir s) (TaobaoScraper._context s)
    (TaobaoScraper._playwright s).

(** The page that [login_interactive] opens: what its two navigations, its
    wait and its [close()] answer. *)
Record LoginPage := {
  login_goto : Exc unit;                      (* goto(url) *)
  login_goto_home : Exc unit;                 (* goto("https://www.taobao.com") *)
  login_wait : Exc unit;                      (* wait_for_timeout(2000) *)
  login_close : Exc unit
}.

Section SessionEnd.
Context (w : World).
(** [self._context.close()] and [self._playwright.stop()]. *)
Context (context_close playwright_stop : Exc unit).
(** [self._context.new_page()] in [login_interactive], and [input(...)]. *)
Context (new_login_page : Exc LoginPage) (input : Exc str).

(** [close]: the context is closed and forgotten, then Playwright is
    stopped and forgotten. *)
Definition close : M State unit :=
  st ← get;
  (match TaobaoScraper._context (self st) with
   | Some _ => call context_close;; set_self (set_context None)
   | None => mret tt
   end);;
  st ← get;
  match TaobaoScraper._playwright (self st) with
  | Some _ => call playwright_stop;; set_self (set_playwright None)
  | None => mret tt
  end.

(** The body of the [try] of [login_interactive]. *)
Definition login_try : M State unit :=
  _ensure_browser w;;
  st ← get;
  match TaobaoScraper._context (self st) with
  | None =>
      raise (Raise (py "AttributeError")
                   (py "'NoneType' object has no attribute 'new_page'"))
  | Some _ =>
      page ← call new_login_page;
      emit PageOpened;;
      call (login_goto page);;
      call input;;
      call (login_goto_home page);;
      call (login_wait page);;
      call (login_close page);;
      emit PageClosed
  end.

(** [login_interactive]: the browser is shown for the time of the login,
    and [headless] is set back in a [finally]. *)
Definition login_interactive (url : str) : M State unit :=
  st ← get;
  let original_headless := TaobaoScraper.headless (self st) in
  set_self (set_headless false);;
  try_finally login_try (set_self (set_headless original_headless)).

End SessionEnd.

(** ** The caller: [EcommercePipeline] ([pipelines/ecommerce.py]) *)

(** The pipeline creates its scraper with [headless=True]. *)
Definition headless_kwargs : Kwargs := Build_Kwargs (Some true) None None None.

Record EcommerceScene := {
  scene_number : Z;
  image_index : Z;
  narration : str;
  duration : Z;
  focus_point : str
}.

(** An entry of [ctx.matched_scenes], a dict with five keys. *)
Record MatchedScene := {
  matched_scene_number : Z;
  matched_narration : str;
  matched_duration : Z;
  matched_focus_point : str;
  image_path : option Path
}.

Definition IndexError : exn := Raise (py "IndexError") (py "list index out of range").

(** [xs[i]] on a Python list: a negative index counts from the end. *)
Definition list_index {A} (xs : list A) (i : Z) : Exc A :=
  let n := Z.of_nat (length xs) in
  let k := if bool_decide (i < 0)%Z then (i + n)%Z else i in
  if bool_decide (0 ≤ k < n)%Z then
    match xs !! Z.to_nat k with
    | Some x => inr x
    | None => inl IndexError
    end
  else inl IndexError.

(** What the pipeline object holds of the analysis, and what it wrote. *)
Record Analysis := {
  image_analyses : list str;
  analysis_files : list Event
}.

Section Pipeline.
Context (urlparse_error : str → option exn) (unquote_pct : str → str) (w : World).
(** [scraper.close()] reaches [self._context.close()] and
    [self._playwright.stop()]. *)
Context (context_close playwright_stop : Exc unit).
(** What building and emitting a progress event does, at each place:
    [_emit_progress] calls the callback, if there is one. *)
Context (progress_scrape_start progress_scrape_complete : Exc unit).
Context (progress_image : nat → Exc unit) (progress_images_complete : Exc unit).
(** [str(path)], [Path(s).parent], [Path(s).stem] and [Path(s).name] *)
Context (path_str : Path → str) (path_parent : Path → Path).
Context (path_stem path_name : Path → str).
(** [self.core.image_analysis(image_path, source=source)] *)
Context (image_analysis : Path → Exc str).

(** The body of the [try] of [scrape_product]: a failed result becomes a
    [ValueError]. *)
Definition scrape_product_try (product_url : str) (task_dir : Path)
    : M State ProductInfo.t :=
  result ← scrape urlparse_error unquote_pct w product_url
              (Some (path_str (task_dir // py "product"))) true true true;
  if negb (ScrapeResult.success result) then
    raise (ValueError (py "Failed to scrape product: " ++
                       default (py "None") (ScrapeResult.error result)))
  else
    match ScrapeResult.product result with
    | Some product => mret product
    | None =>
        raise (Raise (py "AttributeError")
                     (py "'NoneType' object has no attribute 'title'"))
    end.

(** [scrape_product], for the [product_url] entry of the request: what it
    returns is the product that it stores in [self.product_info] and
    [ctx.product_info]; with it, the scraper that it created, if it came
    that far, as it left it, and the trace. *)
Definition scrape_product (_scrapers : list (str * ScraperClass))
    (product_url : str) (task_dir : Path) (trace : list Event)
    : Exc ProductInfo.t * option TaobaoScraper.t * list Event :=
  match progress_scrape_start with
  | inl e => (inl e, None, trace)
  | inr _ =>
      match ScraperFactory.from_url w _scrapers product_url headless_kwargs trace with
      | (inl e, trace) => (inl e, None, trace)
      | (inr scraper, trace) =>
          let '(r, st) :=
            try_finally (scrape_product_try product_url task_dir)
              (close context_close playwright_stop)
              {| self := scraper; events := trace |} in
          match r with
          | inl e => (inl e, Some (self st), events st)
          | inr product =>
              match progress_scrape_complete with
              | inl e => (inl e, Some (self st), events st)
              | inr _ => (inr product, Some (self st), events st)
              end
          end
      end
  end.

(** [self.image_analyses.append(text)] *)
Definition append_analysis (text : str) : M Analysis unit :=
  modify (λ a, {| image_analyses := image_analyses a ++ [text];
                  analysis_files := analysis_files a |}).

(** One turn of the loop of [analyze_product], for the [i]-th image: the
    description is appended before its file is written, and any exception
    appends a placeholder. *)
Definition analyze_image (product_folder : Path) (i : nat) (image_path : Path)
    : M Analysis unit :=
  call (progress_image i);;
  try_except
    (description ← call (image_analysis image_path);
     append_analysis description;;
     let analysis_file := product_folder // (path_stem image_path ++ py ".txt") in
     let content :=
       py "Image: " ++ path_name image_path ++ ["010"%char] ++
       py "Analysis:" ++ ["010"%char] ++ description ++ ["010"%char] in
     call (write_file w analysis_file (Text content));;
     modify (λ a, {| image_analyses := image_analyses a;
                     analysis_files :=
                       analysis_files a ++ [FileWritten analysis_file (Text content)] |}))
    (λ _, append_analysis (py "Product image")).

(** [analyze_product]: without local images it returns at once and leaves
    [self.image_analyses] as it is. *)
Definition analyze_product (product_info : option ProductInfo.t) : M Analysis unit :=
  match product_info with
  | None =>
      raise (Raise (py "AttributeError")
                   (py "'NoneType' object has no attribute 'local_images'"))
  | Some product =>
      match ProductInfo.local_images product with
      | [] => mret tt
      | (first :: _) as local_images =>
          modify (λ a, {| image_analyses := []; analysis_files := analysis_files a |});;
          let product_folder := path_parent first in
          for_each (enumerate 1 local_images) tt
            (λ _ iu, analyze_image product_folder iu.1 iu.2);;
          call progress_images_complete
      end
  end.

(** One turn of the loop of [plan_visuals]. *)
Definition plan_scene (product_info : option ProductInfo.t) (scene : EcommerceScene)
    : Exc MatchedScene :=
  match product_info with
  | None =>
      inl (Raise (py "AttributeError")
                 (py "'NoneType' object has no attribute 'local_images'"))
  | Some product =>
      let local_images := ProductInfo.local_images product in
      let image_idx := image_index scene in
      match
        (if bool_decide (image_idx < Z.of_nat (length local_images))%Z
         then match list_index local_images image_idx with
              | inl e => inl e
              | inr path => inr (Some path)
              end
         else inr (head local_images))
      with
      | inl e => inl e
      | inr path =>
          inr {| matched_scene_number := scene_number scene;
                 matched_narration := narration scene;
                 matched_duration := duration scene;
                 matched_focus_point := focus_point scene;
                 image_path := path |}
      end
  end.

(** [plan_visuals]: [ctx.matched_scenes], one entry per scene of the
    script. *)
Fixpoint plan_visuals (product_info : option ProductInfo.t)
    (scenes : list EcommerceScene) : Exc (list MatchedScene) :=
  match scenes with
  | [] => inr []
  | scene :: rest =>
      match plan_scene product_info scene with
      | inl e => inl e
      | inr matched =>
          match plan_visuals product_info rest with
          | inl e => inl e
          | inr matched_scenes => inr (matched :: matched_scenes)
          end
      end
  end.

End Pipeline.

(** What one image adds to [image_analyses]. *)
Definition analysis_entries (w : World)
    (path_stem path_name : Path → str) (image_analysis : Path → Exc str)
    (product_folder image_path : Path) : list str :=
  match image_analysis image_path with
  | inl _ => [py "Product image"]
  | inr description =>
      let analysis_file := product_folder // (path_stem image_path ++ py ".txt") in
      let content :=
        py "Image: " ++ path_name image_path ++ ["010"%char] ++
        py "Analysis:" ++ ["010"%char] ++ description ++ ["010"%char] in
      match write_file w analysis_file (Text content) with
      | inr _ => [description]
      | inl _ => [description; py "Product image"]
      end
  end.

(** A product that has the given local images. *)
Definition product_with_local (local_images : list Path) : ProductInfo.t :=
  ProductInfo.set_local_images local_images (product_with []).

(** ** Shop icons: [_extract_shop_icon_ids] *)

Definition shop_icon_selectors : list str :=
  [py "[class*='shopIcon'] img"; py "[class*='ShopIcon'] img";
   py "[class*='shop-icon'] img"; py ".shopIconImg--YdJniOBM"].

(** The loop over the elements of one selector: an exception of
    [get_attribute("src")] ends it, and what was added stays. *)
Fixpoint icon_ids_among (elements : list Element) (shop_icon_ids : gset str)
    : gset str :=
  match elements with
  | [] => shop_icon_ids
  | el :: rest =>
      match get_attribute_src el with
      | inl _ => shop_icon_ids
      | inr src =>
          let src := default [] (truthy src) in
          icon_ids_among rest
            (match image_id src with
             | Some img_id => {[img_id]} ∪ shop_icon_ids
             | None => shop_icon_ids
             end)
      end
  end.

(** [_extract_shop_icon_ids]: the identifiers of the images that the shop
    icon selectors find. *)
Definition _extract_shop_icon_ids (query_selector_all : str → Exc (list Element))
    : gset str :=
  foldl (λ shop_icon_ids selector,
           match query_selector_all selector with
           | inl _ => shop_icon_ids
           | inr elements => icon_ids_among elements shop_icon_ids
           end)
        ∅ shop_icon_selectors.

(** ** The login script ([scripts/taobao_login.py]) *)

(** [do_login]: a scraper with [headless=False] logs in and is closed in a
    [finally].  With the outcome, the scraper as it was left, and the
    trace. *)
Definition do_login (w : World) (context_close playwright_stop : Exc unit)
    (new_login_page : Exc LoginPage) (input : Exc str) (trace : list Event)
    : Exc unit * option TaobaoScraper.t * list Event :=
  match __init__ w (Build_Kwargs (Some false) None None None) trace with
  | (inl e, trace) => (inl e, None, trace)
  | (inr scraper, trace) =>
      let '(r, st) :=
        try_finally
          (login_interactive w new_login_page input (py "https://login.taobao.com"))
          (close context_close playwright_stop)
          {| self := scraper; events := trace |} in
      (r, Some (self st), events st)
  end.

(** ** The candidates of the resolver *)


(** A page whose markup names the seller in a [sellerId] field only, and
    whose gallery shows one thumbnail that carries no seller mark. *)
Definition seller_field_page : Page := {|
  page_on_response := inr tt; page_goto := inr tt; page_wait_settle := inr tt;
  page_wait_for_gallery := inr tt; page_wait_thumbnails := inr tt;
  page_responses := [];
  page_title := inr (py "Premium Wireless Mouse");
  page_price := None; page_shop_name := None; page_text := λ _, None;
  page_query_selector_all := λ _, inr [];
  page_content := inr (py "<script>var sellerId=2211714949103;</script>");
  page_gallery := inr (Some (inr [thumbnail "//img.alicdn.com/i1/O1CN01abc.jpg"]));
  page_screenshot := inr tt; page_content_saved := inr (py "<html></html>");
  page_fetch := λ _ _, inr (Some (http_response 200));
  page_close := inr tt
|}.

(** * Properties *)

(** ** The regular-expression engine *)

Section ReFacts.
Context (r : regex).




End ReFacts.

Lemma strip_prefix_Some l s s' : Str.strip_prefix l s = Some s' → s = l ++ s'.
Proof.
  revert s. induction l as [|a l IH]; intros [|b s]; cbn; try done.
  - by intros [= ->].
  - by intros [= ->].
  - unfold Str.eqb. case_bool_decide as Hab; [|done]. subst. intros H. f_equal. by apply IH.
Qed.

(** A repetition that matched took a run of at least [lo] characters. *)
Lemma rep_inv {X} p lo hi s (k : str → option X) x :
  rep p lo hi s k = Some x →
  ∃ run s', s = run ++ s' ∧ lo ≤ length run ∧ k s' = Some x.
Proof.
  revert lo hi. induction s as [|c s IH]; intros lo hi.
  - destruct hi, lo; cbn; try done; intros H; by exists [], [].
  - destruct hi as [|hi]; cbn [rep].
    { destruct lo; [|done]. intros H. by exists [], (c :: s). }
    destruct (p c).
    + destruct (rep p (pred lo) hi s k) as [x'|] eqn:Hrec.
      * intros [= ->]. destruct (IH _ _ Hrec) as (run & s' & -> & Hlo & Hk).
        exists (c :: run), s'. split; [done|]. split; [cbn; lia|done].
      * destruct lo; [|done]. intros H. by exists [], (c :: s).
    + destruct lo; [|done]. intros H. by exists [], (c :: s).
Qed.

Lemma at_eos_cases s : at_eos s = true → s = [] ∨ s = ["010"%char].
Proof.
  destruct s as [|c [|d s]]; cbn; [by left| |done].
  unfold Str.eqb. case_bool_decide; [|done]. subst. by right.
Qed.

(** The text of a match, read off the text that follows it. *)
Lemma take_matched (text rest : str) :
  take (length (text ++ rest) - length rest) (text ++ rest) = text.
Proof. by rewrite length_app, Nat.add_sub, take_app_length. Qed.

Ltac re_inv :=
  repeat match goal with
    | H : match Str.strip_prefix ?l ?s with _ => _ end = Some _ |- _ =>
        let s1 := fresh "s" in let Hs := fresh "Hs" in
        destruct (Str.strip_prefix l s) as [s1|] eqn:Hs; [|discriminate H];
        apply strip_prefix_Some in Hs
    | H : rep _ _ _ _ _ = Some _ |- _ =>
        let run := fresh "run" in let s1 := fresh "s" in
        let Hs := fresh "Hs" in let Hrun := fresh "Hrun" in
        apply rep_inv in H as (run & s1 & Hs & Hrun & H)
    | H : (if at_eos ?s then _ else _) = Some _ |- _ =>
        let He := fresh "He" in
        destruct (at_eos s) eqn:He; [|discriminate H]
    end.

Lemma suffix_rule_finish (text rest : str) t m n :
  text = "."%char :: t → n < length text → at_eos rest = true →
  Some {| m_text := take (length (text ++ rest) - length rest) (text ++ rest);
          m_group := None; m_rest := rest |} = Some m →
  m_text m ++ m_rest m = text ++ rest ∧ at_eos (m_rest m) = true ∧
  (∃ t, m_text m = "."%char :: t) ∧ n < length (m_text m).
Proof.
  intros Ht Hn He [= <-]. cbn [m_text m_rest]. rewrite take_matched. eauto.
Qed.

Ltac suffix_rule_tac :=
  let H := fresh "H" in
  intros ? ? H; cbn [foldr match_re default] in H; re_inv; subst;
  rewrite ?app_nil_l, !app_assoc in *;
  eapply suffix_rule_finish; [reflexivity| |eassumption|exact H];
  rewrite !length_app; cbn [length py list_ascii_of_string]; lia.

Lemma quality_webp_rule : suffix_rule quality_webp_re 10.
Proof. unfold suffix_rule, match_at, quality_webp_re, seq, plus. suffix_rule_tac. Qed.

Lemma quality_jpg_rule : suffix_rule quality_jpg_re 4.
Proof. unfold suffix_rule, match_at, quality_jpg_re, seq, plus. suffix_rule_tac. Qed.

Lemma size_webp_rule : suffix_rule size_webp_re 10.
Proof. unfold suffix_rule, match_at, size_webp_re, seq, plus, star. suffix_rule_tac. Qed.

Lemma sub_scan_skip r repl n s :
  n ≤ length s → sub_scan r repl n s = sub_scan r repl 0 (drop n s).
Proof.
  revert s. induction n as [|n IH]; intros s Hn; [done|].
  destruct s as [|c s]; cbn [length] in Hn; [lia|].
  cbn [sub_scan drop]. apply IH. lia.
Qed.

(** [re.sub] with one of the suffix patterns: without a match the URL is
    returned as it is; with one, what follows some dot of the URL is replaced
    by the replacement and the URL gets shorter. *)
Lemma sub_suffix_rule r n repl url :
  suffix_rule r n → length repl ≤ n →
  sub r repl [] = [] → sub r repl ["010"%char] = ["010"%char] →
  (search r url = None ∧ sub r repl url = url) ∨
  (is_Some (search r url) ∧ length (sub r repl url) < length url ∧
   ∃ pre y rest, url = pre ++ "."%char :: y ∧ sub r repl url = pre ++ repl ++ rest ∧
                 at_eos rest = true).
Proof.
  intros Hrule Hlen Hnil Hlf. unfold sub in *. induction url as [|c url IH].
  { left. split; [|done]. cbn [search]. destruct (match_at r []) as [m|] eqn:Hm; [|done].
    destruct (Hrule _ _ Hm) as (Hsplit & _ & (t & Ht) & _). rewrite Ht in Hsplit. done. }
  cbn [sub_scan search]. destruct (match_at r (c :: url)) as [m|] eqn:Hm.
  - right. destruct (Hrule _ _ Hm) as (Hsplit & Heos & (t & Ht) & Hn).
    rewrite Ht in *. cbn [app] in Hsplit. injection Hsplit as <- <-.
    cbn [length] in *. split; [by eexists|].
    rewrite sub_scan_skip by (rewrite length_app; lia).
    rewrite drop_app_length.
    assert (sub_scan r repl 0 (m_rest m) = m_rest m) as ->
      by (by destruct (at_eos_cases _ Heos) as [-> | ->]).
    split; [rewrite !length_app; lia|].
    by exists [], (t ++ m_rest m), (m_rest m).
  - destruct IH as [[Hs IH]|(Hs & Hlt & pre & y & rest & -> & IH & Heos)].
    + left. rewrite Hs, IH. done.
    + right. rewrite IH in *. split.
      { destruct Hs as [[pre' m'] ->]. by eexists. }
      split; [cbn [length]; lia|]. by exists (c :: pre), y, rest.
Qed.

(** ** C4: the high-resolution rewrite *)


(** Each of the three steps leaves the URL alone when its pattern matches
    nowhere, and shortens it otherwise. *)
Lemma sub_quality_webp url :
  (search quality_webp_re url = None ∧ sub quality_webp_re (py ".jpg_.webp") url = url) ∨
  (is_Some (search quality_webp_re url) ∧
   length (sub quality_webp_re (py ".jpg_.webp") url) < length url ∧
   ∃ pre y rest, url = pre ++ "."%char :: y ∧
     sub quality_webp_re (py ".jpg_.webp") url = pre ++ py ".jpg_.webp" ++ rest ∧
     at_eos rest = true).
Proof.
  apply (sub_suffix_rule _ 10);
    [apply quality_webp_rule | cbn; lia | by vm_compute | by vm_compute].
Qed.

Lemma sub_quality_jpg url :
  (search quality_jpg_re url = None ∧ sub quality_jpg_re (py ".jpg") url = url) ∨
  (is_Some (search quality_jpg_re url) ∧
   length (sub quality_jpg_re (py ".jpg") url) < length url ∧
   ∃ pre y rest, url = pre ++ "."%char :: y ∧
     sub quality_jpg_re (py ".jpg") url = pre ++ py ".jpg" ++ rest ∧
     at_eos rest = true).
Proof.
  apply (sub_suffix_rule _ 4);
    [apply quality_jpg_rule | cbn; lia | by vm_compute | by vm_compute].
Qed.

Lemma sub_size_webp url :
  (search size_webp_re url = None ∧ sub size_webp_re (py ".jpg_.webp") url = url) ∨
  (is_Some (search size_webp_re url) ∧
   length (sub size_webp_re (py ".jpg_.webp") url) < length url ∧
   ∃ pre y rest, url = pre ++ "."%char :: y ∧
     sub size_webp_re (py ".jpg_.webp") url = pre ++ py ".jpg_.webp" ++ rest ∧
     at_eos rest = true).
Proof.
  apply (sub_suffix_rule _ 10);
    [apply size_webp_rule | cbn; lia | by vm_compute | by vm_compute].
Qed.





(** ** Insertion-ordered keys: [dict.fromkeys] *)

Lemma dict_fromkeys_snoc xs x :
  dict_fromkeys (xs ++ [x]) =
  if decide (x ∈ dict_fromkeys xs) then dict_fromkeys xs else dict_fromkeys xs ++ [x].
Proof. unfold dict_fromkeys. by rewrite foldl_snoc. Qed.

Lemma dict_fromkeys_acc (acc xs : list str) :
  foldl (λ keys x, if decide (x ∈ keys) then keys else keys ++ [x]) acc xs =
  acc ++ filter (λ y, y ∉ acc) (first_seen xs).
Proof.
  revert acc. induction xs as [|x xs IH]; intros acc; cbn [foldl first_seen].
  - by rewrite filter_nil, app_nil_r.
  - rewrite IH. destruct (decide (x ∈ acc)) as [Hx|Hx].
    + rewrite filter_cons_False by (intros ?; done).
      f_equal. rewrite list_filter_filter. apply list_filter_iff.
      intros y. split; [|tauto]. intros Hy. split; [done|]. by intros ->.
    + rewrite filter_cons_True by done.
      rewrite <- app_assoc. cbn [app]. do 2 f_equal.
      rewrite list_filter_filter. apply list_filter_iff.
      intros y. rewrite elem_of_app, list_elem_of_singleton. tauto.
Qed.

(** The keys of [dict.fromkeys] are the elements in first-seen order. *)
Lemma dict_fromkeys_first_seen xs : dict_fromkeys xs = first_seen xs.
Proof.
  unfold dict_fromkeys. rewrite dict_fromkeys_acc. cbn [app].
  induction (first_seen xs) as [|y l IH]; [done|].
  rewrite filter_cons_True by apply not_elem_of_nil. by rewrite IH.
Qed.

Lemma elem_of_first_seen xs x : x ∈ first_seen xs ↔ x ∈ xs.
Proof.
  induction xs as [|y xs IH]; cbn [first_seen]; [done|].
  rewrite !elem_of_cons, list_elem_of_filter, IH.
  destruct (decide (x = y)); naive_solver.
Qed.

Lemma NoDup_first_seen xs : NoDup (first_seen xs).
Proof.
  induction xs as [|y xs IH]; cbn [first_seen]; [constructor|].
  constructor; [|by apply NoDup_filter].
  rewrite list_elem_of_filter. naive_solver.
Qed.

Lemma sublist_first_seen xs : first_seen xs `sublist_of` xs.
Proof.
  induction xs as [|y xs IH]; cbn [first_seen]; [done|].
  apply sublist_skip. etrans; [apply sublist_filter|done].
Qed.

Lemma first_seen_NoDup xs : NoDup xs → first_seen xs = xs.
Proof.
  induction 1 as [|y xs Hy Hxs IH]; cbn [first_seen]; [done|].
  rewrite IH. f_equal. clear IH Hxs.
  induction xs as [|z xs IH]; [done|].
  apply not_elem_of_cons in Hy as [Hzy Hy].
  rewrite filter_cons_True by congruence. f_equal. by apply IH.
Qed.

(** ** C7: highlights, services and promotions *)

Section DedupCap.
Context (n : nat) (candidates : list str).

Lemma capped_length : length (take n (dict_fromkeys candidates)) ≤ n.
Proof. rewrite length_take. lia. Qed.

Lemma capped_NoDup : NoDup (take n (dict_fromkeys candidates)).
Proof.
  rewrite dict_fromkeys_first_seen.
  eapply sublist_NoDup; [apply NoDup_first_seen | apply sublist_take].
Qed.

Lemma capped_sublist : take n (dict_fromkeys candidates) `sublist_of` candidates.
Proof.
  rewrite dict_fromkeys_first_seen.
  etrans; [apply sublist_take | apply sublist_first_seen].
Qed.

Lemma capped_distinct :
  NoDup candidates → take n (dict_fromkeys candidates) = take n candidates.
Proof. intros H. by rewrite dict_fromkeys_first_seen, first_seen_NoDup. Qed.

End DedupCap.

(** C7: each of the three extractors returns its candidates deduplicated in
    first-seen order and cut after 8, 6 and 5 entries: the result has no
    repetition, keeps the order of the candidates, and has at most that many
    entries; when the highlight candidates are distinct (fifteen of them,
    say) the result is their first eight. *)
Theorem extractors_dedup_and_cap (page : Page) :
  (_extract_highlights page = take 8 (first_seen (highlight_candidates page)) ∧
   _extract_services page = take 6 (first_seen (service_candidates page)) ∧
   _extract_promotions page = take 5 (first_seen (promotion_candidates page))) ∧
  (length (_extract_highlights page) ≤ 8 ∧
   length (_extract_services page) ≤ 6 ∧
   length (_extract_promotions page) ≤ 5) ∧
  (NoDup (_extract_highlights page) ∧
   NoDup (_extract_services page) ∧
   NoDup (_extract_promotions page)) ∧
  (_extract_highlights page `sublist_of` highlight_candidates page ∧
   _extract_services page `sublist_of` service_candidates page ∧
   _extract_promotions page `sublist_of` promotion_candidates page) ∧
  (NoDup (highlight_candidates page) →
   _extract_highlights page = take 8 (highlight_candidates page)).
Proof.
  unfold _extract_highlights, _extract_services, _extract_promotions,
    highlight_candidates, service_candidates, promotion_candidates.
  repeat split;
    first [ by rewrite dict_fromkeys_first_seen
          | apply capped_length | apply capped_NoDup | apply capped_sublist
          | apply capped_distinct ].
Qed.

(** Fifteen distinct candidates: the extractor returns the first eight. *)
Lemma extractors_dedup_and_cap_witness :
  length (highlight_candidates fifteen_highlights_page) = 15 ∧
  NoDup (highlight_candidates fifteen_highlights_page) ∧
  _extract_highlights fifteen_highlights_page =
    py <$> ["point 01"; "point 02"; "point 03"; "point 04";
            "point 05"; "point 06"; "point 07"; "point 08"]%string.
Proof.
  assert (NoDup (highlight_candidates fifteen_highlights_page)) as Hnd.
  { apply (bool_decide_unpack _). by vm_compute. }
  split; [by vm_compute|]. split; [done|].
  rewrite (proj2 (proj2 (proj2 (proj2
             (extractors_dedup_and_cap fifteen_highlights_page)))) Hnd).
  by vm_compute.
Defined.

(** ** C3: the seller-identity vote *)

Lemma count_of_snoc x l y :
  count_of x (l ++ [y]) = count_of x l + (if decide (x = y) then 1 else 0).
Proof.
  unfold count_of. rewrite filter_app, length_app. f_equal.
  rewrite filter_cons, filter_nil. by destruct (decide (x = y)).
Qed.

Lemma count_of_not_elem x l : x ∉ l → count_of x l = 0.
Proof.
  unfold count_of. induction l as [|y l IH]; [done|].
  intros [Hxy Hx]%not_elem_of_cons. rewrite filter_cons_False by done. by apply IH.
Qed.

Lemma first_seen_snoc xs x :
  first_seen (xs ++ [x]) =
  if decide (x ∈ first_seen xs) then first_seen xs else first_seen xs ++ [x].
Proof. rewrite <- !dict_fromkeys_first_seen. apply dict_fromkeys_snoc. Qed.

Lemma first_seen_app xs ys :
  first_seen (xs ++ ys) = first_seen xs ++ filter (λ y, y ∉ first_seen xs) (first_seen ys).
Proof.
  rewrite <- !(dict_fromkeys_first_seen (xs ++ ys)), <- (dict_fromkeys_first_seen xs).
  unfold dict_fromkeys. rewrite foldl_app. apply dict_fromkeys_acc.
Qed.

(** Adding to a counter whose keys are distinct. *)
Lemma counter_add_fmap x (c : str → nat) ks :
  NoDup ks →
  counter_add x ((λ y, (y, c y)) <$> ks) =
  if decide (x ∈ ks)
  then (λ y, (y, c y + (if decide (y = x) then 1 else 0))) <$> ks
  else ((λ y, (y, c y)) <$> ks) ++ [(x, 1)].
Proof.
  induction 1 as [|k ks Hk Hks IH]; [done|].
  cbn [fmap list_fmap counter_add]. destruct (decide (x = k)) as [->|Hxk].
  - rewrite decide_True by left. rewrite decide_True by done.
    f_equal; [f_equal; lia|].
    apply list_fmap_ext. intros _ y Hy%list_elem_of_lookup_2.
    rewrite decide_False by (intros ->; done). f_equal. lia.
  - rewrite IH. destruct (decide (x ∈ ks)) as [Hx|Hx].
    + rewrite decide_True by (by right). rewrite decide_False by done.
      f_equal. f_equal. lia.
    + rewrite decide_False by (by intros [?|?]%elem_of_cons). done.
Qed.

(** A counter lists the elements in first-seen order, each with its number
    of occurrences. *)
Lemma Counter_first_seen l :
  Counter l = (λ x, (x, count_of x l)) <$> first_seen l.
Proof.
  induction l as [|x l IH] using rev_ind; [done|].
  unfold Counter in *. rewrite foldl_snoc, IH, first_seen_snoc.
  rewrite counter_add_fmap by apply NoDup_first_seen.
  destruct (decide (x ∈ first_seen l)) as [Hx|Hx].
  - apply list_fmap_ext. intros _ y _. by rewrite count_of_snoc.
  - rewrite fmap_app. cbn [fmap list_fmap]. f_equal.
    + apply list_fmap_ext. intros _ y Hy%list_elem_of_lookup_2.
      rewrite count_of_snoc, decide_False by (intros ->; done). f_equal. lia.
    + rewrite count_of_snoc, decide_True by done.
      rewrite count_of_not_elem by (by rewrite <- elem_of_first_seen). done.
Qed.

(** [max] keeps the first of the items with the largest count. *)
Lemma max_count_first best items :
  ∃ l1 l2, best :: items = l1 ++ max_count best items :: l2 ∧
    (∀ it, it ∈ l1 → it.2 < (max_count best items).2) ∧
    (∀ it, it ∈ l2 → it.2 ≤ (max_count best items).2).
Proof.
  revert best. induction items as [|it rest IH]; intros best; cbn [max_count].
  { exists [], []. split; [done|]. split; intros ? []%elem_of_nil. }
  case_bool_decide as Hlt.
  - destruct (IH it) as (l1 & l2 & Heq & H1 & H2).
    exists (best :: l1), l2. rewrite Heq at 1. split; [done|]. split; [|done].
    intros it' [->|?]%elem_of_cons; [|by apply H1].
    destruct l1 as [|it0 l1].
    + injection Heq as <- _. done.
    + injection Heq as <- _. specialize (H1 it (list_elem_of_here _ _)). lia.
  - destruct (IH best) as (l1 & l2 & Heq & H1 & H2).
    destruct l1 as [|b0 l1].
    + injection Heq as Hb Hrest. exists [], (it :: l2). rewrite <- Hb, Hrest. split; [done|].
      split; [intros ? []%elem_of_nil|].
      intros it' [->|?]%elem_of_cons; [lia|]. rewrite Hb. by apply H2.
    + injection Heq as <- Hrest. exists (best :: it :: l1), l2.
      split; [cbn [app]; by do 2 f_equal|]. split; [|done].
      intros it' [->|[->|?]%elem_of_cons]%elem_of_cons.
      * apply H1. left.
      * specialize (H1 best (list_elem_of_here _ _)). lia.
      * apply H1. by right.
Qed.

Lemma split_at_first_unique {A} (x : A) l1 l2 k1 k2 :
  l1 ++ x :: l2 = k1 ++ x :: k2 → x ∉ l1 → x ∉ k1 → l1 = k1.
Proof.
  revert k1. induction l1 as [|a l1 IH]; intros [|b k1] Heq Hl Hk; simplify_eq/=.
  - done.
  - by apply not_elem_of_cons in Hk as [? _].
  - by apply not_elem_of_cons in Hl as [? _].
  - apply not_elem_of_cons in Hl as [_ ?]. apply not_elem_of_cons in Hk as [_ ?].
    f_equal. by eapply IH.
Qed.

(** The keys seen before [t] are the elements before its first occurrence. *)
Lemma first_seen_split l k1 t k2 :
  first_seen l = k1 ++ t :: k2 →
  ∃ l1 l2, l = (l1 ++ t :: l2) ∧ (t ∉ l1) ∧ (∀ x, x ∈ l1 → x ∈ k1).
Proof.
  intros Hk.
  assert (NoDup (k1 ++ t :: k2)) as Hnd by (rewrite <- Hk; apply NoDup_first_seen).
  assert (t ∈ l) as Ht.
  { apply elem_of_first_seen. rewrite Hk. set_solver. }
  apply list_elem_of_split_l in Ht as (l1 & l2 & -> & Ht).
  exists l1, l2. split; [done|]. split; [done|].
  rewrite first_seen_app in Hk. cbn [first_seen] in Hk.
  rewrite filter_cons_True in Hk by (by rewrite elem_of_first_seen).
  apply NoDup_app in Hnd as (_ & Hnd & _).
  apply split_at_first_unique in Hk.
  - intros x Hx. rewrite <- Hk. by apply elem_of_first_seen.
  - by rewrite elem_of_first_seen.
  - intros Hin. apply (Hnd t Hin). left.
Qed.

Lemma seller_vote_spec (content : str) :
  real_seller_ids content ≠ [] →
  ∃ t before after,
    seller_vote content = Some t ∧
    real_seller_ids content = (before ++ t :: after) ∧
    (t ∉ before) ∧
    (∀ t', count_of t' (real_seller_ids content) ≤ count_of t (real_seller_ids content)) ∧
    (∀ t', t' ∈ before →
           count_of t' (real_seller_ids content) < count_of t (real_seller_ids content)).
Proof.
  unfold seller_vote. set (ids := real_seller_ids content). intros Hne.
  destruct ids as [|i0 ids0] eqn:Hids; [done|]. rewrite <- Hids. clear Hne.
  rewrite Counter_first_seen.
  assert (first_seen ids ≠ []) as Hfs.
  { rewrite Hids. done. }
  destruct (first_seen ids) as [|k ks] eqn:Hks; [done|]. clear Hfs.
  set (f := λ x : str, (x, count_of x ids)).
  change (f <$> k :: ks) with (f k :: (f <$> ks)). cbn [most_common_1].
  destruct (max_count_first (f k) (f <$> ks)) as (l1 & l2 & Heq & H1 & H2).
  change (f k :: (f <$> ks)) with (f <$> (k :: ks)) in Heq.
  apply fmap_app_inv in Heq as (k1 & kr & -> & Hkr & Hsplit).
  symmetry in Hkr. apply fmap_cons_inv in Hkr as (t & k2 & Hb & -> & ->).
  rewrite Hb. unfold f at 1. cbn.
  rewrite <- Hks in Hsplit.
  destruct (first_seen_split _ _ _ _ Hsplit) as (b & a & Hl & Htb & Hbk).
  exists t, b, a. split; [done|]. split; [done|]. split; [done|].
  assert (∀ t', t' ∈ k1 → count_of t' ids < count_of t ids) as Hlt.
  { intros t' Ht'. specialize (H1 (f t')). rewrite Hb in H1. apply H1.
    by apply list_elem_of_fmap_2. }
  assert (∀ t', t' ∈ k2 → count_of t' ids ≤ count_of t ids) as Hle.
  { intros t' Ht'. specialize (H2 (f t')). rewrite Hb in H2. apply H2.
    by apply list_elem_of_fmap_2. }
  split.
  - intros t'. destruct (decide (t' ∈ ids)) as [Hin|Hin].
    + apply elem_of_first_seen in Hin. rewrite Hsplit in Hin.
      apply elem_of_app in Hin as [?|[->|?]%elem_of_cons].
      * by apply Nat.lt_le_incl, Hlt.
      * done.
      * by apply Hle.
    + rewrite (count_of_not_elem t') by done. lia.
  - intros t' Ht'. by apply Hlt, Hbk.
Qed.

Lemma count_of_filter (P : str → Prop) `{!∀ x, Decision (P x)} x l :
  P x → count_of x (filter P l) = count_of x l.
Proof.
  intros HP. unfold count_of. rewrite list_filter_filter. f_equal.
  apply list_filter_iff. intros y. split; [tauto|]. by intros <-.
Qed.

(** C3: when the markup holds at least one identifier outside the
    platform-generic range, [_extract_seller_id] returns the identifier [t]
    that occurs most often among those: no identifier occurs more often, and
    every identifier met before the first [t] occurs strictly less often, so
    that a tie goes to the identifier met first.  In particular, for tokens
    A (five times), B (twice) and platform-generic ones (any number), the
    result is A. *)
Theorem seller_vote_most_frequent (content : str) :
  real_seller_ids content ≠ [] →
  (∃ t before after,
     _extract_seller_id (inr content) = Some t ∧
     real_seller_ids content = (before ++ t :: after) ∧
     (t ∉ before) ∧
     platform_generic t = false ∧
     (∀ t', count_of t' (real_seller_ids content) ≤ count_of t (real_seller_ids content)) ∧
     (∀ t', t' ∈ before →
            count_of t' (real_seller_ids content) < count_of t (real_seller_ids content))) ∧
  (∀ A B,
     let tokens := findall seller_mark_re content in
     platform_generic A = false → platform_generic B = false →
     count_of A tokens = 5 → count_of B tokens = 2 →
     (∀ x, x ∈ tokens → x = A ∨ x = B ∨ platform_generic x = true) →
     _extract_seller_id (inr content) = Some A).
Proof.
  intros Hne.
  destruct (seller_vote_spec content Hne) as (t & b & a & Hv & Hids & Htb & Hmax & Hlt).
  assert (t ∈ real_seller_ids content) as Ht by (rewrite Hids; set_solver).
  unfold real_seller_ids in Ht. apply list_elem_of_filter in Ht as [Hg Htok].
  split.
  - exists t, b, a. cbn [_extract_seller_id]. rewrite Hv.
    repeat split; try done. by destruct (platform_generic t).
  - intros A B tokens HA HB H5 H2 Hall.
    cbn [_extract_seller_id]. rewrite Hv. f_equal.
    destruct (Hall t Htok) as [->|[->|Hgen]]; [done| |by rewrite Hgen in Hg].
    specialize (Hmax A). unfold real_seller_ids in Hmax.
    rewrite !count_of_filter in Hmax by (by rewrite ?HA, ?HB).
    fold tokens in Hmax. lia.
Qed.

(** The markup with A five times, B twice and a generic token ten times. *)
Lemma seller_vote_most_frequent_witness :
  count_of token_A (findall seller_mark_re vote_markup) = 5 ∧
  count_of token_B (findall seller_mark_re vote_markup) = 2 ∧
  count_of token_G (findall seller_mark_re vote_markup) = 10 ∧
  _extract_seller_id (inr vote_markup) = Some token_A.
Proof.
  split; [by vm_compute|]. split; [by vm_compute|]. split; [by vm_compute|].
  assert (real_seller_ids vote_markup ≠ []) as Hne by (by vm_compute).
  apply (proj2 (seller_vote_most_frequent vote_markup Hne) token_A token_B);
    [by vm_compute..|].
  apply Forall_forall. apply (bool_decide_unpack _). by vm_compute.
Defined.

(** ** C10: platform and product identifier *)

Section ParseQs.
Context (unquote_pct : str → str).




End ParseQs.





(** ** C6: the platform registry *)

Lemma init_launches_nothing w kwargs events :
  ∃ scraper, __init__ w kwargs events = (inr scraper, events) ∧
             TaobaoScraper._context scraper = None ∧
             TaobaoScraper._playwright scraper = None.
Proof. by eexists. Qed.

(** C6, the claim as stated fails for URLs: [create] looks for the shop
    names anywhere in the lowercased argument, not in the domain.  A URL of
    another domain that mentions [taobao.com] in its query gets a
    [TaobaoScraper] and no [ValueError]. *)
Lemma create_foreign_domain_returns_scraper :
  ScraperFactory.create (ok_world all_ok_page) ScraperFactory.registered
    (py "https://www.example.com/item?from=taobao.com") no_kwargs []
  = (inr new_scraper, []).
Proof. by vm_compute. Qed.

(** C6, amended: for a platform tag that does not start with [http] and is
    not registered, and for an argument that starts with [http] and contains
    neither [taobao.com] nor [tmall.com] anywhere, [create] raises
    [ValueError] and leaves the trace of effects as it was, so no browser
    was launched; and the constructor launches none either, it leaves
    [_context] unset.  (Case is ignored throughout.) *)
Theorem create_unknown_platform_raises w _scrapers platform kwargs events :
  unknown_platform _scrapers platform →
  (∃ msg, ScraperFactory.create w _scrapers platform kwargs events
          = (inl (ValueError msg), events)) ∧
  (∀ kwargs', ∃ scraper,
     __init__ w kwargs' events = (inr scraper, events) ∧
     TaobaoScraper._context scraper = None ∧
     TaobaoScraper._playwright scraper = None).
Proof.
  intros Hunknown. split; [|intros; apply init_launches_nothing].
  unfold unknown_platform in Hunknown. unfold ScraperFactory.create.
  cbv zeta in *. unfold mbind, M_bind, bind, mret, M_ret, ret, raise.
  destruct (Str.startswith (Str.lower platform) (py "http")).
  - destruct Hunknown as [[-> ->]|Hreg]; [by eexists|].
    destruct (_ || _); [|by eexists].
    rewrite Hreg. by eexists.
  - rewrite Hunknown. by eexists.
Qed.

Lemma create_unknown_platform_raises_witness :
  unknown_platform ScraperFactory.registered (py "unknown-store") ∧
  unknown_platform ScraperFactory.registered (py "https://www.example.com/item?id=1") ∧
  ∃ msg, ScraperFactory.create (ok_world fifteen_highlights_page)
           ScraperFactory.registered (py "unknown-store") no_kwargs []
         = (inl (ValueError msg), []).
Proof.
  assert (unknown_platform ScraperFactory.registered (py "unknown-store")) as H
    by (by vm_compute).
  split; [done|]. split; [vm_compute; by left|].
  apply (create_unknown_platform_raises (ok_world fifteen_highlights_page)
           ScraperFactory.registered (py "unknown-store") no_kwargs [] H).
Defined.

(** ** C5 and C9: the image downloader *)

Section Download.
Context (w : World) (page : Page) (images_dir : Path).

Lemma download_one_spec local_images i url st :
  download_one w page images_dir local_images i url st =
  (inr (local_images ++
        option_list (fst <$> download_result w page images_dir (i, url))),
   {| self := self st;
      events := events st ++ download_events w page images_dir (i, url) |}).
Proof.
  unfold download_one, download_events, download_result, try_except,
    mbind, M_bind, bind, emit, modify, call, mret, M_ret, ret.
  cbn [fst snd self events].
  destruct (page_fetch page i (fix_protocol url)) as [e|[response|]];
    [by rewrite app_nil_r..| |by rewrite app_nil_r].
  case_bool_decide; [|by rewrite app_nil_r].
  destruct (body response) as [e|content]; [by rewrite app_nil_r|].
  destruct (write_file w _ _) as [e|[]]; [by rewrite app_nil_r|].
  cbn. by rewrite <- app_assoc.
Qed.

Lemma download_loop_spec ius local_images st :
  for_each ius local_images
    (λ local_images iu, download_one w page images_dir local_images iu.1 iu.2) st =
  (inr (local_images ++ omap (λ iu, fst <$> download_result w page images_dir iu) ius),
   {| self := self st;
      events := events st ++ (ius ≫= download_events w page images_dir) |}).
Proof.
  revert local_images st. induction ius as [|[i url] ius IH]; intros local_images st.
  - cbn. rewrite !app_nil_r. by destruct st.
  - cbn [for_each]. unfold bind at 1. rewrite download_one_spec, IH.
    cbn [self events fst snd omap list_omap mbind list_bind].
    rewrite <- !app_assoc. f_equal. f_equal.
    by destruct (download_result w page images_dir (i, url)) as [[]|].
Qed.

Lemma fetched_download_events ius :
  fetched (ius ≫= download_events w page images_dir) = (fix_protocol ∘ snd) <$> ius.
Proof.
  induction ius as [|iu ius IH]; [done|].
  cbn [mbind list_bind fmap list_fmap]. unfold fetched in *.
  rewrite omap_app, IH. unfold download_events.
  by destruct (download_result w page images_dir iu) as [[]|].
Qed.

Lemma written_download_events ius :
  written (ius ≫= download_events w page images_dir) =
  omap (λ iu, fst <$> download_result w page images_dir iu) ius.
Proof.
  induction ius as [|iu ius IH]; [done|].
  cbn [mbind list_bind omap list_omap]. unfold written in *.
  rewrite omap_app, IH. unfold download_events.
  by destruct (download_result w page images_dir iu) as [[]|].
Qed.

End Download.

Lemma snd_enumerate {A} (n : nat) (l : list A) : (enumerate n l).*2 = l.
Proof. revert n. induction l as [|x l IH]; intros n; cbn; [done|]. by rewrite IH. Qed.

Lemma length_enumerate {A} (n : nat) (l : list A) : length (enumerate n l) = length l.
Proof. revert n. induction l as [|x l IH]; intros n; cbn; [done|]. by rewrite IH. Qed.

Lemma download_images_spec w page product output_dir st :
  mkdir w (output_dir // py "images") = inr tt →
  _download_images w page product output_dir st =
  (inr (ProductInfo.set_local_images
          (omap (λ iu, fst <$> download_result w page (output_dir // py "images") iu)
                (enumerate 1 (ProductInfo.main_images product)))
          product),
   {| self := self st;
      events := events st ++
                (enumerate 1 (ProductInfo.main_images product)
                   ≫= download_events w page (output_dir // py "images")) |}).
Proof.
  intros Hmk. unfold _download_images, mbind, M_bind, bind, call, mret, M_ret, ret.
  rewrite Hmk. by rewrite download_loop_spec.
Qed.

Lemma length_omap_le {A B} (f : A → option B) (l : list A) :
  length (omap f l) ≤ length l.
Proof.
  induction l as [|x l IH]; [done|]. cbn [omap list_omap].
  destruct (f x); cbn [length]; lia.
Qed.

(** C5: once the images directory exists, [_download_images] returns; it
    has fetched every URL in order, whatever the earlier downloads did, and
    [local_images] holds the paths of the files written, in the order of
    their URLs, so at most one per URL.  With three URLs of which the second
    answers with a status other than 200, [local_images] is the paths of the
    first and the third. *)
Theorem download_skips_failures w page product output_dir st :
  mkdir w (output_dir // py "images") = inr tt →
  ∃ product' st',
    _download_images w page product output_dir st = (inr product', st') ∧
    ProductInfo.local_images product' =
      omap (λ iu, fst <$> download_result w page (output_dir // py "images") iu)
           (enumerate 1 (ProductInfo.main_images product)) ∧
    written (events st') = written (events st) ++ ProductInfo.local_images product' ∧
    fetched (events st') =
      fetched (events st) ++ (fix_protocol <$> ProductInfo.main_images product) ∧
    length (ProductInfo.local_images product') ≤ length (ProductInfo.main_images product) ∧
    (∀ u1 u2 u3 r2 f1 f3,
       ProductInfo.main_images product = [u1; u2; u3] →
       download_result w page (output_dir // py "images") (1, u1) = Some f1 →
       page_fetch page 2 (fix_protocol u2) = inr (Some r2) → status r2 ≠ 200 →
       download_result w page (output_dir // py "images") (3, u3) = Some f3 →
       ProductInfo.local_images product' = [f1.1; f3.1]).
Proof.
  intros Hmk. eexists _, _. split; [by apply download_images_spec|].
  cbn [ProductInfo.local_images ProductInfo.set_local_images events].
  split; [done|]. split.
  { unfold written. by rewrite omap_app, written_download_events. }
  split.
  { unfold fetched. rewrite omap_app, fetched_download_events.
    by rewrite list_fmap_compose, snd_enumerate. }
  split.
  { etrans; [apply length_omap_le|]. by rewrite length_enumerate. }
  intros u1 u2 u3 r2 f1 f3 -> H1 H2 Hst H3.
  cbn [enumerate omap list_omap]. rewrite H1, H3.
  unfold download_result at 1. cbn [fst snd]. rewrite H2.
  by rewrite bool_decide_eq_false_2.
Qed.

Lemma download_skips_failures_witness :
  let product := product_with [py "//img.alicdn.com/a.jpg"; py "//img.alicdn.com/b.jpg";
                               py "//img.alicdn.com/c.png"] in
  ∃ product' st',
    _download_images (ok_world second_fails_page) second_fails_page product
      (Path_of (py "out")) initial_state = (inr product', st') ∧
    ProductInfo.local_images product' =
      [Path_of (py "out") // py "images" // py "main_01.jpg";
       Path_of (py "out") // py "images" // py "main_03.png"].
Proof.
  intros product.
  destruct (download_skips_failures (ok_world second_fails_page) second_fails_page
              product (Path_of (py "out")) initial_state eq_refl)
    as (product' & st' & Hrun & Hlocal & _).
  exists product', st'. split; [done|]. rewrite Hlocal. by vm_compute.
Defined.

Lemma download_result_path w page images_dir iu f :
  download_result w page images_dir iu = Some f →
  f.1 = images_dir // image_filename iu.1 (fix_protocol iu.2).
Proof.
  unfold download_result. intros H. repeat case_match; by simplify_eq/=.
Qed.

Lemma elem_of_enumerate {A} (n : nat) (l : list A) i x :
  (i, x) ∈ enumerate n l → ∃ k, i = n + k ∧ l !! k = Some x.
Proof.
  revert n. induction l as [|y l IH]; intros n; cbn [enumerate].
  - by intros ?%elem_of_nil.
  - intros [[= -> ->]|Hin]%elem_of_cons.
    + exists 0. split; [lia|done].
    + destruct (IH _ Hin) as (k & -> & Hk). exists (S k). split; [lia|done].
Qed.

(** Below one hundred, [f"{i:02d}"] is the two decimal digits of [i]. *)
Lemma fmt_02d_two_digits i :
  i < 100 → fmt_02d i = [ascii_of_nat (48 + i / 10); ascii_of_nat (48 + i mod 10)].
Proof.
  intros Hi. do 100 (destruct i as [|i]; [by vm_compute|]). lia.
Qed.

Lemma short_uint_small (d : Decimal.uint) :
  length (py (NilZero.string_of_uint d)) ≤ 2 → Nat.of_uint d < 100.
Proof.
  destruct d as [|d|d|d|d|d|d|d|d|d|d]; try (vm_compute; lia);
  (destruct d as [|d|d|d|d|d|d|d|d|d|d]; try (vm_compute; lia);
   (destruct d as [|d|d|d|d|d|d|d|d|d|d]; try (vm_compute; lia); cbn; lia)).
Qed.

(** From one hundred on, [f"{i:02d}"] has more than two digits. *)
Lemma fmt_02d_three_digits i : 100 ≤ i → 2 < length (fmt_02d i).
Proof.
  intros Hi. unfold fmt_02d. rewrite length_app, length_replicate.
  destruct (decide (length (py (NilZero.string_of_uint (Nat.to_uint i))) ≤ 2))
    as [Hshort|]; [|lia].
  apply short_uint_small in Hshort. rewrite Unsigned.of_to in Hshort. lia.
Qed.

(** C9, the claim as stated fails: the index has the width of the position,
    and two digits only below one hundred.  With a hundred images, all
    downloaded, the last file written is [images/main_100.jpg]. *)
Lemma hundredth_file_has_three_digits :
  let product := product_with (replicate 100 (py "//img.alicdn.com/a.jpg")) in
  let run := _download_images (ok_world all_ok_page) all_ok_page product
               (Path_of (py "out")) initial_state in
  last (written (events run.2)) =
    Some (Path_of (py "out") // py "images" // py "main_100.jpg") ∧
  fmt_02d 100 = py "100".
Proof. by vm_compute. Qed.

(** C9, amended: every file the downloader writes, and every entry of
    [local_images], is [images/main_{NN}{ext}] under the output directory,
    where NN is the position of the source URL in [main_images], counted
    from 1 and written with at least two digits (exactly two below 100), and
    ext is [.png] when the URL contains [.png] and [.jpg] otherwise; when
    every download succeeds the positions written are 1, 2, ... in order. *)
Theorem downloaded_files_named_by_position w page product output_dir st :
  mkdir w (output_dir // py "images") = inr tt →
  ∃ product' st',
    _download_images w page product output_dir st = (inr product', st') ∧
    written (events st') = written (events st) ++ ProductInfo.local_images product' ∧
    (∀ path, path ∈ ProductInfo.local_images product' →
       ∃ k url, ProductInfo.main_images product !! k = Some url ∧
         path = output_dir // py "images" //
                (py "main_" ++ fmt_02d (S k) ++ image_ext (fix_protocol url))) ∧
    ((∀ iu, iu ∈ enumerate 1 (ProductInfo.main_images product) →
            is_Some (download_result w page (output_dir // py "images") iu)) →
     ProductInfo.local_images product' =
       (λ iu, output_dir // py "images" // image_filename iu.1 (fix_protocol iu.2))
         <$> enumerate 1 (ProductInfo.main_images product)) ∧
    (∀ i, i < 100 →
          fmt_02d i = [ascii_of_nat (48 + i / 10); ascii_of_nat (48 + i mod 10)]) ∧
    (∀ i, 100 ≤ i → 2 < length (fmt_02d i)) ∧
    (∀ url, image_ext url = if Str.contains (py ".png") url then py ".png" else py ".jpg").
Proof.
  intros Hmk. eexists _, _. split; [by apply download_images_spec|].
  cbn [ProductInfo.local_images ProductInfo.set_local_images events].
  split.
  { unfold written. by rewrite omap_app, written_download_events. }
  split.
  { intros path (iu & Hin & Hres)%list_elem_of_omap.
    destruct (download_result w page (output_dir // py "images") iu) as [f|] eqn:Hf;
      [|done].
    apply download_result_path in Hf. destruct iu as [i url].
    apply elem_of_enumerate in Hin as (k & -> & Hk).
    exists k, url. split; [done|]. cbn in Hres. by simplify_eq. }
  split.
  { intros Hall. induction (enumerate 1 (ProductInfo.main_images product)) as [|iu l IH];
      [done|].
    cbn [omap list_omap fmap list_fmap].
    destruct (Hall iu (list_elem_of_here _ _)) as [f Hf]. rewrite Hf.
    cbn [fmap option_fmap option_map]. rewrite (download_result_path _ _ _ _ _ Hf).
    f_equal. apply IH. intros iu' Hin. apply Hall. by right. }
  split; [apply fmt_02d_two_digits|]. split; [apply fmt_02d_three_digits|done].
Qed.

Lemma downloaded_files_named_by_position_witness :
  let product := product_with [py "//img.alicdn.com/a.jpg"; py "//img.alicdn.com/b.jpg";
                               py "//img.alicdn.com/c.png"] in
  ∃ product' st',
    _download_images (ok_world all_ok_page) all_ok_page product
      (Path_of (py "out")) initial_state = (inr product', st') ∧
    written (events st') =
      [Path_of (py "out") // py "images" // py "main_01.jpg";
       Path_of (py "out") // py "images" // py "main_02.jpg";
       Path_of (py "out") // py "images" // py "main_03.png"].
Proof.
  intros product.
  destruct (downloaded_files_named_by_position (ok_world all_ok_page) all_ok_page
              product (Path_of (py "out")) initial_state eq_refl)
    as (product' & st' & Hrun & Hwritten & _ & Hall & _).
  exists product', st'. split; [done|]. rewrite Hwritten, Hall.
  - by vm_compute.
  - apply Forall_forall. apply (bool_decide_unpack _). by vm_compute.
Defined.

(** ** C1: the result envelope of [scrape] *)

Section Returns.
Context {Σ : Type}.

Lemma returns_ret {A} (a : A) (P : A → Prop) : P a → returns (Σ:=Σ) (ret a) P.
Proof. intros HP s a' s' [= <- _]. done. Qed.

Lemma returns_raise {A} e (P : A → Prop) : returns (Σ:=Σ) (raise e) P.
Proof. by intros s a s' [=]. Qed.

Lemma returns_bind {A B} (m : M Σ A) (f : A → M Σ B) (P : B → Prop) :
  (∀ a, returns (f a) P) → returns (bind m f) P.
Proof.
  intros Hf s b s'. unfold bind. destruct (m s) as [[e|a] s1]; [done|]. apply Hf.
Qed.

Lemma returns_try_finally {A} (m : M Σ A) fin (P : A → Prop) :
  returns m P → returns (try_finally m fin) P.
Proof.
  intros Hm s a s'. unfold try_finally.
  destruct (m s) as [r s1] eqn:Hms. destruct (fin s1) as [[e|[]] s2]; [done|].
  intros [= -> <-]. by eapply Hm.
Qed.

End Returns.

Section Scrape.
Context (urlparse_error : str → option exn) (unquote_pct : str → str) (w : World).

(** The inner [try] returns only through its last statement. *)
Lemma scrape_page_returns page url output_path download_images save_html take_screenshot :
  returns (scrape_page urlparse_error unquote_pct w page url output_path
             download_images save_html take_screenshot) succeeded.
Proof.
  unfold scrape_page, mbind, M_bind. cbv zeta.
  repeat (apply returns_bind; intros).
  apply returns_ret. by repeat split.
Qed.

Lemma scrape_try_returns url output_dir download_images save_html take_screenshot :
  returns (scrape_try urlparse_error unquote_pct w url output_dir
             download_images save_html take_screenshot) succeeded.
Proof.
  unfold scrape_try, mbind, M_bind.
  repeat (apply returns_bind; intros).
  destruct (TaobaoScraper._context _); [|apply returns_raise].
  repeat (apply returns_bind; intros).
  apply returns_try_finally, scrape_page_returns.
Qed.

(** C1: for every URL, every choice of options, every state of the
    scraper and every behaviour of the browser and the file system,
    [scrape] returns a result and raises nothing; the result has
    [success=True], a product and no error, or [success=False], no product
    and an error message, which is [str(e)] of the exception that ended the
    body. *)
Theorem scrape_returns_product_xor_error url output_dir download_images save_html
    take_screenshot st :
  ∃ r st',
    scrape urlparse_error unquote_pct w url output_dir download_images save_html
      take_screenshot st = (inr r, st') ∧
    (succeeded r ∨ failed r) ∧
    ¬ (is_Some (ScrapeResult.product r) ∧ is_Some (ScrapeResult.error r)) ∧
    ¬ (ScrapeResult.product r = None ∧ ScrapeResult.error r = None) ∧
    match scrape_try urlparse_error unquote_pct w url output_dir download_images
            save_html take_screenshot st with
    | (inr r0, _) => r = r0 ∧ succeeded r
    | (inl e, _) => failed r ∧ ScrapeResult.error r = Some (exn_msg e)
    end.
Proof.
  unfold scrape, try_except.
  destruct (scrape_try _ _ _ _ _ _ _ _ st) as [[e|r] st1] eqn:Hbody.
  - eexists _, _. split; [done|]. cbn.
    assert (failed (ScrapeResult.Build false None (Some (exn_msg e))
                      (time_time w 1 - time_time w 0))) as Hf by (by repeat split).
    split; [by right|]. split; [by intros [[? [=]] _]|]. split; [by intros [_ [=]]|].
    done.
  - pose proof (scrape_try_returns _ _ _ _ _ _ _ _ Hbody) as (Hs & [p Hp] & He).
    eexists _, _. split; [done|]. split; [by left|].
    split; [rewrite He; by intros [_ [? [=]]]|].
    split; [rewrite Hp; by intros [[=] _]|]. by repeat split; eauto.
Qed.

End Scrape.

(** ** C2 and C8: the image resolver *)

(** *** The content identifier of a rewritten URL *)

Lemma take_while_lstrip p s : Str.take_while p s ++ Str.lstrip_by p s = s.
Proof.
  induction s as [|c s IH]; [done|]. cbn. destruct (p c); [|done]. cbn. by rewrite IH.
Qed.

(** A literal without dots is looked for before the next dot only. *)
Lemma strip_prefix_before_dot l s y :
  "."%char ∉ l → l ≠ [] →
  Str.strip_prefix l (s ++ "."%char :: y) =
  (λ s1, s1 ++ "."%char :: y) <$> Str.strip_prefix l s.
Proof.
  revert s. induction l as [|a l IH]; intros s Hdot Hne; [done|].
  apply not_elem_of_cons in Hdot as [Ha Hdot].
  destruct s as [|b s]; cbn [app Str.strip_prefix].
  - unfold Str.eqb. by rewrite bool_decide_eq_false_2.
  - destruct (Str.eqb a b); [|done].
    destruct l as [|a' l]; [done|]. by apply IH.
Qed.

(** A greedy repetition before a character outside the class, followed by
    a pattern that cannot fail: it takes the longest run. *)
Lemma rep_total {X} p lo hi s c t (k : str → option X) :
  (∀ s', is_Some (k s')) → length s < hi → p c = false →
  rep p lo hi (s ++ c :: t) k =
  if bool_decide (lo ≤ length (Str.take_while p s))
  then k (Str.lstrip_by p s ++ c :: t) else None.
Proof.
  intros Hk Hhi Hc. revert lo hi Hhi. induction s as [|b s IH]; intros lo hi Hhi.
  - destruct hi as [|hi]; [cbn in Hhi; lia|]. cbn. rewrite Hc.
    destruct lo; [by rewrite bool_decide_eq_true_2 by lia|].
    by rewrite bool_decide_eq_false_2 by lia.
  - destruct hi as [|hi]; [cbn in Hhi; lia|]. cbn [app rep Str.take_while Str.lstrip_by].
    destruct (p b) eqn:Hb.
    + rewrite IH by (cbn in Hhi; lia). cbn [length].
      case_bool_decide as Hlo.
      * rewrite bool_decide_eq_true_2 by lia. by destruct (Hk (Str.lstrip_by p s ++ c :: t)) as [x ->].
      * rewrite bool_decide_eq_false_2 by lia. destruct lo; [lia|done].
    + cbn [length]. destruct lo; [by rewrite bool_decide_eq_true_2 by lia|].
      by rewrite bool_decide_eq_false_2 by lia.
Qed.

(** Whether the identifier pattern matches at the start of [s ++ "." ++ y],
    and the identifier then, depend on [s] only. *)
Lemma image_id_match_before_dot s y :
  m_group <$> match_at image_id_re (s ++ "."%char :: y) =
  match Str.strip_prefix (py "O1CN01") s with
  | Some s1 =>
      if bool_decide (1 ≤ length (Str.take_while alnum s1))
      then Some (Some (py "O1CN01" ++ Str.take_while alnum s1)) else None
  | None => None
  end.
Proof.
  unfold match_at, image_id_re, seq, plus. cbn [foldr match_re default].
  rewrite strip_prefix_before_dot; [|apply (bool_decide_unpack _); by vm_compute|done].
  destruct (Str.strip_prefix (py "O1CN01") s) as [s1|] eqn:Hs1; [|done].
  apply strip_prefix_Some in Hs1 as ->. cbn [fmap option_fmap option_map].
  rewrite rep_total; [|by eexists|rewrite length_app; cbn; lia|done].
  case_bool_decide; [|done]. cbn [Str.strip_prefix fmap option_fmap option_map m_group].
  do 2 f_equal.
  assert ((py "O1CN01" ++ s1) ++ "."%char :: y =
          (py "O1CN01" ++ Str.take_while alnum s1) ++
          (Str.lstrip_by alnum s1 ++ "."%char :: y)) as ->.
  { rewrite <- !app_assoc. f_equal. by rewrite app_assoc, take_while_lstrip. }
  by rewrite length_app, Nat.add_sub, take_app_length.
Qed.

Lemma search_group_cons r c s :
  search_group r (c :: s) =
  match match_at r (c :: s) with
  | Some m => m_group m
  | None => search_group r s
  end.
Proof.
  unfold search_group. cbn [search]. destruct (match_at r (c :: s)); [done|].
  by destruct (search r s) as [[pre m]|].
Qed.

(** Replacing what follows a dot keeps the identifier found before the dot;
    when there is none before the dot, the identifier is searched from the
    dot on. *)
Lemma image_id_before_dot pre y y' :
  image_id (pre ++ "."%char :: y') = image_id (pre ++ "."%char :: y) ∨
  image_id (pre ++ "."%char :: y') = image_id ("."%char :: y').
Proof.
  induction pre as [|c pre IH]; [by right|].
  unfold image_id in *. cbn [app].
  rewrite (search_group_cons _ c (pre ++ "."%char :: y')),
    (search_group_cons _ c (pre ++ "."%char :: y)).
  pose proof (image_id_match_before_dot (c :: pre) y) as Hy.
  pose proof (image_id_match_before_dot (c :: pre) y') as Hy'.
  rewrite <- Hy in Hy'. cbn [app] in Hy'.
  destruct (match_at image_id_re (c :: pre ++ "."%char :: y')) as [m'|],
           (match_at image_id_re (c :: pre ++ "."%char :: y)) as [m|];
    cbn in Hy'; simplify_eq; [by left|done].
Qed.

(** A step of the rewrite keeps the content identifier of a URL, or leaves
    none. *)
Lemma image_id_sub r repl repl' url :
  (search r url = None ∧ sub r repl url = url) ∨
  (is_Some (search r url) ∧ length (sub r repl url) < length url ∧
   ∃ pre y rest, url = pre ++ "."%char :: y ∧ sub r repl url = pre ++ repl ++ rest ∧
                 at_eos rest = true) →
  repl = "."%char :: repl' →
  image_id repl = None →
  image_id (repl ++ ["010"%char]) = None →
  image_id (sub r repl url) = image_id url ∨ image_id (sub r repl url) = None.
Proof.
  intros [[_ ->]|(_ & _ & pre & y & rest & -> & -> & Heos)] Hrepl Hid Hidlf; [by left|].
  rewrite Hrepl in *. cbn [app] in *.
  destruct (image_id_before_dot pre y (repl' ++ rest)) as [->| ->]; [by left|].
  right. destruct (at_eos_cases _ Heos) as [-> | ->]; [by rewrite app_nil_r|done].
Qed.

(** The rewrite keeps the content identifier of a URL, or leaves none. *)
Lemma image_id_to_high_res url :
  image_id (to_high_res url) = image_id url ∨ image_id (to_high_res url) = None.
Proof.
  unfold to_high_res. cbv zeta.
  destruct (image_id_sub _ _ (py "jpg_.webp") _ (sub_size_webp
              (sub quality_jpg_re (py ".jpg") (sub quality_webp_re (py ".jpg_.webp") url))))
    as [->|H]; [by vm_compute..| |by right].
  destruct (image_id_sub _ _ (py "jpg") _ (sub_quality_jpg
              (sub quality_webp_re (py ".jpg_.webp") url)))
    as [->|H]; [by vm_compute..| |by right].
  destruct (image_id_sub _ _ (py "jpg_.webp") _ (sub_quality_webp url))
    as [->|H]; [by vm_compute..|by left|by right].
Qed.

Lemma omap_sublist {A B} (f f' : A → option B) (l : list A) :
  (∀ x, f' x = f x ∨ f' x = None) → omap f' l `sublist_of` omap f l.
Proof.
  intros H. induction l as [|x l IH]; [done|]. cbn [omap list_omap].
  destruct (H x) as [-> | ->].
  - destruct (f x); [by apply sublist_skip|done].
  - destruct (f x); [by apply sublist_cons|done].
Qed.

Lemma omap_fmap_compose {A B C} (g : A → B) (f : B → option C) (l : list A) :
  omap f (g <$> l) = omap (f ∘ g) l.
Proof.
  induction l as [|x l IH]; [done|]. cbn. by rewrite IH.
Qed.

Lemma omap_of_fmap_Some {A B} (f : A → option B) (l : list A) (ys : list B) :
  f <$> l = Some <$> ys → omap f l = ys.
Proof.
  revert ys. induction l as [|x l IH]; intros [|y ys]; cbn; try done.
  intros [= -> H]. f_equal. by apply IH.
Qed.

(** *** The loop of the resolver *)

Section CleanLoop.
Context (seller_id : option str).

Lemma clean_step_cases cleaned seen url :
  clean_step seller_id (cleaned, seen) url =
  if passes_seller seller_id url then
    match image_id url with
    | Some img_id =>
        if decide (img_id ∈ seen) then (cleaned, seen)
        else (cleaned ++ [to_high_res url], {[img_id]} ∪ seen)
    | None => (cleaned, seen)
    end
  else (cleaned, seen).
Proof. unfold clean_step, passes_seller. by destruct (skipped_by_seller seller_id url). Qed.

Lemma clean_loop_invariant main_images :
  ∃ kept,
    (foldl (clean_step seller_id) ([], ∅) main_images).1 = to_high_res <$> kept ∧
    kept `sublist_of` candidates seller_id main_images ∧
    image_id <$> kept =
      Some <$> first_seen (omap image_id (candidates seller_id main_images)) ∧
    (∀ url, url ∈ kept →
       ∃ l1 l2, candidates seller_id main_images = l1 ++ url :: l2 ∧
                ∀ url', url' ∈ l1 → image_id url' ≠ image_id url) ∧
    (∀ i, i ∈ (foldl (clean_step seller_id) ([], ∅) main_images).2 ↔
          i ∈ omap image_id (candidates seller_id main_images)).
Proof.
  unfold candidates.
  induction main_images as [|url l IH] using rev_ind.
  { exists []. split; [done|]. split; [done|]. split; [done|].
    split; [by intros ? ?%elem_of_nil|]. intros i. cbn. set_solver. }
  destruct IH as (kept & Hout & Hsub & Hids & Hfirst & Hseen).
  assert (∀ k url0, url0 ∈ kept →
            ∃ l1 l2, filter (λ u, passes_seller seller_id u) l ++ k = l1 ++ url0 :: l2 ∧
                     ∀ url', url' ∈ l1 → image_id url' ≠ image_id url0) as Hfirst'.
  { intros k url0 (l1 & l2 & -> & Hl1)%Hfirst. exists l1, (l2 ++ k).
    by rewrite <- app_assoc. }
  rewrite foldl_snoc, filter_app, omap_app, filter_cons, filter_nil.
  destruct (foldl (clean_step seller_id) ([], ∅) l) as [cleaned seen].
  cbn [fst snd] in *. rewrite clean_step_cases.
  destruct (passes_seller seller_id url) eqn:Hpass.
  2:{ rewrite decide_False by (cbn; tauto). cbn [omap list_omap]. rewrite !app_nil_r.
      by exists kept. }
  rewrite decide_True by (cbn; tauto). cbn [omap list_omap].
  destruct (image_id url) as [img_id|] eqn:Hid.
  2:{ rewrite app_nil_r. exists kept. cbn [fst snd].
      split; [done|]. split; [by apply sublist_inserts_r|]. split; [done|].
      split; [by apply Hfirst'|done]. }
  rewrite first_seen_snoc.
  destruct (decide (img_id ∈ seen)) as [Hin|Hin].
  - rewrite decide_True by (by apply elem_of_first_seen, Hseen).
    exists kept. cbn [fst snd].
    split; [done|]. split; [by apply sublist_inserts_r|]. split; [done|].
    split; [by apply Hfirst'|].
    intros i. rewrite elem_of_app, list_elem_of_singleton, <- Hseen.
    split; [by left|]. by intros [?| ->].
  - rewrite decide_False by (by rewrite elem_of_first_seen, <- Hseen).
    exists (kept ++ [url]). cbn [fst snd].
    split; [by rewrite fmap_app, Hout|]. split; [by apply sublist_app|].
    split; [by rewrite !fmap_app, Hids; cbn; rewrite Hid|].
    split.
    + intros url0 [?| ->%list_elem_of_singleton]%elem_of_app; [by apply Hfirst'|].
      eexists _, []. split; [done|]. intros url' Hurl' Heq. apply Hin, Hseen.
      apply list_elem_of_omap. exists url'. split; [done|]. by rewrite Heq.
    + intros i. rewrite elem_of_union, elem_of_singleton, elem_of_app,
        list_elem_of_singleton, <- Hseen. tauto.
Qed.

End CleanLoop.

(** C2: the output of the resolver is the rewrite of the candidates it
    keeps; those are, in the order of the input, the first candidate of each
    content identifier, so their identifiers are the identifiers of the
    candidates in first-seen order, each once; and no identifier is carried
    by two URLs of the output. *)
Theorem clean_images_dedup_first_seen seller_id main_images :
  ∃ kept,
    clean_images seller_id main_images = to_high_res <$> kept ∧
    kept `sublist_of` candidates seller_id main_images ∧
    image_id <$> kept =
      Some <$> first_seen (omap image_id (candidates seller_id main_images)) ∧
    (∀ url, url ∈ kept →
       ∃ l1 l2, candidates seller_id main_images = l1 ++ url :: l2 ∧
                ∀ url', url' ∈ l1 → image_id url' ≠ image_id url) ∧
    NoDup (omap image_id kept) ∧
    NoDup (omap image_id (clean_images seller_id main_images)).
Proof.
  destruct (clean_loop_invariant seller_id main_images)
    as (kept & Hout & Hsub & Hids & Hfirst & _).
  exists kept. unfold clean_images. rewrite Hout.
  assert (NoDup (omap image_id kept)) as Hnd.
  { rewrite (omap_of_fmap_Some _ _ _ Hids). apply NoDup_first_seen. }
  repeat (split; [done|]).
  eapply sublist_NoDup; [exact Hnd|].
  rewrite omap_fmap_compose. apply omap_sublist. intros url. apply image_id_to_high_res.
Qed.




(** The vote alone does not decide whether the filter applies: when it
    finds nothing, [_extract_seller_id] still reads a [sellerId] field of
    the markup, and the identity found there filters the candidates.  Here
    the only candidate carries a content identifier and no seller mark; it
    is discarded, though without the filter it would be kept. *)
Lemma vote_none_fallback_still_filters :
  let url := py "//img.alicdn.com/i1/O1CN01abc.jpg" in
  (∃ content, page_content seller_field_page = inr content ∧
              seller_vote content = None ∧ seller_fallback content = Some token_A) ∧
  _extract_seller_id (page_content seller_field_page) = Some token_A ∧
  _extract_main_images seller_field_page [] initial_state = (inr [], initial_state) ∧
  clean_images None [url] = [url].
Proof.
  intros url. split; [|by vm_compute].
  eexists. split; [done|]. by vm_compute.
Qed.



(** * Further properties of the code *)

(** ** The matcher returns matches only *)

Lemma rep_sound {X} p lo hi s (k : str → option X) x :
  rep p lo hi s k = Some x →
  ∃ run s', s = run ++ s' ∧ Forall (λ c, p c = true) run ∧
            lo ≤ length run ≤ hi ∧ k s' = Some x.
Proof.
  revert lo hi. induction s as [|c s IH]; intros lo hi.
  - destruct hi, lo; cbn; try done; intros H; exists [], []; cbn; eauto with lia.
  - destruct hi as [|hi]; cbn [rep].
    { destruct lo; [|done]. intros H. exists [], (c :: s). cbn. eauto with lia. }
    destruct (p c) eqn:Hc.
    + destruct (rep p (pred lo) hi s k) as [x'|] eqn:Hrec.
      * intros [= ->]. destruct (IH _ _ Hrec) as (run & s' & -> & Hp & Hlo & Hk).
        exists (c :: run), s'. split; [done|]. split; [by constructor|].
        split; [cbn; lia|done].
      * destruct lo; [|done]. intros H. exists [], (c :: s). cbn. eauto with lia.
    + destruct lo; [|done]. intros H. exists [], (c :: s). cbn. eauto with lia.
Qed.

Lemma match_re_sound {X} r s g (k : option str → str → option X) x :
  match_re r s g k = Some x →
  ∃ text rest g', s = text ++ rest ∧ matches r text rest g g' ∧ k g' rest = Some x.
Proof.
  revert s g k. induction r as [l|p|p lo hi|r1 IH1 r2 IH2|r1 IH1 r2 IH2|r1 IH1|];
    intros s g k; cbn [match_re matches].
  - destruct (Str.strip_prefix l s) as [s'|] eqn:Hs; [|done].
    apply strip_prefix_Some in Hs as ->. intros Hk. by exists l, s', g.
  - destruct s as [|c s]; [done|]. destruct (p c) eqn:Hc; [|done].
    intros Hk. exists [c], s, g. split; [done|]. split; [|done]. split; [|done]. by exists c.
  - intros (run & s' & -> & Hp & [Hlo Hhi] & Hk)%rep_sound.
    exists run, s', g. split; [done|]. split; [|done].
    split; [done|]. split; [done|]. split; [|done]. intros h ->. by cbn in Hhi.
  - intros (t1 & rest1 & g1 & -> & H1 & (t2 & rest & g' & -> & H2 & Hk)%IH2)%IH1.
    exists (t1 ++ t2), rest, g'. split; [by rewrite app_assoc|]. split; [|done].
    by exists t1, t2, g1.
  - destruct (match_re r1 s g k) as [x'|] eqn:H1.
    + intros [= ->]. apply IH1 in H1 as (text & rest & g' & -> & H1 & Hk).
      exists text, rest, g'. by eauto.
    + intros (text & rest & g' & -> & H2 & Hk)%IH2. exists text, rest, g'. by eauto.
  - intros (text & rest & g1 & -> & H1 & Hk)%IH1.
    rewrite take_matched in Hk. exists text, rest, (Some text). by eauto.
  - destruct (at_eos s) eqn:He; [|done]. intros Hk. by exists [], s, g.
Qed.

Lemma match_at_sound r s m :
  match_at r s = Some m →
  s = m_text m ++ m_rest m ∧ matches r (m_text m) (m_rest m) None (m_group m).
Proof.
  unfold match_at. intros (text & rest & g' & -> & H & [= <-])%match_re_sound.
  cbn. by rewrite take_matched.
Qed.

Lemma search_sound r s pre m :
  search r s = Some (pre, m) →
  s = pre ++ m_text m ++ m_rest m ∧ matches r (m_text m) (m_rest m) None (m_group m).
Proof.
  revert pre. induction s as [|c s IH]; intros pre; cbn [search].
  - destruct (match_at r []) as [m'|] eqn:Hm; [|done].
    intros [= <- <-]. by apply match_at_sound.
  - destruct (match_at r (c :: s)) as [m'|] eqn:Hm.
    + intros [= <- <-]. by apply match_at_sound.
    + destruct (search r s) as [[pre' m']|]; [|done]. intros [= <- <-].
      destruct (IH _ eq_refl) as [-> H]. done.
Qed.

(** Every entry of [re.findall] is group 1, or the text, of a match
    somewhere in the subject. *)
Lemma findall_scan_sound r skip s x :
  x ∈ findall_scan r skip s →
  ∃ pre text rest g, s = pre ++ text ++ rest ∧ matches r text rest None g ∧
                     x = default text g.
Proof.
  revert skip. induction s as [|c s IH]; intros skip.
  - destruct skip; cbn [findall_scan]; [|by intros ?%elem_of_nil].
    destruct (match_at r []) as [m|] eqn:Hm; [|by intros ?%elem_of_nil].
    intros ->%list_elem_of_singleton. apply match_at_sound in Hm as [Hs Hm].
    by exists [], (m_text m), (m_rest m), (m_group m).
  - assert (∀ n, x ∈ findall_scan r n s →
              ∃ pre text rest g, c :: s = pre ++ text ++ rest ∧
                matches r text rest None g ∧ x = default text g) as Hrec.
    { intros n (pre & text & rest & g & -> & H & ->)%IH.
      by exists (c :: pre), text, rest, g. }
    destruct skip; cbn [findall_scan]; [|by apply Hrec].
    destruct (match_at r (c :: s)) as [m|] eqn:Hm; [|by apply Hrec].
    intros [->|Hin]%elem_of_cons; [|by eapply Hrec].
    apply match_at_sound in Hm as [Hs Hm].
    by exists [], (m_text m), (m_rest m), (m_group m).
Qed.

Lemma findall_sound r s x :
  x ∈ findall r s →
  ∃ pre text rest g, s = pre ++ text ++ rest ∧ matches r text rest None g ∧
                     x = default text g.
Proof. apply findall_scan_sound. Qed.

(** ** The matcher finds a match when there is one *)

Lemma rep_complete {X} p lo hi run s' (k : str → option X) :
  Forall (λ c, p c = true) run → lo ≤ length run ≤ hi → is_Some (k s') →
  is_Some (rep p lo hi (run ++ s') k).
Proof.
  intros Hp. revert lo hi. induction Hp as [|c run Hc Hp IH]; intros lo hi [Hlo Hhi] Hk.
  - cbn in Hlo. assert (lo = 0) as -> by lia. cbn [app].
    destruct hi as [|hi], s' as [|c s']; cbn [rep]; try done.
    destruct (p c); [|done]. by destruct (rep p (pred 0) hi s' k).
  - cbn in Hlo, Hhi. destruct hi as [|hi]; [lia|]. cbn [app rep]. rewrite Hc.
    destruct (IH (pred lo) hi) as [x ->]; [lia|done|]. done.
Qed.

Lemma match_re_complete {X} r text rest g g' (k : option str → str → option X) :
  matches r text rest g g' → is_Some (k g' rest) →
  is_Some (match_re r (text ++ rest) g k).
Proof.
  revert text rest g g' k.
  induction r as [l|p|p lo hi|r1 IH1 r2 IH2|r1 IH1 r2 IH2|r1 IH1|];
    intros text rest g g' k; cbn [match_re matches].
  - intros [-> ->] Hk.
    assert (Str.strip_prefix l (l ++ rest) = Some rest) as ->; [|done].
    clear. induction l as [|a l IH]; [done|]. cbn. unfold Str.eqb.
    by rewrite bool_decide_eq_true_2.
  - intros [(c & -> & Hc) ->] Hk. cbn. by rewrite Hc.
  - intros (Hp & Hlo & Hhi & ->) Hk. apply rep_complete; [done| |done].
    split; [done|]. destruct hi as [h|]; cbn; [by apply Hhi|]. rewrite length_app. lia.
  - intros (t1 & t2 & g1 & -> & H1 & H2) Hk. rewrite <- app_assoc.
    eapply IH1; [done|]. by eapply IH2.
  - intros [H|H] Hk.
    + destruct (IH1 _ _ _ _ k H Hk) as [x ->]. done.
    + destruct (match_re r1 (text ++ rest) g k); [done|]. by eapply IH2.
  - intros [[g1 H] ->] Hk. eapply IH1; [done|]. cbn beta. by rewrite take_matched.
  - intros (-> & He & ->) Hk. cbn. by rewrite He.
Qed.

Lemma search_complete r pre text rest g :
  matches r text rest None g → is_Some (search r (pre ++ text ++ rest)).
Proof.
  intros H. induction pre as [|c pre IH]; cbn [app].
  - assert (is_Some (match_at r (text ++ rest))) as [m Hm]
      by (by eapply match_re_complete).
    destruct text, rest; cbn [app search] in *; by rewrite Hm.
  - cbn [search]. destruct (match_at r (c :: pre ++ text ++ rest)); [done|].
    destruct IH as [[pre' m] ->]. done.
Qed.

(** ** The content identifier of a URL *)

Lemma image_id_re_matches text rest g :
  matches image_id_re text rest None g ↔
  g = Some text ∧ ∃ t, text = py "O1CN01" ++ t ∧ t ≠ [] ∧ Forall (λ c, alnum c = true) t.
Proof.
  unfold image_id_re, seq, plus. cbn [foldr matches]. split.
  - intros [(g1 & t1 & t2 & g2 & -> & [-> ->] & t3 & t4 & g3 & -> & (Hal & Hlen & _ & ->)
             & [-> ->]) ->].
    split; [done|]. exists t3. rewrite app_nil_r. split; [done|]. split; [|done].
    intros ->. cbn in Hlen. lia.
  - intros (-> & t & -> & Hne & Hal). split; [|done].
    exists None, (py "O1CN01"), t, None. split; [done|]. split; [done|].
    exists t, [], None. rewrite app_nil_r. split; [done|]. split; [|done].
    split; [done|]. split; [destruct t; [done|cbn; lia]|]. done.
Qed.

Lemma image_id_Some url i :
  image_id url = Some i →
  ∃ pre t rest, url = pre ++ i ++ rest ∧ i = py "O1CN01" ++ t ∧ t ≠ [] ∧
                Forall (λ c, alnum c = true) t.
Proof.
  unfold image_id, search_group.
  destruct (search image_id_re url) as [[pre m]|] eqn:Hs; [|done]. cbn.
  apply search_sound in Hs as [-> (Hg & t & Ht & Hne & Hal)%image_id_re_matches].
  rewrite Hg. intros [= <-]. by exists pre, t, (m_rest m).
Qed.

Lemma image_id_is_Some url :
  is_Some (image_id url) ↔
  ∃ pre c rest, url = pre ++ py "O1CN01" ++ c :: rest ∧ alnum c = true.
Proof.
  split.
  - intros [i (pre & t & rest & -> & -> & Hne & Hal)%image_id_Some].
    destruct t as [|c t]; [done|]. apply Forall_cons in Hal as [Hc _].
    exists pre, c, (t ++ rest). split; [|done]. by rewrite <- !app_assoc.
  - intros (pre & c & rest & -> & Hc).
    assert (matches image_id_re (py "O1CN01" ++ [c]) rest None (Some (py "O1CN01" ++ [c])))
      as Hm.
    { apply image_id_re_matches. split; [done|]. exists [c]. split; [done|].
      split; [done|]. by constructor. }
    destruct (search_complete image_id_re pre _ _ _ Hm) as [[pre' m] Hs].
    unfold image_id, search_group.
    replace (pre ++ py "O1CN01" ++ c :: rest)
      with (pre ++ (py "O1CN01" ++ [c]) ++ rest) by (by rewrite <- !app_assoc).
    rewrite Hs. cbn. apply search_sound in Hs as [_ [-> _]%image_id_re_matches]. done.
Qed.

Lemma clean_loop_skips_no_id seller_id main_images st :
  foldl (clean_step seller_id) st main_images =
  foldl (clean_step seller_id) st (filter (λ url, is_Some (image_id url)) main_images).
Proof.
  revert st. induction main_images as [|url l IH]; intros st; [done|].
  destruct (image_id url) as [i|] eqn:Hi.
  - rewrite filter_cons_True by (by rewrite Hi). cbn [foldl]. apply IH.
  - rewrite filter_cons_False by (rewrite Hi; by intros [? [=]]). cbn [foldl].
    rewrite <- IH. f_equal. destruct st as [cleaned seen]. unfold clean_step.
    rewrite Hi. by destruct (skipped_by_seller seller_id url).
Qed.

(** X1: The resolver reads a URL's content identifier off its first [O1CN01]
    that an ASCII letter or digit follows: the identifier is a piece of the
    URL, [O1CN01] and at least one letter or digit; a URL has an identifier
    exactly when it holds [O1CN01] with a letter or digit behind it; and the
    URLs without one do not count, the resolver returns what it returns
    without them. *)
Theorem image_id_characterised url :
  (∀ i, image_id url = Some i →
        ∃ pre t rest, url = pre ++ i ++ rest ∧ i = py "O1CN01" ++ t ∧ t ≠ [] ∧
                      Forall (λ c, alnum c = true) t) ∧
  (is_Some (image_id url) ↔
   ∃ pre c rest, url = pre ++ py "O1CN01" ++ c :: rest ∧ alnum c = true) ∧
  (∀ seller_id main_images,
     clean_images seller_id main_images =
     clean_images seller_id (filter (λ url, is_Some (image_id url)) main_images)).
Proof.
  split; [apply image_id_Some|]. split; [apply image_id_is_Some|].
  intros seller_id main_images. unfold clean_images. by rewrite clean_loop_skips_no_id.
Qed.

(** ** The seller identity *)

Lemma seller_digits_matches text rest g g' :
  matches (Grp (Rep digit 10 (Some 13))) text rest g g' →
  g' = Some text ∧ 10 ≤ length text ≤ 13 ∧ Forall (λ c, digit c = true) text.
Proof.
  cbn [matches]. intros [(g1 & Hd & Hlo & Hhi & _) ->].
  split; [done|]. split; [|done]. split; [done|]. by apply Hhi.
Qed.

Lemma seller_mark_tokens content sid :
  sid ∈ findall seller_mark_re content →
  10 ≤ length sid ≤ 13 ∧ Forall (λ c, digit c = true) sid ∧
  ∃ pre rest, content = pre ++ py "_!!" ++ sid ++ rest.
Proof.
  intros (pre & text & rest & g & -> & Hm & ->)%findall_sound.
  unfold seller_mark_re, seq in Hm. cbn [foldr] in Hm.
  destruct Hm as (t1 & t2 & g1 & -> & [-> ->] & t3 & t4 & g2 & -> &
                  (-> & Hlen & Hd)%seller_digits_matches & [-> ->]).
  cbn [default]. split; [done|]. split; [done|].
  exists pre, rest. by rewrite app_nil_r, <- !app_assoc.
Qed.

Lemma seller_vote_elem content sid :
  seller_vote content = Some sid → sid ∈ real_seller_ids content.
Proof.
  intros Hv. destruct (real_seller_ids content) as [|i0 ids] eqn:Hids.
  { unfold seller_vote in Hv. by rewrite Hids in Hv. }
  destruct (seller_vote_spec content) as (t & b & a & Hv' & Heq & _);
    [by rewrite Hids|].
  rewrite Hv in Hv'. injection Hv' as <-. rewrite <- Hids, Heq. set_solver.
Qed.

Lemma seller_fallback_Some content sid :
  seller_fallback content = Some sid →
  platform_generic sid = false ∧ 10 ≤ length sid ≤ 13 ∧
  Forall (λ c, digit c = true) sid ∧
  ∃ pre c sep rest,
    content = pre ++ py "seller" ++ c :: py "d" ++ sep ++ sid ++ rest ∧
    c ∈ py "Ii" ∧ sep ≠ [].
Proof.
  unfold seller_fallback, search_group.
  destruct (search seller_field_re content) as [[pre m]|] eqn:Hs; [|done]. cbn.
  destruct (m_group m) as [sid'|] eqn:Hg; [|done].
  destruct (platform_generic sid') eqn:Hgen; [done|]. intros [= ->].
  apply search_sound in Hs as [-> Hm]. rewrite Hg in Hm.
  unfold seller_field_re, seq, plus, opt in Hm. cbn [foldr] in Hm.
  destruct Hm as (t1 & t2 & g1 & Ht & [-> ->] & t3 & t4 & g2 & -> &
                  [(c & -> & Hc) ->] & t5 & t6 & g3 & -> & [-> ->] &
                  t7 & t8 & g4 & -> & (_ & Hsep & _ & ->) &
                  t9 & t10 & g5 & -> & (_ & _ & _ & ->) &
                  t11 & t12 & g6 & -> & (Hg' & Hlen & Hd)%seller_digits_matches &
                  [-> Hg6]).
  rewrite <- Hg6 in Hg'. injection Hg' as ->. split; [done|]. split; [done|]. split; [done|].
  exists pre, c, (t7 ++ t9), (m_rest m). rewrite Ht, app_nil_r.
  split; [by rewrite <- !app_assoc|]. split.
  - unfold one_of in Hc. by apply bool_decide_eq_true in Hc.
  - destruct t7; [cbn in Hsep; lia|done].
Qed.

(** X2: The seller identity that [_extract_seller_id] returns is a run of 10 to
    13 decimal digits that does not start with [6000000]; it stands in the
    page markup right behind [_!!], or behind [sellerId] or [sellerid] and
    what separates the field from its value.  In particular it is never the
    empty text. *)
Theorem seller_id_shape (page_content : Exc str) (sid : str) :
  _extract_seller_id page_content = Some sid →
  10 ≤ length sid ≤ 13 ∧
  Forall (λ c, digit c = true) sid ∧
  platform_generic sid = false ∧
  ∃ content, page_content = inr content ∧
    ((∃ pre rest, content = pre ++ py "_!!" ++ sid ++ rest) ∨
     (∃ pre c sep rest,
        content = pre ++ py "seller" ++ c :: py "d" ++ sep ++ sid ++ rest ∧
        c ∈ py "Ii" ∧ sep ≠ [])).
Proof.
  destruct page_content as [e|content]; [done|]. cbn [_extract_seller_id].
  destruct (seller_vote content) as [t|] eqn:Hv.
  - intros [= ->]. apply seller_vote_elem in Hv.
    unfold real_seller_ids in Hv. apply list_elem_of_filter in Hv as [Hgen Hin].
    apply seller_mark_tokens in Hin as (Hlen & Hd & Hocc).
    split; [done|]. split; [done|]. split; [by destruct (platform_generic sid)|].
    exists content. split; [done|]. by left.
  - intros (Hgen & Hlen & Hd & Hocc)%seller_fallback_Some.
    split; [done|]. split; [done|]. split; [done|].
    exists content. split; [done|]. by right.
Qed.

Lemma seller_id_shape_witness :
  _extract_seller_id (inr vote_markup) = Some token_A ∧
  10 ≤ length token_A ≤ 13 ∧ platform_generic token_A = false.
Proof.
  assert (_extract_seller_id (inr vote_markup) = Some token_A) as H by (by vm_compute).
  split; [done|].
  by destruct (seller_id_shape (inr vote_markup) token_A H) as (Hlen & _ & Hgen & _).
Defined.

(** ** The network interceptor *)

Lemma api_image_re_matches text rest g :
  matches api_image_re text rest None g →
  g = None ∧
  ∃ scheme before after ext,
    text = scheme ++ py "://" ++ before ++ py "O1CN01" ++ after ++ ext ∧
    scheme ∈ [py "http"; py "https"] ∧
    Forall (λ c, url_char c = true) before ∧
    Forall (λ c, url_char c = true) after ∧
    ext ∈ [py "jpg"; py "png"; py "webp"].
Proof.
  unfold api_image_re, seq, star, opt. cbn [foldr matches].
  intros (t1 & r1 & g1 & -> & [-> ->] & t2 & r2 & g2 & -> & (Hs & _ & Hs1 & ->) &
          t3 & r3 & g3 & -> & [-> ->] & t4 & r4 & g4 & -> & (Hb & _ & _ & ->) &
          t5 & r5 & g5 & -> & [-> ->] & t6 & r6 & g6 & -> & (Ha & _ & _ & ->) &
          t7 & r7 & g7 & -> & Hext & [-> ->]).
  assert (g7 = None ∧ t7 ∈ [py "jpg"; py "png"; py "webp"]) as [-> Ht7].
  { destruct Hext as [[-> ->]|[[-> ->]|[-> ->]]]; split; try done; set_solver. }
  split; [done|].
  exists (py "http" ++ t2), t4, t6, t7. rewrite app_nil_r, <- !app_assoc.
  split; [done|]. split; [|done].
  specialize (Hs1 1 eq_refl). destruct t2 as [|c [|c' t2]]; [set_solver| |cbn in Hs1; lia].
  apply Forall_cons in Hs as [Hc _]. unfold one_of in Hc.
  apply bool_decide_eq_true in Hc. apply list_elem_of_singleton in Hc as ->. set_solver.
Qed.

(** X3: The listener adds to [api_images] only what it found in the text of a
    response whose URL holds [mtop.] and one of [getdesc], [detail] and
    [item] (in any case); each such entry is [http://] or [https://], then
    characters that are neither whitespace nor quotes nor a backslash,
    with [O1CN01] among them, up to an ending [jpg], [png] or [webp]. *)
Theorem intercepted_urls_shape (response : ApiResponse) (u : str) :
  u ∈ intercept_response response →
  (∃ url_str text pre rest,
     response_url response = inr url_str ∧
     Str.contains (py "mtop.") url_str = true ∧
     (∃ word, word ∈ [py "getdesc"; py "detail"; py "item"] ∧
              Str.contains word (Str.lower url_str) = true) ∧
     response_text response = inr text ∧ text = pre ++ u ++ rest) ∧
  ∃ scheme before after ext,
    u = scheme ++ py "://" ++ before ++ py "O1CN01" ++ after ++ ext ∧
    scheme ∈ [py "http"; py "https"] ∧
    Forall (λ c, url_char c = true) before ∧
    Forall (λ c, url_char c = true) after ∧
    ext ∈ [py "jpg"; py "png"; py "webp"].
Proof.
  unfold intercept_response.
  destruct (response_url response) as [e|url_str]; [by intros ?%elem_of_nil|].
  destruct (Str.contains (py "mtop.") url_str) eqn:Hmtop; [|by intros ?%elem_of_nil].
  destruct (_ || _) eqn:Hword; cbn [andb]; [|by intros ?%elem_of_nil].
  destruct (response_text response) as [e|text]; [by intros ?%elem_of_nil|].
  intros (pre & t & rest & g & -> & [-> Hshape]%api_image_re_matches & ->)%findall_sound.
  cbn [default]. split; [|done]. exists url_str, (pre ++ t ++ rest), pre, rest.
  split; [done|]. split; [done|]. split; [|done].
  apply orb_true_iff in Hword as [[H|H]%orb_true_iff|H];
    eexists; (split; [|exact H]); set_solver.
Qed.

Lemma intercepted_urls_shape_witness :
  let response := {| response_url := inr (py "https://h5api.m.taobao.com/h5/mtop.taobao.detail.getdesc/");
                     response_text := inr (py "{'img':'https://img.alicdn.com/i1/O1CN01abc.jpg'}") |} in
  let u := py "https://img.alicdn.com/i1/O1CN01abc.jpg" in
  u ∈ intercept_response response ∧
  ∃ scheme before after ext,
    u = scheme ++ py "://" ++ before ++ py "O1CN01" ++ after ++ ext ∧
    scheme ∈ [py "http"; py "https"] ∧ ext ∈ [py "jpg"; py "png"; py "webp"].
Proof.
  intros response u.
  assert (u ∈ intercept_response response) as Hin.
  { assert (intercept_response response = [u]) as -> by (by vm_compute).
    apply list_elem_of_here. }
  split; [done|].
  destruct (intercepted_urls_shape response u Hin)
    as (_ & scheme & before & after & ext & Hu & Hscheme & _ & _ & Hext).
  by exists scheme, before, after, ext.
Defined.

(** ** [str.strip] and [str.split] *)

Lemma lstrip_by_head p s c t : Str.lstrip_by p s = c :: t → p c = false.
Proof.
  induction s as [|a s IH]; [done|]. cbn. destruct (p a) eqn:Ha; [done|].
  by intros [= <- _].
Qed.

Lemma lstrip_by_keeps p c t : p c = false → Str.lstrip_by p (c :: t) = c :: t.
Proof. intros H. cbn. by rewrite H. Qed.

Lemma lstrip_by_split p s :
  ∃ l, s = l ++ Str.lstrip_by p s ∧ Forall (λ c, p c = true) l.
Proof.
  induction s as [|a s (l & Hl & Hp)]; [by exists []|]. cbn.
  destruct (p a) eqn:Ha; [|by exists []].
  exists (a :: l). split; [by rewrite Hl at 1|]. by constructor.
Qed.

Lemma lstrip_by_all p s : Forall (λ c, p c = true) s → Str.lstrip_by p s = [].
Proof. induction 1 as [|c s Hc _ IH]; [done|]. cbn. by rewrite Hc. Qed.

(** [strip()] takes whitespace off both ends and nothing else. *)
Lemma strip_split s :
  ∃ l r, s = l ++ Str.strip s ++ r ∧
         Forall (λ c, Str.isspace c = true) l ∧ Forall (λ c, Str.isspace c = true) r.
Proof.
  unfold Str.strip.
  destruct (lstrip_by_split Str.isspace s) as (l & Hl & Hsl).
  destruct (lstrip_by_split Str.isspace (reverse (Str.lstrip_by Str.isspace s)))
    as (r & Hr & Hsr).
  exists l, (reverse r). split; [|split; [done|by apply Forall_reverse]].
  rewrite <- reverse_app, <- Hr, reverse_involutive. done.
Qed.

Lemma strip_ends s :
  match Str.strip s with
  | [] => True
  | c :: t => Str.isspace c = false ∧ ∃ t' d, c :: t = t' ++ [d] ∧ Str.isspace d = false
  end.
Proof.
  unfold Str.strip.
  destruct (Str.lstrip_by Str.isspace s) as [|a u] eqn:Ha; [done|].
  apply lstrip_by_head in Ha.
  destruct (Str.lstrip_by Str.isspace (reverse (a :: u))) as [|b v] eqn:Hb.
  { destruct (lstrip_by_split Str.isspace (reverse (a :: u))) as (l & Hl & Hsp).
    rewrite Hb, app_nil_r in Hl. rewrite <- Hl in Hsp.
    apply Forall_reverse in Hsp. rewrite reverse_involutive in Hsp.
    apply Forall_cons in Hsp as [Hsp _]. congruence. }
  pose proof (lstrip_by_head _ _ _ _ Hb) as Hbs.
  destruct (lstrip_by_split Str.isspace (reverse (a :: u))) as (l & Hl & Hsp).
  rewrite Hb in Hl.
  assert (a :: u = reverse v ++ [b] ++ reverse l) as Hau.
  { rewrite <- (reverse_involutive (a :: u)), Hl, reverse_app, reverse_cons.
    by rewrite <- app_assoc. }
  rewrite reverse_cons.
  destruct (reverse v) as [|c w] eqn:Hv; cbn [app].
  - split; [done|]. by exists [], b.
  - split; [|by exists (c :: w), b].
    cbn in Hau. by injection Hau as <- _.
Qed.

Lemma strip_fixed s :
  match s with
  | [] => True
  | c :: t => Str.isspace c = false ∧ ∃ t' d, c :: t = t' ++ [d] ∧ Str.isspace d = false
  end → Str.strip s = s.
Proof.
  destruct s as [|c t]; [done|]. intros [Hc (t' & d & Heq & Hd)].
  unfold Str.strip. rewrite lstrip_by_keeps by done.
  rewrite Heq, reverse_app. cbn [reverse app]. rewrite reverse_singleton. cbn [app].
  rewrite lstrip_by_keeps by done.
  by rewrite reverse_cons, reverse_involutive.
Qed.

Lemma strip_idemp s : Str.strip (Str.strip s) = Str.strip s.
Proof. apply strip_fixed, strip_ends. Qed.

Lemma strip_nil_iff s : Str.strip s = [] ↔ Forall (λ c, Str.isspace c = true) s.
Proof.
  split.
  - intros H. destruct (strip_split s) as (l & r & Hs & Hl & Hr).
    rewrite H in Hs. rewrite Hs. by apply Forall_app.
  - intros H. unfold Str.strip. by rewrite (lstrip_by_all _ s).
Qed.

Lemma strip_elem s c : c ∈ Str.strip s → c ∈ s.
Proof.
  intros H. destruct (strip_split s) as (l & r & Hs & _). rewrite Hs. set_solver.
Qed.

Lemma strip_length s : length (Str.strip s) ≤ length s.
Proof.
  destruct (strip_split s) as (l & r & Hs & _). rewrite Hs at 2.
  rewrite !length_app. lia.
Qed.

(** The first piece of [s.split(sep)]: the text before the first separator. *)
Lemma split_first sep s :
  ∃ first rest, Str.split sep s = first :: rest ∧ (sep ∉ first) ∧
                (s = first ∨ ∃ tl, s = first ++ sep :: tl).
Proof.
  induction s as [|c s (first & rest & Hsp & Hnot & Hs)].
  - exists [], []. split; [done|]. split; [by intros ?%elem_of_nil|by left].
  - cbn [Str.split]. unfold Str.eqb. case_bool_decide as Hc.
    + subst. exists [], (Str.split sep s). split; [done|].
      split; [by intros ?%elem_of_nil|]. right. by exists s.
    + rewrite Hsp. exists (c :: first), rest. split; [done|].
      split; [by intros [?|?]%elem_of_cons|].
      destruct Hs as [->|[tl ->]]; [by left|right; by exists tl].
Qed.

(** ** The field extractors *)

Lemma first_return_Some {A B} (turn : A → option B) xs v :
  first_return turn xs = Some v → ∃ x, x ∈ xs ∧ turn x = Some v.
Proof.
  induction xs as [|x xs IH]; [done|]. cbn [first_return].
  destruct (turn x) as [v'|] eqn:Hx.
  - intros [= ->]. exists x. split; [apply list_elem_of_here|done].
  - intros (x' & Hin & Hv)%IH. exists x'. split; [by right|done].
Qed.

Lemma first_return_None {A B} (turn : A → option B) xs :
  first_return turn xs = None ↔ ∀ x, x ∈ xs → turn x = None.
Proof.
  induction xs as [|x xs IH]; cbn [first_return].
  - split; [by intros _ ? ?%elem_of_nil|done].
  - destruct (turn x) as [v|] eqn:Hx.
    + split; [done|]. intros H. rewrite <- Hx. apply H, list_elem_of_here.
    + rewrite IH. split.
      * intros H x' [->|?]%elem_of_cons; [done|by apply H].
      * intros H x' Hin. apply H. by right.
Qed.

Section FieldExtractorFacts.
Context (query_selector : str → Exc (option Element)).
Context (query_selector_all : str → Exc (list Element)).
Context (document_title : Exc str).

Lemma title_turn_Some selector t :
  title_turn query_selector selector = Some t → is_stripped t ∧ 5 < length t.
Proof.
  unfold title_turn, is_stripped.
  destruct (query_selector selector) as [e|[el|]]; [done| |done].
  destruct (inner_text el) as [e|text]; [done|].
  destruct (Str.strip text) as [|c s] eqn:Hs; [done|].
  case_bool_decide; [|done]. intros [= <-]. split; [|done].
  rewrite <- Hs. apply strip_idemp.
Qed.

Lemma extract_title_inr t :
  _extract_title query_selector document_title = inr t →
  is_stripped t ∧
  (5 < length t ∨
   first_return (title_turn query_selector) title_selectors = None ∧
   ∃ page_title first,
     document_title = inr page_title ∧
     (page_title = first ∨ ∃ tl, page_title = first ++ "-"%char :: tl) ∧
     ("-"%char ∉ first) ∧ t = Str.strip first).
Proof.
  unfold _extract_title.
  destruct (first_return _ _) as [t'|] eqn:Hsel.
  { intros [= ->]. apply first_return_Some in Hsel as (sel & _ & Ht).
    apply title_turn_Some in Ht as [? ?]. by split; [|left]. }
  destruct document_title as [e|page_title]; [done|].
  destruct page_title as [|c s].
  { intros [= <-]. split; [done|]. right. split; [done|].
    exists [], []. split; [done|]. split; [by left|]. split; [by intros ?%elem_of_nil|done]. }
  destruct (split_first "-" (c :: s)) as (first & rest & Hsp & Hnot & Hpt).
  rewrite Hsp. intros [= <-]. split; [apply strip_idemp|]. right. split; [done|].
  by exists (c :: s), first.
Qed.

Lemma extract_title_inl e :
  _extract_title query_selector document_title = inl e →
  document_title = inl e ∧
  first_return (title_turn query_selector) title_selectors = None.
Proof.
  unfold _extract_title.
  destruct (first_return _ _) as [t'|] eqn:Hsel; [done|].
  destruct document_title as [e'|page_title]; [by intros [= ->]|].
  destruct (split_first "-" page_title) as (first & rest & Hsp & _).
  destruct page_title; [done|]. by rewrite Hsp.
Qed.

Lemma price_body_matches text rest g g' :
  matches (seq [plus digit_or_comma; opt (one_of (py ".")); star digit]) text rest g g' →
  g' = g ∧ price_shaped text.
Proof.
  unfold seq, plus, opt, star. cbn [foldr matches].
  intros (t1 & r1 & g1 & -> & (Hw & Hlen & _ & ->) & t2 & r2 & g2 & -> &
          (Hdot & _ & Hdot1 & ->) & t3 & r3 & g3 & -> & (Hfrac & _ & _ & ->) & [-> ->]).
  split; [done|]. exists t1, t2, t3. rewrite app_nil_r. split; [done|].
  split; [intros ->; cbn in Hlen; lia|]. split; [done|]. split; [|done].
  specialize (Hdot1 1 eq_refl). destruct t2 as [|c [|c' t2]]; [by left| |cbn in Hdot1; lia].
  right. apply Forall_cons in Hdot as [Hc _]. unfold one_of in Hc.
  apply bool_decide_eq_true in Hc. by apply list_elem_of_singleton in Hc as ->.
Qed.

Lemma price_re_matches text rest g g' :
  matches price_re text rest g g' → price_shaped text ∧ at_eos rest = true.
Proof.
  unfold price_re, seq, plus, opt, star. cbn [foldr matches].
  intros (t1 & r1 & g1 & -> & (Hw & Hlen & _ & ->) & t2 & r2 & g2 & -> &
          (Hdot & _ & Hdot1 & ->) & t3 & r3 & g3 & -> & (Hfrac & _ & _ & ->) &
          t4 & r4 & g4 & -> & (-> & Heos & ->) & [-> ->]).
  cbn [app] in Heos. split; [|done].
  exists t1, t2, t3. cbn [app]. rewrite app_nil_r. split; [done|].
  split; [intros ->; cbn in Hlen; lia|]. split; [done|]. split; [|done].
  specialize (Hdot1 1 eq_refl). destruct t2 as [|c [|c' t2]]; [by left| |cbn in Hdot1; lia].
  right. apply Forall_cons in Hdot as [Hc _]. unfold one_of in Hc.
  apply bool_decide_eq_true in Hc. by apply list_elem_of_singleton in Hc as ->.
Qed.

Lemma price_in_text_matches text rest g :
  matches price_in_text_re text rest None g → ∃ p, g = Some p ∧ price_shaped p.
Proof.
  unfold price_in_text_re. unfold seq at 1. cbn [foldr]. cbn [matches].
  intros (t1 & r1 & g1 & -> & _ & t2 & r2 & g2 & -> & [[g3 Hbody] ->] & [-> ->]).
  exists t2. split; [done|]. by apply price_body_matches in Hbody as [_ ?].
Qed.

Lemma price_among_Some elements p :
  price_among elements = inr (Some p) → is_stripped p ∧ price_shaped p.
Proof.
  induction elements as [|el rest IH]; [done|]. cbn [price_among].
  destruct (inner_text el) as [e|text]; [done|].
  destruct (Str.strip text) as [|c s] eqn:Hs; [done|].
  case_bool_decide as Hm; [|done]. intros [= <-].
  split; [unfold is_stripped; rewrite <- Hs; apply strip_idemp|].
  destruct Hm as [m Hm]. apply match_at_sound in Hm as [Heq Hm].
  apply price_re_matches in Hm as [Hshape Heos]. rewrite Heq.
  destruct (at_eos_cases _ Heos) as [-> | Hnl]; [by rewrite app_nil_r|].
  (* a stripped text does not end with a line break *)
  exfalso. pose proof (strip_ends text) as Hends. rewrite Hs in Hends.
  destruct Hends as [_ (t' & d & Hd & Hsp)]. rewrite Heq, Hnl in Hd.
  apply app_inj_tail in Hd as [_ <-]. by vm_compute in Hsp.
Qed.

Lemma extract_price_Some p :
  _extract_price query_selector query_selector_all = Some p → price_shaped p.
Proof.
  unfold _extract_price.
  destruct (first_return _ _) as [p'|] eqn:Hsel.
  { intros [= ->]. apply first_return_Some in Hsel as (sel & _ & Hp).
    unfold price_turn in Hp.
    destruct (query_selector_all sel) as [e|elements]; [done|].
    destruct (price_among elements) as [e|[p'|]] eqn:Ha; [done| |done].
    injection Hp as ->. by apply price_among_Some in Ha as [_ ?]. }
  destruct (query_selector _) as [e|[container|]]; [done| |done].
  destruct (inner_text container) as [e|text]; [done|].
  destruct (search price_in_text_re text) as [[pre m]|] eqn:Hs; [|done].
  apply search_sound in Hs as [_ (p' & Hg & Hshape)%price_in_text_matches].
  rewrite Hg. by intros [= <-].
Qed.

Lemma shop_name_turn_Some selector n :
  shop_name_turn query_selector selector = Some n →
  n ≠ [] ∧ is_stripped n ∧ "010"%char ∉ n.
Proof.
  unfold shop_name_turn.
  destruct (query_selector selector) as [e|[el|]]; [done| |done].
  destruct (inner_text el) as [e|text]; [done|].
  destruct (Str.strip text) as [|c s] eqn:Hs; [done|].
  destruct (split_first "010" (c :: s)) as (first & rest & Hsp & Hnot & Hfirst).
  rewrite Hsp. intros [= <-].
  pose proof (strip_ends text) as Hends. rewrite Hs in Hends. destruct Hends as [Hc _].
  assert (∃ first', first = c :: first') as [first' ->].
  { destruct first as [|c' first'].
    - destruct Hfirst as [?|[tl Htl]]; [done|]. cbn in Htl. injection Htl as -> _. done.
    - destruct Hfirst as [Heq|[tl Heq]]; injection Heq as -> _; by eexists. }
  split; [|split; [apply strip_idemp|by intros ?%strip_elem]].
  intros Hnil%strip_nil_iff. apply Forall_cons in Hnil as [Hsp' _]. congruence.
Qed.

Lemma extract_text_Some selector t :
  _extract_text query_selector selector = Some t → is_stripped t.
Proof.
  unfold _extract_text.
  destruct (query_selector selector) as [e|[el|]]; [done| |done].
  destruct (inner_text el) as [e|[|c text]]; [done..|].
  intros [= <-]. apply strip_idemp.
Qed.

End FieldExtractorFacts.

(** X4: [_extract_title] raises only what [page.title()] raised, after every
    selector failed to give a title.  A title it returns has no whitespace
    at its ends; it has more than five characters, or else no selector gave
    one and it is what stands before the first hyphen of the page title,
    stripped (so it holds no hyphen, and may be short or empty). *)
Theorem extract_title_stripped_or_fallback
    (query_selector : str → Exc (option Element)) (document_title : Exc str) :
  (∀ e, _extract_title query_selector document_title = inl e →
        document_title = inl e ∧
        first_return (title_turn query_selector) title_selectors = None) ∧
  (∀ t, _extract_title query_selector document_title = inr t →
        is_stripped t ∧
        (5 < length t ∨
         first_return (title_turn query_selector) title_selectors = None ∧
         ("-"%char ∉ t) ∧
         ∃ page_title first,
           document_title = inr page_title ∧
           (page_title = first ∨ ∃ tl, page_title = first ++ "-"%char :: tl) ∧
           ("-"%char ∉ first) ∧ t = Str.strip first)).
Proof.
  split; [intros e; apply extract_title_inl|].
  intros t (Hs & [Hlen|(Hnone & page_title & first & Hdt & Hpt & Hnot & ->)])%extract_title_inr.
  - split; [done|by left].
  - split; [done|]. right. split; [done|]. split; [by intros ?%strip_elem|].
    by exists page_title, first.
Qed.

(** X5: A price that [_extract_price] returns is digits and commas, at least
    one, then at most one dot, then digits: never empty, and nothing else
    (no currency sign, no unit, no whitespace). *)
Theorem extract_price_shaped
    (query_selector : str → Exc (option Element))
    (query_selector_all : str → Exc (list Element)) (p : str) :
  _extract_price query_selector query_selector_all = Some p →
  price_shaped p ∧ p ≠ [] ∧
  Forall (λ c, digit c = true ∨ c = ","%char ∨ c = "."%char) p.
Proof.
  intros Hp%extract_price_Some. split; [done|].
  destruct Hp as (whole & dot & frac & -> & Hne & Hw & Hdot & Hfrac).
  split; [by destruct whole|].
  rewrite !Forall_app. split; [|split].
  - eapply Forall_impl; [exact Hw|]. intros c Hc. unfold digit_or_comma in Hc.
    apply orb_true_iff in Hc as [?|Hc]; [by left|]. right; left.
    unfold one_of in Hc. apply bool_decide_eq_true in Hc.
    by apply list_elem_of_singleton in Hc.
  - destruct Hdot as [->| ->]; [done|]. constructor; [|done]. by right; right.
  - eapply Forall_impl; [exact Hfrac|]. by left.
Qed.

Lemma extract_price_shaped_witness :
  let query_selector_all (selector : str) : Exc (list Element) :=
    if decide (selector = py "span[class*='text--']")
    then inr [text_element "sale"; text_element " 1,299.00 "; text_element "59"]
    else inr [] in
  _extract_price (λ _, inr None) query_selector_all = Some (py "1,299.00") ∧
  price_shaped (py "1,299.00").
Proof.
  intros query_selector_all.
  assert (_extract_price (λ _, inr None) query_selector_all = Some (py "1,299.00"))
    as H by (by vm_compute).
  split; [done|]. by destruct (extract_price_shaped _ _ _ H) as [? _].
Defined.

(** X6: A shop name that [_extract_shop_name] returns is one line, not empty,
    with no whitespace at its ends. *)
Theorem extract_shop_name_single_line
    (query_selector : str → Exc (option Element)) (name : str) :
  _extract_shop_name query_selector = Some name →
  name ≠ [] ∧ is_stripped name ∧ "010"%char ∉ name.
Proof.
  unfold _extract_shop_name. intros (sel & _ & H)%first_return_Some.
  by eapply shop_name_turn_Some.
Qed.

Lemma extract_shop_name_single_line_witness :
  let query_selector :=
    only_selector ".tb-shop-name" "  Acme Flagship Store
 4.9 stars " in
  _extract_shop_name query_selector = Some (py "Acme Flagship Store") ∧
  is_stripped (py "Acme Flagship Store").
Proof.
  intros query_selector.
  assert (_extract_shop_name query_selector = Some (py "Acme Flagship Store"))
    as H by (by vm_compute).
  split; [done|]. by destruct (extract_shop_name_single_line _ _ H) as (_ & ? & _).
Defined.

(** X7: [_extract_text] never raises.  What it returns has no whitespace at its
    ends; a text of whitespace only gives the empty text, not [None]: [None]
    stands for a missing element, an empty text or an exception. *)
Theorem extract_text_stripped
    (query_selector : str → Exc (option Element)) (selector : str) :
  (∀ t, _extract_text query_selector selector = Some t → is_stripped t) ∧
  (∀ el text,
     query_selector selector = inr (Some el) → inner_text el = inr text →
     text ≠ [] → Forall (λ c, Str.isspace c = true) text →
     _extract_text query_selector selector = Some []) ∧
  (_extract_text query_selector selector = None ↔
   (∃ e, query_selector selector = inl e) ∨ query_selector selector = inr None ∨
   ∃ el, query_selector selector = inr (Some el) ∧
         ((∃ e, inner_text el = inl e) ∨ inner_text el = inr [])).
Proof.
  split; [intros t; apply extract_text_Some|]. split.
  - intros el text Hel Htext Hne Hsp. unfold _extract_text. rewrite Hel, Htext.
    destruct text; [done|]. f_equal. by apply strip_nil_iff.
  - unfold _extract_text.
    destruct (query_selector selector) as [e|[el|]].
    + split; [|done]. intros _. left. by exists e.
    + destruct (inner_text el) as [e|[|c text]] eqn:Ht.
      * split; [|done]. intros _. right; right. exists el. split; [done|]. left. by exists e.
      * split; [|done]. intros _. right; right. exists el. split; [done|]. by right.
      * split; [done|]. intros [[e [=]]|[[=]|(el' & [= <-] & [[e He]|He])]];
          rewrite Ht in He; done.
    + split; [|done]. intros _. right. by left.
Qed.

(** ** The list extractors: what they keep *)

Section CollectFacts.
Context (lo hi : nat).

Local Abbreviation kept := (kept_text lo hi).

Lemma collect_texts_kept elements acc :
  Forall kept acc → Forall kept (collect_texts lo hi elements acc).
Proof.
  revert acc. induction elements as [|el rest IH]; intros acc Hacc; [done|].
  cbn [collect_texts]. destruct (inner_text el) as [e|text]; [done|].
  apply IH. unfold text_ok. destruct text as [|c text]; [done|].
  case_bool_decide as Hlen; [|done].
  apply Forall_app. split; [done|]. constructor; [|done].
  split; [apply strip_idemp|done].
Qed.

Lemma collect_kept page selectors limit :
  Forall kept (collect page selectors limit lo hi).
Proof.
  unfold collect.
  assert (∀ acc, Forall kept acc →
            Forall kept
              (foldl (λ acc selector,
                        match page_query_selector_all page selector with
                        | inl _ => acc
                        | inr elements => collect_texts lo hi (take limit elements) acc
                        end) acc selectors)) as H; [|by apply H].
  induction selectors as [|sel sels IH]; intros acc Hacc; [done|].
  cbn [foldl]. apply IH.
  destruct (page_query_selector_all page sel); [done|]. by apply collect_texts_kept.
Qed.

End CollectFacts.

(** X8: Every highlight and every service that the extractors return is a text
    without whitespace at its ends, of more than 2 and fewer than 50
    characters; every promotion one of more than 3 and fewer than 100. *)
Theorem extracted_texts_bounded (page : Page) :
  (∀ x, x ∈ _extract_highlights page → kept_text 2 50 x) ∧
  (∀ x, x ∈ _extract_services page → kept_text 2 50 x) ∧
  (∀ x, x ∈ _extract_promotions page → kept_text 3 100 x).
Proof.
  unfold _extract_highlights, _extract_services, _extract_promotions. cbv zeta.
  split; [|split]; intros x Hx;
    (eapply Forall_forall; [apply collect_kept|]);
    (eapply elem_of_sublist; [exact Hx|]); apply capped_sublist.
Qed.

(** ** Rules for [effects] *)

Section EffectRules.
Context (P : Event → Prop).

Lemma effects_ret {A} (a : A) (Q : A → Prop) : Q a → effects (ret a) P Q.
Proof.
  intros HQ s r s' [= <- <-]. split; [done|]. split; [|by intros ? [= <-]].
  exists []. by rewrite app_nil_r.
Qed.

Lemma effects_raise {A} e (Q : A → Prop) : effects (raise e) P Q.
Proof.
  intros s r s' [= <- <-]. split; [done|]. split; [|done].
  exists []. by rewrite app_nil_r.
Qed.

Lemma effects_call {A} (c : Exc A) (Q : A → Prop) :
  (∀ a, c = inr a → Q a) → effects (call c) P Q.
Proof.
  intros HQ s r s' [= <- <-]. split; [done|]. split; [|done].
  exists []. by rewrite app_nil_r.
Qed.

Lemma effects_emit e (Q : unit → Prop) : P e → Q tt → effects (emit e) P Q.
Proof.
  intros HP HQ s r s' [= <- <-]. split; [done|]. split; [|by intros ? [= <-]].
  exists [e]. split; [done|]. by constructor.
Qed.

Lemma effects_bind {A B} (m : M State A) (f : A → M State B) Q1 (Q : B → Prop) :
  effects m P Q1 → (∀ a, Q1 a → effects (f a) P Q) → effects (bind m f) P Q.
Proof.
  intros Hm Hf s r s'. unfold bind.
  destruct (m s) as [[e|a] s1] eqn:Hms.
  - intros [= <- <-]. destruct (Hm _ _ _ Hms) as (Hself & Hev & _). done.
  - intros Hfs. destruct (Hm _ _ _ Hms) as (Hself & (evs1 & Hev1 & HP1) & HQ1).
    destruct (Hf a (HQ1 a eq_refl) _ _ _ Hfs) as (Hself' & (evs2 & Hev2 & HP2) & HQ).
    split; [congruence|]. split; [|done].
    exists (evs1 ++ evs2). split; [by rewrite Hev2, Hev1, app_assoc|].
    by apply Forall_app.
Qed.

Lemma effects_try_except {A} (m : M State A) h (Q : A → Prop) :
  effects m P Q → (∀ e, effects (h e) P Q) → effects (try_except m h) P Q.
Proof.
  intros Hm Hh s r s'. unfold try_except.
  destruct (m s) as [[e|a] s1] eqn:Hms.
  - intros Hhs. destruct (Hm _ _ _ Hms) as (Hself & (evs1 & Hev1 & HP1) & _).
    destruct (Hh e _ _ _ Hhs) as (Hself' & (evs2 & Hev2 & HP2) & HQ).
    split; [congruence|]. split; [|done].
    exists (evs1 ++ evs2). split; [by rewrite Hev2, Hev1, app_assoc|].
    by apply Forall_app.
  - intros [= <- <-]. by apply (Hm _ _ _ Hms).
Qed.

Lemma effects_for_each {A B} (xs : list A) (acc : B) body (I : B → Prop) :
  I acc → (∀ acc x, I acc → effects (body acc x) P I) →
  effects (for_each xs acc body) P I.
Proof.
  intros Hacc Hbody. revert acc Hacc. induction xs as [|x xs IH]; intros acc Hacc.
  - by apply effects_ret.
  - cbn [for_each]. eapply effects_bind; [by apply Hbody|]. intros acc' Hacc'. by apply IH.
Qed.

Lemma effects_post {A} (m : M State A) (Q Q' : A → Prop) :
  effects m P Q → (∀ a, Q a → Q' a) → effects m P Q'.
Proof.
  intros Hm HQ s r s' Hms. destruct (Hm _ _ _ Hms) as (? & ? & HQ1).
  split; [done|]. split; [done|]. intros a ->. by apply HQ, HQ1.
Qed.

End EffectRules.

Lemma effects_events {A} (m : M State A) (P P' : Event → Prop) (Q : A → Prop) :
  effects m P Q → (∀ e, P e → P' e) → effects m P' Q.
Proof.
  intros Hm HP s r s' Hms. destruct (Hm _ _ _ Hms) as (? & (evs & ? & Hevs) & ?).
  split; [done|]. split; [|done]. exists evs. split; [done|].
  eapply Forall_impl; [exact Hevs|done].
Qed.

(** ** What [scrape] does to the outside *)

Section ScrapeEffects.
Context (urlparse_error : str → option exn) (unquote_pct : str → str) (w : World).

Lemma thumbnail_srcs_effects P thumbnail_imgs :
  effects (thumbnail_srcs thumbnail_imgs) P (λ _, True).
Proof.
  unfold thumbnail_srcs. apply effects_for_each; [done|]. intros acc img _.
  eapply effects_bind; [by apply (effects_call _ _ (λ _, True))|]. intros src _.
  by apply effects_ret.
Qed.

Lemma extract_main_images_effects P page api_images :
  effects (_extract_main_images page api_images) P (λ _, True).
Proof.
  unfold _extract_main_images, _trigger_thumbnail_loading.
  eapply effects_bind; [by apply (effects_ret _ _ (λ _, True))|]. intros [] _.
  eapply effects_bind; [by apply (effects_call _ _ (λ _, True))|]. intros gallery _.
  eapply (effects_bind _ _ _ (λ _, True)).
  - destruct gallery as [thumbnails|]; [|by apply effects_ret].
    eapply effects_bind; [by apply (effects_call _ _ (λ _, True))|]. intros imgs _.
    apply thumbnail_srcs_effects.
  - intros main_images _. by apply effects_ret.
Qed.

Lemma extract_product_info_effects P page url api_images :
  effects (_extract_product_info urlparse_error unquote_pct page url api_images) P
    nothing_local.
Proof.
  unfold _extract_product_info. cbv zeta.
  eapply effects_bind; [by apply (effects_call _ _ (λ _, True))|]. intros product_id _.
  eapply effects_bind; [by apply (effects_call _ _ (λ _, True))|]. intros title _.
  eapply effects_bind; [apply extract_main_images_effects|]. intros main_images _.
  by apply effects_ret.
Qed.

Lemma download_images_effects page product out download_images save_html :
  download_images = true →
  effects (_download_images w page product out)
    (page_event (Some out) download_images save_html)
    (λ product', ∃ local_images,
       product' = ProductInfo.set_local_images local_images product ∧
       ∀ path, path ∈ local_images → ∃ name, path = out // py "images" // name).
Proof.
  intros -> s r s' Hrun.
  destruct (mkdir w (out // py "images")) as [e|[]] eqn:Hmk.
  { unfold _download_images, mbind, M_bind, bind, call in Hrun. rewrite Hmk in Hrun.
    injection Hrun as <- <-. split; [done|]. split; [|done].
    exists []. by rewrite app_nil_r. }
  rewrite download_images_spec in Hrun by done. injection Hrun as <- <-.
  split; [done|]. split.
  - eexists. split; [done|]. apply Forall_forall. intros e.
    intros (iu & He & Hiu)%list_elem_of_bind. unfold download_events in He.
    apply elem_of_cons in He as [->|He]; [by split; [eexists|]|].
    destruct (download_result _ _ _ iu) as [[filepath content]|] eqn:Hres;
      [|by apply elem_of_nil in He].
    apply list_elem_of_singleton in He as ->.
    apply download_result_path in Hres. cbn in Hres.
    exists out. split; [done|]. split; [done|]. by eexists.
  - intros a [= <-]. eexists. split; [done|].
    intros path (iu & Hin & Hres)%list_elem_of_omap.
    destruct (download_result _ _ _ iu) as [f|] eqn:Hf; [|done].
    apply download_result_path in Hf. cbn in Hres. injection Hres as <-. by eexists.
Qed.

Lemma scrape_page_effects page url output_path download_images save_html take_screenshot :
  effects (scrape_page urlparse_error unquote_pct w page url output_path
             download_images save_html take_screenshot)
    (page_event output_path download_images save_html)
    (result_paths output_path download_images save_html take_screenshot).
Proof.
  unfold scrape_page. cbv zeta.
  eapply effects_bind; [by apply (effects_call _ _ (λ _, True))|]. intros [] _.
  eapply effects_bind; [by apply (effects_call _ _ (λ _, True))|]. intros [] _.
  eapply (effects_bind _ _ _ (λ _, True)).
  { apply effects_try_except; [by apply effects_call|]. intros e. by apply effects_ret. }
  intros [] _.
  eapply effects_bind; [by apply (effects_call _ _ (λ _, True))|]. intros [] _.
  eapply effects_bind; [apply extract_product_info_effects|].
  intros product0 (Hl0 & Hs0 & Hh0 & Hj0).
  eapply (effects_bind _ _ _
            (λ p, ProductInfo.local_images p = [] ∧
                  ProductInfo.screenshot_path p =
                    (if take_screenshot then (λ out, out // py "screenshot.png") <$> output_path
                     else None) ∧
                  ProductInfo.raw_html_path p = None ∧ ProductInfo.raw_json_path p = None)).
  { destruct output_path as [out|]; [|apply effects_ret; by destruct take_screenshot].
    destruct take_screenshot; [|by apply effects_ret].
    eapply effects_bind; [by apply (effects_call _ _ (λ _, True))|]. intros [] _.
    by apply effects_ret. }
  intros product1 (Hl1 & Hs1 & Hh1 & Hj1).
  eapply (effects_bind _ _ _
            (λ p, ProductInfo.local_images p = [] ∧
                  ProductInfo.screenshot_path p = ProductInfo.screenshot_path product1 ∧
                  ProductInfo.raw_html_path p =
                    (if save_html then (λ out, out // py "page.html") <$> output_path
                     else None) ∧
                  ProductInfo.raw_json_path p = None)).
  { destruct output_path as [out|]; [|apply effects_ret; by destruct save_html].
    destruct save_html; [|by apply effects_ret].
    eapply effects_bind; [by apply (effects_call _ _ (λ _, True))|]. intros content _.
    eapply effects_bind; [by apply (effects_call _ _ (λ _, True))|]. intros [] _.
    eapply effects_bind; [apply (effects_emit _ _ (λ _, True)); [|done]|].
    { exists out. done. }
    intros [] _. by apply effects_ret. }
  intros product2 (Hl2 & Hs2 & Hh2 & Hj2).
  eapply (effects_bind _ _ _
            (λ p, ProductInfo.local_images p = [] ∧
                  ProductInfo.screenshot_path p = ProductInfo.screenshot_path product1 ∧
                  ProductInfo.raw_html_path p = ProductInfo.raw_html_path product2 ∧
                  ProductInfo.raw_json_path p =
                    (λ out, out // py "product_info.json") <$> output_path)).
  { destruct output_path as [out|]; [|by apply effects_ret].
    eapply effects_bind; [by apply (effects_call _ _ (λ _, True))|]. intros [] _.
    eapply effects_bind; [apply (effects_emit _ _ (λ _, True)); [|done]|].
    { exists out. done. }
    intros [] _. by apply effects_ret. }
  intros product3 (Hl3 & Hs3 & Hh3 & Hj3).
  eapply (effects_bind _ _ _
            (λ p, ProductInfo.screenshot_path p = ProductInfo.screenshot_path product1 ∧
                  ProductInfo.raw_html_path p = ProductInfo.raw_html_path product2 ∧
                  ProductInfo.raw_json_path p = ProductInfo.raw_json_path product3 ∧
                  (output_path = None ∨ download_images = false →
                   ProductInfo.local_images p = []) ∧
                  (∀ path, path ∈ ProductInfo.local_images p →
                     ∃ out name, output_path = Some out ∧
                                 path = out // py "images" // name))).
  { assert (∀ P, effects (mret product3) P
              (λ p, ProductInfo.screenshot_path p = ProductInfo.screenshot_path product1 ∧
                    ProductInfo.raw_html_path p = ProductInfo.raw_html_path product2 ∧
                    ProductInfo.raw_json_path p = ProductInfo.raw_json_path product3 ∧
                    (output_path = None ∨ download_images = false →
                     ProductInfo.local_images p = []) ∧
                    (∀ path, path ∈ ProductInfo.local_images p →
                       ∃ out name, output_path = Some out ∧
                                   path = out // py "images" // name))) as Hsame.
    { intros P. apply effects_ret. rewrite Hl3. repeat split; try done.
      by intros path ?%elem_of_nil. }
    destruct output_path as [out|]; [|apply Hsame].
    destruct download_images eqn:Hd; [|apply Hsame].
    eapply effects_post; [by apply download_images_effects|].
    intros p (l & -> & Hl). cbn. repeat split; try done.
    - by intros [[=]|[=]].
    - intros path (name & ->)%Hl. by exists out, name. }
  intros product4 (Hs4 & Hh4 & Hj4 & Hl4 & Hl4').
  apply effects_ret. split; [done|]. split; [done|].
  exists product4. repeat split; try done; congruence.
Qed.

Lemma bind_inr {Σ A B} (m : M Σ A) (f : A → M Σ B) s b s' :
  bind m f s = (inr b, s') → ∃ a s1, m s = (inr a, s1) ∧ f a s1 = (inr b, s').
Proof.
  unfold bind. destruct (m s) as [[e|a] s1]; [done|]. intros H. by exists a, s1.
Qed.

(** A successful run of the body wrote [product_info.json] before it
    downloaded the images and before it set [raw_json_path]: the dump is
    the product returned, but for these two fields. *)
Lemma scrape_page_success page url out download_images save_html take_screenshot st res st' :
  scrape_page urlparse_error unquote_pct w page url (Some out)
    download_images save_html take_screenshot st = (inr res, st') →
  ∃ p product,
    FileWritten (out // py "product_info.json") (JsonDump p) ∈ events st' ∧
    ProductInfo.local_images p = [] ∧ ProductInfo.raw_json_path p = None ∧
    ScrapeResult.product res = Some product ∧
    product = ProductInfo.set_local_images (ProductInfo.local_images product)
                (ProductInfo.set_raw_json_path (Some (out // py "product_info.json")) p).
Proof.
  unfold scrape_page, mbind, M_bind. cbv zeta. intros H.
  do 4 (apply bind_inr in H as (? & ? & _ & H)).
  apply bind_inr in H as (product0 & s5 & H5 & H).
  apply bind_inr in H as (product1 & s6 & H6 & H).
  apply bind_inr in H as (product2 & s7 & H7 & H).
  apply bind_inr in H as (product3 & s3 & Hjson & H).
  apply bind_inr in H as (product4 & s4 & Hdl & H).
  injection H as <- <-.
  apply (extract_product_info_effects (λ _, True)) in H5 as (_ & _ & H5).
  destruct (H5 _ eq_refl) as (Hl0 & _ & _ & Hj0).
  assert (ProductInfo.local_images product1 = [] ∧
          ProductInfo.raw_json_path product1 = None) as [Hl1 Hj1].
  { destruct take_screenshot; [apply bind_inr in H6 as (? & ? & _ & H6)|];
      by injection H6 as <- _. }
  assert (ProductInfo.local_images product2 = [] ∧
          ProductInfo.raw_json_path product2 = None) as [Hl2 Hj2].
  { destruct save_html; [do 3 (apply bind_inr in H7 as (? & ? & _ & H7))|];
      by injection H7 as <- _. }
  apply bind_inr in Hjson as ([] & s2a & Hw & Hjson).
  apply bind_inr in Hjson as ([] & s2b & Hemit & Hjson).
  unfold call in Hw. unfold emit, modify in Hemit. unfold ret in Hjson.
  injection Hjson as <- <-. injection Hw as _ <-. injection Hemit as <-.
  cbn [self events] in Hdl.
  exists product2, product4. split; [|split; [done|split; [done|split; [done|]]]].
  - assert (∃ evs, events s4 = (events s7 ++ [FileWritten (out // py "product_info.json")
                                                (JsonDump product2)]) ++ evs) as [evs ->].
    { destruct download_images.
      - apply download_images_effects with (download_images := true) (save_html := save_html)
          in Hdl as (_ & (evs & Hev & _) & _); [|done]. by exists evs.
      - injection Hdl as _ <-. exists []. by rewrite app_nil_r. }
    set_solver.
  - destruct download_images.
    + apply download_images_effects with (download_images := true) (save_html := save_html)
        in Hdl as (_ & _ & Hq); [|done].
      destruct (Hq _ eq_refl) as (l & -> & _). done.
    + injection Hdl as <- _. by destruct product2.
Qed.

End ScrapeEffects.

(** ** The browser session *)

Lemma ensure_browser_cases w st :
  match TaobaoScraper._context (self st) with
  | Some _ => _ensure_browser w st = (inr tt, st)
  | None =>
      (∃ e st', _ensure_browser w st = (inl e, st') ∧ events st' = events st ∧
                TaobaoScraper._context (self st') = None ∧
                TaobaoScraper.headless (self st') = TaobaoScraper.headless (self st) ∧
                (self st' = self st ∨ self st' = set_playwright (Some tt) (self st))) ∨
      _ensure_browser w st =
        (inr tt, {| self := launched (self st);
                    events := events st ++
                      [BrowserLaunched (TaobaoScraper.user_data_dir (self st))
                                       (TaobaoScraper.headless (self st))] |})
  end.
Proof.
  unfold _ensure_browser, mbind, M_bind, bind, get, call, set_self, emit, modify,
    mret, M_ret, ret.
  destruct st as [s evs]. cbn [self events].
  destruct (TaobaoScraper._context s) eqn:Hc; [done|].
  destruct (playwright_start w) as [e|[]].
  { left. eexists _, _. split; [done|]. cbn. repeat split; try done. by left. }
  destruct (mkdir w _) as [e|[]].
  { left. eexists _, _. split; [done|]. cbn. repeat split; try done. by right. }
  destruct (launch_persistent_context w) as [e|[]].
  { left. eexists _, _. split; [done|]. cbn. repeat split; try done. by right. }
  right. reflexivity.
Qed.

Section ScrapeTrace.
Context (urlparse_error : str → option exn) (unquote_pct : str → str) (w : World).

Lemma scrape_try_trace url output_dir download_images save_html take_screenshot st r st' :
  scrape_try urlparse_error unquote_pct w url output_dir download_images save_html
    take_screenshot st = (r, st') →
  ∃ rb st1 body,
    _ensure_browser w st = (rb, st1) ∧ self st' = self st1 ∧
    events st' = events st1 ++ body ∧
    (body = [] ∧ (∀ res, r ≠ inr res) ∨
     ∃ page closing,
       new_page w = inr page ∧
       page_session (Path_of <$> truthy output_dir) download_images save_html closing body ∧
       (page_on_response page = inr tt → page_close page = inr tt →
        closing = [PageClosed]) ∧
       (is_Some (match r with inr res => Some res | inl _ => None end) →
        closing = [PageClosed])) ∧
    (∀ res, r = inr res →
       rb = inr tt ∧ is_Some (TaobaoScraper._context (self st1)) ∧
       result_paths (Path_of <$> truthy output_dir) download_images save_html
         take_screenshot res ∧
       ∃ page s_in s_out,
         scrape_page urlparse_error unquote_pct w page url (Path_of <$> truthy output_dir)
           download_images save_html take_screenshot s_in = (inr res, s_out) ∧
         events st' = events s_out ++ [PageClosed]).
Proof.
  unfold scrape_try, mbind, M_bind. unfold bind at 1.
  destruct (_ensure_browser w st) as [[e|[]] st1] eqn:Hens.
  { intros [= <- <-]. exists (inl e), st1, []. rewrite app_nil_r.
    repeat split; try done. left. by split. }
  unfold bind at 1.
  set (out := Path_of <$> truthy output_dir).
  assert (∃ rmk, (match truthy output_dir with
                  | Some d => bind (call (mkdir w (Path_of d))) (λ _, mret (Some (Path_of d)))
                  | None => mret None
                  end) st1 = (rmk, st1) ∧ ∀ o, rmk = inr o → o = out) as (rmk & Hmk & Hout).
  { unfold out. destruct (truthy output_dir) as [d|]; cbn.
    - unfold bind, call. destruct (mkdir w (Path_of d)) as [e|[]].
      + eexists. split; [done|]. done.
      + eexists. split; [done|]. by intros o [= <-].
    - eexists. split; [done|]. by intros o [= <-]. }
  rewrite Hmk. destruct rmk as [e|o].
  { intros [= <- <-]. exists (inr tt), st1, []. rewrite app_nil_r.
    repeat split; try done. left. by split. }
  rewrite (Hout o eq_refl). clear Hout Hmk o.
  unfold bind at 1, get.
  destruct (TaobaoScraper._context (self st1)) eqn:Hctx.
  2:{ intros [= <- <-]. exists (inr tt), st1, []. rewrite app_nil_r.
      repeat split; try done. left. by split. }
  unfold bind at 1, call.
  destruct (new_page w) as [e|page] eqn:Hpage.
  { intros [= <- <-]. exists (inr tt), st1, []. rewrite app_nil_r.
    repeat split; try done. left. by split. }
  unfold bind at 1, emit, modify. unfold bind at 1.
  destruct (page_on_response page) as [e|[]] eqn:Hon.
  { intros [= <- <-]. exists (inr tt), st1, [PageOpened].
    split; [done|]. split; [done|]. split; [done|]. split; [|done].
    right. exists page, []. split; [done|]. split.
    - exists []. split; [done|]. split; [done|]. by left.
    - split; [by rewrite Hon|]. by intros [? [=]]. }
  unfold try_finally.
  destruct (scrape_page _ _ _ _ _ _ _ _ _ _) as [rp s2] eqn:Hbody.
  pose proof Hbody as Hrun.
  apply scrape_page_effects in Hbody as (Hself & (mid & Hev & Hmid) & Hres).
  cbn [self events] in Hself, Hev. unfold bind, call, emit, modify.
  destruct (page_close page) as [e|[]] eqn:Hclose.
  - intros [= <- <-]. exists (inr tt), st1, (PageOpened :: mid).
    split; [done|]. split; [done|].
    split; [by rewrite Hev, <- app_assoc|]. split; [|done].
    right. exists page, []. split; [done|]. split.
    + exists mid. rewrite app_nil_r. split; [done|]. split; [done|]. by left.
    + split; [by rewrite Hclose|]. intros [res Hr]. exfalso. revert Hr.
      destruct rp; [done|]. done.
  - intros [= <- <-]. exists (inr tt), st1, (PageOpened :: mid ++ [PageClosed]).
    split; [done|]. split; [done|].
    split; [cbn [events]; rewrite Hev, <- !app_assoc; done|]. split.
    + right. exists page, [PageClosed]. split; [done|]. split; [|done].
      exists mid. split; [done|]. split; [done|]. by right.
    + intros res ->. split; [done|]. split; [by rewrite Hctx|].
      split; [by apply Hres|]. by eexists page, _, s2.
Qed.

(** The whole of [scrape]: what it adds to the trace and what becomes of
    the scraper object. *)
Lemma scrape_trace url output_dir download_images save_html take_screenshot st r st' :
  scrape urlparse_error unquote_pct w url output_dir download_images save_html
    take_screenshot st = (r, st') →
  ∃ res rb st1 body,
    r = inr res ∧
    _ensure_browser w st = (rb, st1) ∧ self st' = self st1 ∧
    events st' = events st1 ++ body ∧
    (body = [] ∧ ScrapeResult.success res = false ∨
     ∃ page closing,
       new_page w = inr page ∧
       page_session (Path_of <$> truthy output_dir) download_images save_html closing body ∧
       (page_on_response page = inr tt → page_close page = inr tt →
        closing = [PageClosed]) ∧
       (ScrapeResult.success res = true → closing = [PageClosed])) ∧
    (ScrapeResult.success res = true →
       rb = inr tt ∧ is_Some (TaobaoScraper._context (self st1)) ∧
       result_paths (Path_of <$> truthy output_dir) download_images save_html
         take_screenshot res ∧
       ∃ page s_in s_out,
         scrape_page urlparse_error unquote_pct w page url (Path_of <$> truthy output_dir)
           download_images save_html take_screenshot s_in = (inr res, s_out) ∧
         events st' = events s_out ++ [PageClosed]) ∧
    (ScrapeResult.success res = false → ScrapeResult.product res = None).
Proof.
  unfold scrape, try_except.
  destruct (scrape_try _ _ _ _ _ _ _ _ st) as [[e|res] s1] eqn:Htry;
    apply scrape_try_trace in Htry as (rb & st1 & body & Hens & Hself & Hev & Hbody & Hres).
  - intros [= <- <-]. eexists _, rb, st1, body. split; [done|].
    split; [done|]. split; [done|]. split; [done|]. split; [|done].
    destruct Hbody as [[-> _]|(page & closing & Hp & Hs & Hc & _)]; [by left|].
    right. exists page, closing. done.
  - intros [= <- <-]. destruct (Hres res eq_refl) as (Hrb & Hctx & Hpaths & Hrun).
    exists res, rb, st1, body. split; [done|].
    split; [done|]. split; [done|]. split; [done|]. split; [|split; [done|]].
    + destruct Hbody as [[-> Hno]|(page & closing & Hp & Hs & Hc & Hc')];
        [by destruct (Hno res)|].
      right. exists page, closing. split; [done|]. split; [done|]. split; [done|].
      intros _. by apply Hc'.
    + destruct Hpaths as (Hs & _). by rewrite Hs.
Qed.

End ScrapeTrace.

Lemma ensure_browser_trace w st rb st1 :
  _ensure_browser w st = (rb, st1) →
  (events st1 = events st ∧
   (st1 = st ∧ rb = inr tt ∧ is_Some (TaobaoScraper._context (self st)) ∨
    (∃ e, rb = inl e) ∧ TaobaoScraper._context (self st) = None ∧
    TaobaoScraper._context (self st1) = None)) ∨
  (TaobaoScraper._context (self st) = None ∧ rb = inr tt ∧
   self st1 = launched (self st) ∧
   events st1 = events st ++
     [BrowserLaunched (TaobaoScraper.user_data_dir (self st))
                      (TaobaoScraper.headless (self st))]).
Proof.
  intros Hrun. pose proof (ensure_browser_cases w st) as Hc.
  destruct (TaobaoScraper._context (self st)) as [c|] eqn:Hctx.
  - rewrite Hc in Hrun. injection Hrun as <- <-. left. split; [done|]. left.
    by eauto.
  - destruct Hc as [(e & st' & Hc & Hev & Hnone & _)|Hc]; rewrite Hc in Hrun;
      injection Hrun as <- <-.
    + left. split; [done|]. right. split; [by exists e|done].
    + right. done.
Qed.

Lemma written_nil evs :
  (∀ path data, FileWritten path data ∉ evs) → written evs = [].
Proof.
  intros H. induction evs as [|e evs IH]; [done|]. unfold written in *.
  cbn [omap list_omap]. destruct e as [| | | |path data].
  5:{ exfalso. apply (H path data). apply list_elem_of_here. }
  all: apply IH; intros path data Hin; apply (H path data); by right.
Qed.

Lemma fetched_nil evs : (∀ url, Fetched url ∉ evs) → fetched evs = [].
Proof.
  intros H. induction evs as [|e evs IH]; [done|]. unfold fetched in *.
  cbn [omap list_omap]. destruct e as [| | |url|].
  4:{ exfalso. apply (H url). apply list_elem_of_here. }
  all: apply IH; intros url Hin; apply (H url); by right.
Qed.

Section ScrapeFacts.
Context (urlparse_error : str → option exn) (unquote_pct : str → str) (w : World).

(** What [scrape] adds to the trace: at most one launch of the browser,
    then at most one page session. *)
Lemma scrape_new_events url output_dir download_images save_html take_screenshot st :
  ∃ launch body,
    events (scrape urlparse_error unquote_pct w url output_dir download_images
              save_html take_screenshot st).2 =
      events st ++ launch ++ body ∧
    (launch = [] ∨
     launch = [BrowserLaunched (TaobaoScraper.user_data_dir (self st))
                               (TaobaoScraper.headless (self st))]) ∧
    (body = [] ∨
     ∃ closing, page_session (Path_of <$> truthy output_dir) download_images save_html
                  closing body).
Proof.
  destruct (scrape _ _ _ _ _ _ _ _ st) as [r st'] eqn:Hrun.
  apply scrape_trace in Hrun
    as (res & rb & st1 & body & -> & Hens & Hself & Hev & Hbody & _).
  apply ensure_browser_trace in Hens as [[Hev1 _]|(_ & _ & _ & Hev1)].
  - exists [], body. cbn [snd app]. split; [by rewrite Hev, Hev1|]. split; [by left|].
    destruct Hbody as [[-> _]|(page & closing & _ & Hs & _)];
      [by left|right; by exists closing].
  - eexists _, body. cbn [snd]. split; [by rewrite Hev, Hev1, <- app_assoc|].
    split; [by right|].
    destruct Hbody as [[-> _]|(page & closing & _ & Hs & _)];
      [by left|right; by exists closing].
Qed.

(** X9: Whatever happens, [scrape] writes files under the output directory
    only: [page.html] when asked to save the HTML, [product_info.json], and
    the images under [images] when asked to download them; and it fetches
    images only when asked to download them.  Without an output directory
    it writes and fetches nothing, whatever the options. *)
Theorem scrape_confined_to_output_dir url output_dir download_images save_html
    take_screenshot st :
  ∃ evs,
    events (scrape urlparse_error unquote_pct w url output_dir download_images
              save_html take_screenshot st).2 =
      events st ++ evs ∧
    (∀ path data, FileWritten path data ∈ evs →
       ∃ d, truthy output_dir = Some d ∧
         match data with
         | Text _ => save_html = true ∧ path = Path_of d // py "page.html"
         | JsonDump _ => path = Path_of d // py "product_info.json"
         | Bytes _ => download_images = true ∧
                      ∃ name, path = Path_of d // py "images" // name
         end) ∧
    (∀ url', Fetched url' ∈ evs →
       download_images = true ∧ is_Some (truthy output_dir)) ∧
    (truthy output_dir = None → written evs = [] ∧ fetched evs = []) ∧
    (download_images = false → fetched evs = []).
Proof.
  destruct (scrape_new_events url output_dir download_images save_html take_screenshot st)
    as (launch & body & Hev & Hlaunch & Hbody).
  exists (launch ++ body). split; [done|].
  assert (∀ e, e ∈ launch ++ body →
            (∃ d h, e = BrowserLaunched d h) ∨ e = PageOpened ∨ e = PageClosed ∨
            page_event (Path_of <$> truthy output_dir) download_images save_html e)
    as Hall.
  { intros e [Hin|Hin]%elem_of_app.
    - destruct Hlaunch as [-> | ->]; [by apply elem_of_nil in Hin|].
      apply list_elem_of_singleton in Hin as ->. left. by eexists _, _.
    - destruct Hbody as [->|(closing & mid & -> & Hmid & Hclosing)];
        [by apply elem_of_nil in Hin|].
      apply elem_of_cons in Hin as [->|[Hin|Hin]%elem_of_app]; [by right; left| |].
      + right; right; right. by eapply Forall_forall.
      + destruct Hclosing as [-> | ->]; [by apply elem_of_nil in Hin|].
        apply list_elem_of_singleton in Hin as ->. by right; right; left. }
  assert (∀ path data, FileWritten path data ∈ launch ++ body →
            page_event (Path_of <$> truthy output_dir) download_images save_html
              (FileWritten path data)) as Hfile.
  { intros path data [(? & ? & [=])|[[=]|[[=]|?]]]%Hall. done. }
  assert (∀ url', Fetched url' ∈ launch ++ body →
            page_event (Path_of <$> truthy output_dir) download_images save_html
              (Fetched url')) as Hfetch.
  { intros url' [(? & ? & [=])|[[=]|[[=]|?]]]%Hall. done. }
  split; [|split; [|split]].
  - intros path data (out & Hout & Hdata)%Hfile.
    destruct (truthy output_dir) as [d|]; [|done]. injection Hout as <-.
    exists d. split; [done|]. destruct data; [done|done|]. by destruct Hdata as (? & _).
  - intros url' [Hout Hd]%Hfetch. split; [done|].
    destruct (truthy output_dir); [done|]. by destruct Hout.
  - intros Hnone. split.
    + apply written_nil. intros path data (out & Hout & _)%Hfile.
      by rewrite Hnone in Hout.
    + apply fetched_nil. intros url' [[out Hout] _]%Hfetch. by rewrite Hnone in Hout.
  - intros ->. apply fetched_nil. by intros url' [_ [=]]%Hfetch.
Qed.

(** X10: On the success path the path fields of the product follow from the
    output directory and the options: [raw_json_path] is set whenever there
    is an output directory, [raw_html_path] and [screenshot_path] when
    moreover the option asks for them, every entry of [local_images] is a
    file under [images], and without an output directory (or without
    [download_images]) there is none. *)
Theorem scrape_success_paths url output_dir download_images save_html take_screenshot
    st res st' :
  scrape urlparse_error unquote_pct w url output_dir download_images save_html
    take_screenshot st = (inr res, st') →
  ScrapeResult.success res = true →
  result_paths (Path_of <$> truthy output_dir) download_images save_html
    take_screenshot res.
Proof.
  intros (res' & rb & st1 & body & [= <-] & _ & _ & _ & _ & Hres & _)%scrape_trace Hs.
  by destruct (Hres Hs) as (_ & _ & ? & _).
Qed.

(** X11: When the scrape succeeds with an output directory, [product_info.json]
    was written, and it was written before the images were downloaded and
    before [raw_json_path] was set: the dump has no [local_images] and no
    [raw_json_path], and is the returned product but for these two. *)
Theorem scrape_json_dump_precedes_download url output_dir download_images save_html
    take_screenshot st res st' d :
  scrape urlparse_error unquote_pct w url output_dir download_images save_html
    take_screenshot st = (inr res, st') →
  ScrapeResult.success res = true →
  truthy output_dir = Some d →
  ∃ p product,
    FileWritten (Path_of d // py "product_info.json") (JsonDump p) ∈ events st' ∧
    ScrapeResult.product res = Some product ∧
    ProductInfo.local_images p = [] ∧ ProductInfo.raw_json_path p = None ∧
    ProductInfo.raw_json_path product = Some (Path_of d // py "product_info.json") ∧
    product = ProductInfo.set_local_images (ProductInfo.local_images product)
                (ProductInfo.set_raw_json_path
                   (Some (Path_of d // py "product_info.json")) p).
Proof.
  intros (res' & rb & st1 & body & [= <-] & _ & _ & _ & _ & Hres & _)%scrape_trace Hs Hd.
  destruct (Hres Hs) as (_ & _ & _ & page & s_in & s_out & Hrun & Hev).
  rewrite Hd in Hrun. cbn [fmap option_fmap option_map] in Hrun.
  apply scrape_page_success in Hrun as (p & product & Hin & Hl & Hj & Hprod & Heq).
  exists p, product. split; [rewrite Hev; set_solver|]. split; [done|].
  split; [done|]. split; [done|]. split; [by rewrite Heq|done].
Qed.

(** X12: [scrape] opens at most one page, and the page it opened is closed
    again, whatever the body did, unless registering the listener or
    closing the page failed itself; on the success path it is closed in any
    case.  Closing the page is the last thing [scrape] does to the
    outside. *)
Theorem scrape_closes_page url output_dir download_images save_html take_screenshot
    st r st' :
  scrape urlparse_error unquote_pct w url output_dir download_images save_html
    take_screenshot st = (r, st') →
  ∃ launch session,
    events st' = events st ++ launch ++ session ∧
    (∀ e, e ∈ launch → ∃ dir h, e = BrowserLaunched dir h) ∧
    (session = [] ∨
     ∃ page mid closing,
       new_page w = inr page ∧
       session = PageOpened :: mid ++ closing ∧
       (PageOpened ∉ mid) ∧ (PageClosed ∉ mid) ∧
       (closing = [PageClosed] ∨
        closing = [] ∧
        (page_on_response page ≠ inr tt ∨ page_close page ≠ inr tt))) ∧
    (∀ res, r = inr res → ScrapeResult.success res = true →
       ∃ mid, session = PageOpened :: mid ++ [PageClosed]).
Proof.
  intros (res & rb & st1 & body & -> & Hens & Hself & Hev & Hbody & Hres & _)%scrape_trace.
  assert (∃ launch, events st1 = events st ++ launch ∧
            (launch = [] ∨ ∃ dir h, launch = [BrowserLaunched dir h]))
    as (launch & Hl & Hlaunch).
  { apply ensure_browser_trace in Hens as [[Hev1 _]|(_ & _ & _ & Hev1)].
    - exists []. rewrite app_nil_r. split; [done|by left].
    - eexists. split; [done|]. right. by eexists _, _. }
  exists launch, body. split; [by rewrite Hev, Hl, app_assoc|]. split.
  { intros e He. destruct Hlaunch as [->|(dir & h & ->)]; [by apply elem_of_nil in He|].
    apply list_elem_of_singleton in He as ->. by eexists _, _. }
  split.
  - destruct Hbody as [[-> _]|(page & closing & Hpage & (mid & -> & Hmid & Hcl) & Hc & _)];
      [by left|].
    right. exists page, mid, closing. split; [done|]. split; [done|].
    split; [|split].
    + intros Hin. eapply Forall_forall in Hmid; [|exact Hin]. done.
    + intros Hin. eapply Forall_forall in Hmid; [|exact Hin]. done.
    + destruct Hcl as [-> | ->]; [|by left]. right. split; [done|].
      destruct (page_on_response page) as [e|[]]; [by left|].
      destruct (page_close page) as [e|[]]; [by right|].
      by specialize (Hc eq_refl eq_refl).
  - intros res' [= <-] Hs.
    destruct Hbody as [[_ Hf]|(page & closing & _ & (mid & -> & _) & _ & Hc)];
      [congruence|].
    rewrite (Hc Hs). by exists mid.
Qed.

(** X13: [scrape] launches the browser only when the scraper has no browser
    context yet, once, with the data directory and the headless flag of the
    scraper object; a scraper that has a context is left as it is.  After a
    successful scrape the scraper has a context, so the next [scrape]
    launches nothing: [scrape] never closes the browser. *)
Theorem scrape_reuses_browser url output_dir download_images save_html take_screenshot
    st r st' :
  scrape urlparse_error unquote_pct w url output_dir download_images save_html
    take_screenshot st = (r, st') →
  ∃ evs,
    events st' = events st ++ evs ∧
    (is_Some (TaobaoScraper._context (self st)) →
     self st' = self st ∧ ∀ dir h, BrowserLaunched dir h ∉ evs) ∧
    (∀ dir h, BrowserLaunched dir h ∈ evs →
       TaobaoScraper._context (self st) = None ∧ self st' = launched (self st) ∧
       dir = TaobaoScraper.user_data_dir (self st) ∧
       h = TaobaoScraper.headless (self st)) ∧
    (∀ res, r = inr res → ScrapeResult.success res = true →
       is_Some (TaobaoScraper._context (self st'))).
Proof.
  intros (res & rb & st1 & body & -> & Hens & Hself & Hev & Hbody & Hres & _)%scrape_trace.
  assert (∀ dir h, BrowserLaunched dir h ∉ body) as Hnone.
  { intros dir h Hin.
    destruct Hbody as [[-> _]|(page & closing & _ & (mid & -> & Hmid & Hcl) & _)];
      [by apply elem_of_nil in Hin|].
    apply elem_of_cons in Hin as [[=]|[Hin|Hin]%elem_of_app].
    - eapply Forall_forall in Hmid; [|exact Hin]. done.
    - destruct Hcl as [-> | ->]; [by apply elem_of_nil in Hin|].
      by apply list_elem_of_singleton in Hin. }
  apply ensure_browser_trace in Hens
    as [[Hev1 [(-> & -> & Hctx)|([e ->] & Hctx & Hctx1)]]|(Hctx & -> & Hself1 & Hev1)].
  - exists body. split; [done|]. split; [done|]. split.
    + intros dir h Hin. by destruct (Hnone dir h).
    + intros res' [= <-] Hs. by rewrite Hself.
  - exists body. split; [by rewrite Hev, Hev1|]. split; [rewrite Hctx; by intros [? [=]]|].
    split.
    + intros dir h Hin. by destruct (Hnone dir h).
    + intros res' [= <-] Hs. by destruct (Hres Hs) as ([=] & _).
  - eexists. split; [by rewrite Hev, Hev1, <- app_assoc|].
    split; [rewrite Hctx; by intros [? [=]]|]. split.
    + intros dir h [Hin|Hin]%elem_of_app; [|by destruct (Hnone dir h)].
      apply list_elem_of_singleton in Hin. injection Hin as -> ->.
      split; [done|]. split; [congruence|done].
    + intros res' [= <-] Hs. rewrite Hself, Hself1. by eexists.
Qed.

End ScrapeFacts.

Lemma scrape_success_paths_witness :
  ∃ product st',
    scrape (λ _, None) (λ s, s) (ok_world gallery_page)
      (py "https://detail.tmall.com/item.htm?id=730338739838") (Some (py "out"))
      true false true initial_state
    = (inr (ScrapeResult.Build true (Some product) None 1), st') ∧
    ProductInfo.screenshot_path product = Some (Path_of (py "out") // py "screenshot.png") ∧
    ProductInfo.raw_html_path product = None ∧
    ProductInfo.raw_json_path product = Some (Path_of (py "out") // py "product_info.json") ∧
    ProductInfo.local_images product =
      [Path_of (py "out") // py "images" // py "main_01.jpg";
       Path_of (py "out") // py "images" // py "main_02.png"].
Proof.
  destruct (scrape (λ _, None) (λ s, s) (ok_world gallery_page)
              (py "https://detail.tmall.com/item.htm?id=730338739838") (Some (py "out"))
              true false true initial_state) as [r st'] eqn:Hrun.
  assert (∃ product, r = inr (ScrapeResult.Build true (Some product) None 1) ∧
            ProductInfo.local_images product =
              [Path_of (py "out") // py "images" // py "main_01.jpg";
               Path_of (py "out") // py "images" // py "main_02.png"])
    as (product & -> & Hlocal).
  { vm_compute in Hrun. injection Hrun as <- _. by eexists. }
  destruct (scrape_success_paths _ _ _ _ _ _ _ _ _ _ _ Hrun eq_refl)
    as (_ & _ & product' & [= <-] & Hshot & Hhtml & Hjson & _).
  exists product, st'. done.
Defined.

Lemma scrape_json_dump_precedes_download_witness :
  ∃ res st' p product,
    scrape (λ _, None) (λ s, s) (ok_world gallery_page)
      (py "https://detail.tmall.com/item.htm?id=730338739838") (Some (py "out"))
      true false false initial_state = (inr res, st') ∧
    ScrapeResult.product res = Some product ∧
    FileWritten (Path_of (py "out") // py "product_info.json") (JsonDump p) ∈ events st' ∧
    ProductInfo.local_images p = [] ∧
    length (ProductInfo.local_images product) = 2.
Proof.
  destruct (scrape (λ _, None) (λ s, s) (ok_world gallery_page)
              (py "https://detail.tmall.com/item.htm?id=730338739838") (Some (py "out"))
              true false false initial_state) as [r st'] eqn:Hrun.
  assert (∃ product, r = inr (ScrapeResult.Build true (Some product) None 1) ∧
            length (ProductInfo.local_images product) = 2) as (product & -> & Hlen).
  { vm_compute in Hrun. injection Hrun as <- _. by eexists. }
  destruct (scrape_json_dump_precedes_download _ _ _ _ _ _ _ _ _ _ _ (py "out")
              Hrun eq_refl eq_refl)
    as (p & product' & Hin & [= <-] & Hl & _).
  by eexists _, st', p, product.
Defined.

Lemma scrape_closes_page_witness :
  ∃ r st' mid,
    scrape (λ _, None) (λ s, s)
      (ok_world (page_with (λ _, inr []) (λ _ _, inr None)))
      (py "https://item.taobao.com/item.htm?id=1") None true true true initial_state
    = (r, st') ∧
    events st' = BrowserLaunched (Home // py ".pixelle" // py "browser_data") true ::
                 PageOpened :: mid ++ [PageClosed].
Proof.
  destruct (scrape (λ _, None) (λ s, s)
              (ok_world (page_with (λ _, inr []) (λ _ _, inr None)))
              (py "https://item.taobao.com/item.htm?id=1") None true true true
              initial_state) as [r st'] eqn:Hrun.
  destruct (scrape_closes_page _ _ _ _ _ _ _ _ _ _ _ Hrun)
    as (launch & session & Hev & _ & _ & _).
  exists r, st', []. split; [done|]. vm_compute in Hrun. by injection Hrun as _ <-.
Defined.

Lemma scrape_reuses_browser_witness :
  ∃ r st' r2 st2,
    scrape (λ _, None) (λ s, s) (ok_world gallery_page)
      (py "https://detail.tmall.com/item.htm?id=730338739838") None
      true false false initial_state = (r, st') ∧
    scrape (λ _, None) (λ s, s) (ok_world gallery_page)
      (py "https://detail.tmall.com/item.htm?id=730338739838") None
      true false false st' = (r2, st2) ∧
    self st2 = self st' ∧
    events st2 = events st' ++ [PageOpened; PageClosed].
Proof.
  destruct (scrape (λ _, None) (λ s, s) (ok_world gallery_page)
              (py "https://detail.tmall.com/item.htm?id=730338739838") None
              true false false initial_state) as [r st'] eqn:Hrun.
  destruct (scrape (λ _, None) (λ s, s) (ok_world gallery_page)
              (py "https://detail.tmall.com/item.htm?id=730338739838") None
              true false false st') as [r2 st2] eqn:Hrun2.
  exists r, st', r2, st2. split; [done|]. split; [done|].
  destruct (scrape_reuses_browser _ _ _ _ _ _ _ _ _ _ _ Hrun2) as (evs & Hev & Hkeep & _).
  vm_compute in Hrun. injection Hrun as _ <-.
  split; [by apply Hkeep|]. vm_compute in Hrun2. by injection Hrun2 as _ <-.
Defined.

(** ** The browser session: [_ensure_browser], [close], [login_interactive] *)

(** X14: [_ensure_browser] launches the browser when the scraper has no context
    and does nothing when it has one, so a second call launches nothing.
    When it fails, nothing was launched and there is still no context; the
    exception is the one of starting Playwright, creating the data
    directory or launching the context. *)
Theorem ensure_browser_launches_once (w : World) (st : State) :
  match _ensure_browser w st with
  | (inr _, st') =>
      is_Some (TaobaoScraper._context (self st')) ∧
      _ensure_browser w st' = (inr tt, st') ∧
      (is_Some (TaobaoScraper._context (self st)) → st' = st) ∧
      (TaobaoScraper._context (self st) = None →
       self st' = launched (self st) ∧
       events st' = events st ++
         [BrowserLaunched (TaobaoScraper.user_data_dir (self st))
                          (TaobaoScraper.headless (self st))])
  | (inl e, st') =>
      TaobaoScraper._context (self st) = None ∧
      TaobaoScraper._context (self st') = None ∧
      events st' = events st ∧
      (playwright_start w = inl e ∨
       mkdir w (TaobaoScraper.user_data_dir (self st)) = inl e ∨
       launch_persistent_context w = inl e)
  end.
Proof.
  destruct st as [s evs].
  unfold _ensure_browser, mbind, M_bind, bind, get, call, set_self, emit, modify,
    mret, M_ret, ret. cbn [self events].
  destruct (TaobaoScraper._context s) as [c|] eqn:Hc.
  { cbn [self events]. rewrite Hc. done. }
  destruct (playwright_start w) as [e|[]] eqn:Hstart; cbn [self events]; [by eauto|].
  destruct (mkdir w _) as [e|[]] eqn:Hmk; cbn [self events]; [by eauto 10|].
  destruct (launch_persistent_context w) as [e|[]] eqn:Hlaunch; cbn [self events];
    [by eauto 10|].
  split; [done|]. split; [done|]. split; [by intros [? [=]]|done].
Qed.

(** X15: [close] forgets the context and Playwright: when it returns, both are
    unset, nothing else of the scraper changed, and a second [close] does
    nothing.  When closing the context raises, Playwright is not stopped
    and the scraper keeps both; when stopping Playwright raises, the context
    is gone and Playwright is kept.  On a scraper that never launched a
    browser, [close] does nothing. *)
Theorem close_resets_session (context_close playwright_stop : Exc unit) (st : State) :
  match close context_close playwright_stop st with
  | (inr _, st') =>
      self st' = set_playwright None (set_context None (self st)) ∧
      events st' = events st ∧
      close context_close playwright_stop st' = (inr tt, st') ∧
      (is_Some (TaobaoScraper._context (self st)) → context_close = inr tt) ∧
      (is_Some (TaobaoScraper._playwright (self st)) → playwright_stop = inr tt)
  | (inl e, st') =>
      events st' = events st ∧
      (context_close = inl e ∧ is_Some (TaobaoScraper._context (self st)) ∧ st' = st ∨
       playwright_stop = inl e ∧ is_Some (TaobaoScraper._playwright (self st)) ∧
       self st' = set_context None (self st))
  end ∧
  (TaobaoScraper._context (self st) = None →
   TaobaoScraper._playwright (self st) = None →
   close context_close playwright_stop st = (inr tt, st)).
Proof.
  destruct st as [s evs]. destruct s as [h ua t dir c p].
  unfold close, mbind, M_bind, bind, get, call, set_self, modify, mret, M_ret, ret.
  cbn [self events TaobaoScraper._context TaobaoScraper._playwright].
  split; [|by intros -> ->].
  destruct c as [c|], p as [[]|];
    cbn [self events TaobaoScraper._context TaobaoScraper._playwright set_context
         set_playwright];
    repeat match goal with
           | |- context [match context_close with _ => _ end] =>
               destruct context_close as [?|[]] eqn:?
           | |- context [match playwright_stop with _ => _ end] =>
               destruct playwright_stop as [?|[]] eqn:?
           end;
    cbn [self events TaobaoScraper._context TaobaoScraper._playwright set_context
         set_playwright];
    repeat split; try done; try (by intros [? [=]]); eauto 10.
Qed.

(** The body of [login_interactive] once the browser is there: it changes
    nothing of the scraper and only opens and closes its page. *)
Lemma login_page_effects (new_login_page : Exc LoginPage) (input : Exc str) :
  effects
    (page ← call new_login_page;
     emit PageOpened;;
     call (login_goto page);;
     call input;;
     call (login_goto_home page);;
     call (login_wait page);;
     call (login_close page);;
     emit PageClosed)
    (λ e, e = PageOpened ∨ e = PageClosed) (λ _, True).
Proof.
  eapply effects_bind; [by apply (effects_call _ _ (λ _, True))|]. intros page _.
  eapply effects_bind; [apply (effects_emit _ _ (λ _, True)); [by left|done]|]. intros [] _.
  do 5 (eapply effects_bind; [by apply (effects_call _ _ (λ _, True))|]; intros ? _).
  apply effects_emit; [by right|done].
Qed.

Lemma login_page_returns (new_login_page : Exc LoginPage) (input : Exc str) s s' :
  (page ← call new_login_page;
   emit PageOpened;;
   call (login_goto page);;
   call input;;
   call (login_goto_home page);;
   call (login_wait page);;
   call (login_close page);;
   emit PageClosed) s = (inr tt, s') →
  events s' = events s ++ [PageOpened; PageClosed].
Proof.
  unfold mbind, M_bind, bind, call, emit, modify. cbn [self events].
  intros H. repeat (case_match; try done). injection H as <-. cbn [events].
  by rewrite <- app_assoc.
Qed.

Section Login.
Context (w : World) (new_login_page : Exc LoginPage) (input : Exc str).

Lemma login_interactive_run url st :
  login_interactive w new_login_page input url st =
  let '(r, s1) := login_try w new_login_page input
                    {| self := set_headless false (self st); events := events st |} in
  (r, {| self := set_headless (TaobaoScraper.headless (self st)) (self s1);
         events := events s1 |}).
Proof.
  unfold login_interactive, mbind, M_bind, bind, get, set_self, modify, try_finally.
  cbn [self events]. by destruct (login_try _ _ _ _) as [r s1].
Qed.

(** What [login_try] does from a state [s0]: the browser is launched when
    there is no context, then the login page is opened and closed. *)
Lemma login_try_run s0 r s1 :
  login_try w new_login_page input s0 = (r, s1) →
  ∃ launch pages,
    events s1 = events s0 ++ launch ++ pages ∧
    Forall (λ e, e = PageOpened ∨ e = PageClosed) pages ∧
    (r = inr tt → ∃ evs, pages = evs ++ [PageClosed]) ∧
    TaobaoScraper.headless (self s1) = TaobaoScraper.headless (self s0) ∧
    TaobaoScraper.user_agent (self s1) = TaobaoScraper.user_agent (self s0) ∧
    TaobaoScraper.timeout (self s1) = TaobaoScraper.timeout (self s0) ∧
    TaobaoScraper.user_data_dir (self s1) = TaobaoScraper.user_data_dir (self s0) ∧
    (launch = [] ∧
     (TaobaoScraper._context (self s1) = TaobaoScraper._context (self s0) ∨
      TaobaoScraper._context (self s0) = None ∧ (∃ e, r = inl e)) ∨
     TaobaoScraper._context (self s0) = None ∧
     launch = [BrowserLaunched (TaobaoScraper.user_data_dir (self s0))
                               (TaobaoScraper.headless (self s0))] ∧
     TaobaoScraper._context (self s1) =
       Some (PersistentContext (TaobaoScraper.user_data_dir (self s0))
                               (TaobaoScraper.headless (self s0)))) ∧
    (r = inr tt → is_Some (TaobaoScraper._context (self s1))).
Proof.
  unfold login_try, mbind, M_bind. unfold bind at 1.
  pose proof (ensure_browser_cases w s0) as Hc.
  destruct (_ensure_browser w s0) as [[e|[]] sb] eqn:Hens.
  { intros [= <- <-]. exists [], []. rewrite app_nil_r.
    destruct (TaobaoScraper._context (self s0)) eqn:Hctx; [congruence|].
    destruct Hc as [(e' & s' & Hc & Hev & Hnone & Hh & Hself)|Hc]; [|congruence].
    injection Hc as <- <-.
    split; [done|]. split; [done|]. split; [done|].
    destruct Hself as [-> | ->]; repeat split; try done; left; (split; [done|]);
      left; done. }
  assert (∃ launch,
            events sb = events s0 ++ launch ∧
            TaobaoScraper.headless (self sb) = TaobaoScraper.headless (self s0) ∧
            TaobaoScraper.user_agent (self sb) = TaobaoScraper.user_agent (self s0) ∧
            TaobaoScraper.timeout (self sb) = TaobaoScraper.timeout (self s0) ∧
            TaobaoScraper.user_data_dir (self sb) = TaobaoScraper.user_data_dir (self s0) ∧
            is_Some (TaobaoScraper._context (self sb)) ∧
            (launch = [] ∧
             TaobaoScraper._context (self sb) = TaobaoScraper._context (self s0) ∨
             TaobaoScraper._context (self s0) = None ∧
             launch = [BrowserLaunched (TaobaoScraper.user_data_dir (self s0))
                                       (TaobaoScraper.headless (self s0))] ∧
             TaobaoScraper._context (self sb) =
               Some (PersistentContext (TaobaoScraper.user_data_dir (self s0))
                                       (TaobaoScraper.headless (self s0)))))
    as (launch & Hev & Hh & Hua & Ht & Hd & Hsome & Hlaunch).
  { destruct (TaobaoScraper._context (self s0)) eqn:Hctx.
    - injection Hc as <-. exists []. rewrite app_nil_r, Hctx.
      repeat split; try done. by left.
    - destruct Hc as [(e' & s' & Hc & _)|Hc]; [done|]. injection Hc as ->.
      eexists. cbn [self events launched TaobaoScraper.headless TaobaoScraper.user_agent
                    TaobaoScraper.timeout TaobaoScraper.user_data_dir
                    TaobaoScraper._context].
      repeat split; try done. by right. }
  unfold bind at 1, get. destruct Hsome as [ctx Hctx]. rewrite Hctx.
  intros Hbody.
  pose proof (login_page_effects _ _ _ _ _ Hbody) as (Hself & (pages & Hevp & Hpages) & _).
  exists launch, pages. split; [by rewrite Hevp, Hev, app_assoc|]. split; [done|].
  split.
  { intros ->. apply login_page_returns in Hbody. rewrite Hevp in Hbody.
    apply app_inv_head in Hbody as ->. by exists [PageOpened]. }
  rewrite Hself. split; [done|]. split; [done|]. split; [done|]. split; [done|].
  split; [|intros _; by rewrite Hctx].
  destruct Hlaunch as [[-> Hsame]|(Hnone & -> & Hlaunched)].
  - left. split; [done|]. by left.
  - by right.
Qed.
(** X16: [login_interactive] leaves the [headless] setting as it found it,
    whether it returns or raises, and changes nothing else of the scraper
    but the session.  The browser it launches is a visible one; but it
    launches one only when the scraper has no context: a scraper that has
    one, headless or not, logs in with the context it has.  The context is
    kept afterwards, so a later [scrape] runs in the visible browser. *)
Theorem login_restores_headless (url : str) (st : State) :
  ∃ r st' evs,
    login_interactive w new_login_page input url st = (r, st') ∧
    events st' = events st ++ evs ∧
    TaobaoScraper.headless (self st') = TaobaoScraper.headless (self st) ∧
    TaobaoScraper.user_agent (self st') = TaobaoScraper.user_agent (self st) ∧
    TaobaoScraper.timeout (self st') = TaobaoScraper.timeout (self st) ∧
    TaobaoScraper.user_data_dir (self st') = TaobaoScraper.user_data_dir (self st) ∧
    (is_Some (TaobaoScraper._context (self st)) →
     TaobaoScraper._context (self st') = TaobaoScraper._context (self st) ∧
     ∀ dir h, BrowserLaunched dir h ∉ evs) ∧
    (∀ dir h, BrowserLaunched dir h ∈ evs →
       h = false ∧ dir = TaobaoScraper.user_data_dir (self st) ∧
       TaobaoScraper._context (self st) = None ∧
       TaobaoScraper._context (self st') = Some (PersistentContext dir false)) ∧
    (r = inr tt →
     is_Some (TaobaoScraper._context (self st')) ∧ last evs = Some PageClosed).
Proof.
  rewrite login_interactive_run.
  destruct (login_try w new_login_page input _) as [r s1] eqn:Hrun.
  apply login_try_run in Hrun
    as (launch & pages & Hev & Hpages & Hret & Hh & Hua & Ht & Hd & Hlaunch & Hsome).
  cbn [self events set_headless TaobaoScraper.headless TaobaoScraper.user_agent
       TaobaoScraper.timeout TaobaoScraper.user_data_dir TaobaoScraper._context]
    in Hev, Hh, Hua, Ht, Hd, Hlaunch, Hsome.
  eexists r, _, (launch ++ pages). split; [done|].
  cbn [self events set_headless TaobaoScraper.headless TaobaoScraper.user_agent
       TaobaoScraper.timeout TaobaoScraper.user_data_dir TaobaoScraper._context].
  split; [done|]. split; [done|]. split; [done|]. split; [done|]. split; [done|].
  assert (∀ dir h, BrowserLaunched dir h ∉ pages) as Hnp.
  { intros dir h Hin. eapply Forall_forall in Hpages; [|exact Hin]. by destruct Hpages. }
  split; [|split].
  - intros Hctx.
    destruct Hlaunch as [[-> [Hsame|[Hnone _]]]|(Hnone & _)].
    + split; [done|]. intros dir h Hin. by apply (Hnp dir h).
    + rewrite Hnone in Hctx. by destruct Hctx.
    + rewrite Hnone in Hctx. by destruct Hctx.
  - intros dir h [Hin|Hin]%elem_of_app; [|by destruct (Hnp dir h)].
    destruct Hlaunch as [[-> _]|(Hnone & -> & Hl)]; [by apply elem_of_nil in Hin|].
    apply list_elem_of_singleton in Hin. injection Hin as -> ->. done.
  - intros Hr. split; [by apply Hsome|].
    destruct (Hret Hr) as [evs ->]. by rewrite !app_assoc, last_snoc.
Qed.

End Login.

(** ** The platform registry *)

Lemma dict_get_set {V} key (value : V) d : dict_get key (dict_set key value d) = Some value.
Proof.
  induction d as [|[k v] d IH]; cbn.
  - by rewrite decide_True.
  - destruct (decide (key = k)) as [->|Hk]; cbn.
    + by rewrite decide_True.
    + by rewrite decide_False.
Qed.

Lemma dict_get_set_ne {V} key key' (value : V) d :
  key' ≠ key → dict_get key' (dict_set key value d) = dict_get key' d.
Proof.
  intros Hne. induction d as [|[k v] d IH]; cbn.
  - by rewrite decide_False.
  - destruct (decide (key = k)) as [->|Hk]; cbn.
    + by rewrite !decide_False.
    + destruct (decide (key' = k)); [done|]. apply IH.
Qed.

Lemma dict_set_keys {V} key (value : V) d :
  (dict_set key value d).*1 = if decide (key ∈ d.*1) then d.*1 else d.*1 ++ [key].
Proof.
  induction d as [|[k v] d IH]; cbn; [done|].
  destruct (decide (key = k)) as [->|Hk]; cbn.
  - rewrite decide_True by set_solver. done.
  - rewrite IH. destruct (decide (key ∈ d.*1)).
    + rewrite decide_True by set_solver. done.
    + rewrite decide_False by set_solver. done.
Qed.

Lemma contains_app sub pre post : Str.contains sub (pre ++ sub ++ post) = true.
Proof.
  induction pre as [|c pre IH]; cbn [app].
  - assert (Str.startswith (sub ++ post) sub = true) as Hs.
    { unfold Str.startswith. apply bool_decide_eq_true.
      induction sub as [|a sub IH]; cbn; [done|]. unfold Str.eqb.
      by rewrite bool_decide_eq_true_2. }
    destruct (sub ++ post); cbn [Str.contains]; by rewrite Hs.
  - cbn [Str.contains]. rewrite IH. by destruct (Str.startswith _ _).
Qed.

Lemma contains_inv sub s :
  Str.contains sub s = true → ∃ pre post, s = pre ++ sub ++ post.
Proof.
  induction s as [|c s IH]; cbn [Str.contains].
  - rewrite orb_false_r. unfold Str.startswith. intros [s' Hs]%bool_decide_eq_true.
    apply strip_prefix_Some in Hs. by exists [], s'.
  - intros [Hs|Hs]%orb_true_iff.
    + unfold Str.startswith in Hs. apply bool_decide_eq_true in Hs as [s' Hs].
      apply strip_prefix_Some in Hs. by exists [], s'.
    + destruct (IH Hs) as (pre & post & ->). by exists (c :: pre), post.
Qed.

Lemma lower_idemp s : Str.lower (Str.lower s) = Str.lower s.
Proof.
  unfold Str.lower. rewrite <- list_fmap_compose. apply list_fmap_ext.
  intros _ c _. cbn.
  destruct c as [[] [] [] [] [] [] [] []]; by vm_compute.
Qed.

Lemma contains_lower sub s :
  Str.contains sub s = true → Str.contains (Str.lower sub) (Str.lower s) = true.
Proof.
  intros (pre & post & ->)%contains_inv. unfold Str.lower.
  rewrite !fmap_app. apply contains_app.
Qed.

(** X17: A class registered under a tag is the one that [create] instantiates
    for that tag, in any case of its letters, provided the tag does not
    start with [http]; registering leaves the other tags as they were.  A
    tag that starts with [http] can be registered but is never looked up:
    [create] takes it for a URL. *)
Theorem register_then_create (w : World) (_scrapers : list (str * ScraperClass))
    (platform platform' : str) (scraper_class : ScraperClass) (kwargs : Kwargs)
    (events : list Event) :
  Str.lower platform' = Str.lower platform →
  (Str.startswith (Str.lower platform) (py "http") = false →
   ScraperFactory.create w (ScraperFactory.register platform scraper_class _scrapers)
     platform' kwargs events = __init__ w kwargs events) ∧
  (∀ tag, tag ≠ Str.lower platform →
     dict_get tag (ScraperFactory.register platform scraper_class _scrapers) =
     dict_get tag _scrapers) ∧
  (Str.startswith (Str.lower platform) (py "http") = true →
   Str.contains (py "taobao.com") (Str.lower platform) = false →
   Str.contains (py "tmall.com") (Str.lower platform) = false →
   ∃ msg, ScraperFactory.create w
            (ScraperFactory.register platform scraper_class _scrapers)
            platform' kwargs events = (inl (ValueError msg), events)).
Proof.
  intros Hlow. unfold ScraperFactory.create, ScraperFactory.register. cbv zeta.
  unfold mbind, M_bind, bind, mret, M_ret, ret, raise. rewrite Hlow.
  split; [|split].
  - intros ->. rewrite dict_get_set. by destruct scraper_class.
  - intros tag Htag. by apply dict_get_set_ne.
  - intros -> -> ->. by eexists.
Qed.

Lemma register_then_create_witness :
  ScraperFactory.create (ok_world all_ok_page)
    (ScraperFactory.register (py "JD") TaobaoScraperClass ScraperFactory.registered)
    (py "jd") no_kwargs [] = (inr new_scraper, []).
Proof.
  destruct (register_then_create (ok_world all_ok_page) ScraperFactory.registered
              (py "JD") (py "jd") TaobaoScraperClass no_kwargs [] eq_refl)
    as [Hcreate _].
  rewrite Hcreate; by vm_compute.
Defined.

(** X18: For an argument that starts with [http] (in any case) and holds
    [taobao.com] or [tmall.com], [from_url] is [create("taobao")]: the class
    registered under [taobao] serves Tmall URLs too, whatever is registered
    under [tmall].  With the registry of [taobao.py] it returns a scraper
    built from the keyword arguments and launches nothing. *)
Theorem from_url_known_shop (w : World) (_scrapers : list (str * ScraperClass))
    (url : str) (kwargs : Kwargs) (events : list Event) :
  Str.startswith (Str.lower url) (py "http") = true →
  Str.contains (py "taobao.com") url || Str.contains (py "tmall.com") url = true →
  ScraperFactory.from_url w _scrapers url kwargs events =
    ScraperFactory.create w _scrapers (py "taobao") kwargs events ∧
  ScraperFactory.from_url w ScraperFactory.registered url kwargs events =
    __init__ w kwargs events.
Proof.
  intros Hhttp Hshop.
  assert (Str.contains (py "taobao.com") (Str.lower url) ||
          Str.contains (py "tmall.com") (Str.lower url) = true) as Hlow.
  { apply orb_true_iff in Hshop as [H|H]; apply contains_lower in H;
      apply orb_true_iff; [left|right]; exact H. }
  assert (∀ regs, ScraperFactory.from_url w regs url kwargs events =
                  ScraperFactory.create w regs (py "taobao") kwargs events) as Heq.
  { intros regs. unfold ScraperFactory.from_url, ScraperFactory.create. cbv zeta.
    unfold mbind, M_bind, bind, mret, M_ret, ret, raise.
    rewrite Hhttp, Hlow. done. }
  split; [apply Heq|]. rewrite Heq. done.
Qed.

Lemma from_url_known_shop_witness :
  ScraperFactory.from_url (ok_world all_ok_page) ScraperFactory.registered
    (py "HTTPS://detail.tmall.com/item.htm?id=730338739838") no_kwargs []
  = (inr new_scraper, []).
Proof.
  destruct (from_url_known_shop (ok_world all_ok_page) ScraperFactory.registered
              (py "HTTPS://detail.tmall.com/item.htm?id=730338739838") no_kwargs [])
    as [_ Hreg]; [by vm_compute..|].
  rewrite Hreg. by vm_compute.
Defined.

(** ** The pipeline *)

Lemma close_ok st :
  close (inr tt) (inr tt) st =
  (inr tt, {| self := set_playwright None (set_context None (self st));
              events := events st |}).
Proof.
  destruct st as [[h ua t dir c p] evs].
  unfold close, mbind, M_bind, bind, get, call, set_self, modify, mret, M_ret, ret.
  cbn [self events TaobaoScraper._context TaobaoScraper._playwright].
  by destruct c, p as [[]|].
Qed.

Section PipelineFacts.
Context (urlparse_error : str → option exn) (unquote_pct : str → str) (w : World).
Context (progress_scrape_start progress_scrape_complete : Exc unit).
Context (path_str : Path → str).

(** X19: Whatever the scrape does, [scrape_product] leaves no browser behind:
    once it has created its scraper, the scraper ends with no context and
    no Playwright, on the success path and on every failure path (closing
    the browser is taken not to fail).  A failed scrape result leaves
    [scrape_product] as a [ValueError] that carries the error message; a
    product is returned only for a result with [success=True], and it is
    the product of that result. *)
Theorem scrape_product_closes_browser (_scrapers : list (str * ScraperClass))
    (product_url : str) (task_dir : Path) (trace : list Event)
    (context_close playwright_stop : Exc unit) :
  context_close = inr tt → playwright_stop = inr tt →
  ∃ r scraper trace',
    scrape_product urlparse_error unquote_pct w context_close playwright_stop
      progress_scrape_start progress_scrape_complete path_str
      _scrapers product_url task_dir trace = (r, scraper, trace') ∧
    (∀ s, scraper = Some s →
          TaobaoScraper._context s = None ∧ TaobaoScraper._playwright s = None) ∧
    (∀ scraper0 trace0 res st1,
       progress_scrape_start = inr tt →
       ScraperFactory.from_url w _scrapers product_url headless_kwargs trace
         = (inr scraper0, trace0) →
       scrape urlparse_error unquote_pct w product_url
         (Some (path_str (task_dir // py "product"))) true true true
         {| self := scraper0; events := trace0 |} = (inr res, st1) →
       is_Some scraper ∧ trace' = events st1 ∧
       (ScrapeResult.success res = false →
        r = inl (ValueError (py "Failed to scrape product: " ++
                             default (py "None") (ScrapeResult.error res)))) ∧
       (∀ product, r = inr product →
          ScrapeResult.success res = true ∧ ScrapeResult.product res = Some product)).
Proof.
  intros -> ->. unfold scrape_product.
  destruct progress_scrape_start as [e|[]] eqn:Hstart.
  { eexists _, _, _. split; [done|]. split; [done|]. done. }
  destruct (ScraperFactory.from_url _ _ _ _ _) as [[e|scraper0] trace0] eqn:Hcreate.
  { eexists _, _, _. split; [done|]. split; [done|]. done. }
  unfold try_finally.
  destruct (scrape_product_try _ _ _ _ _ _ _) as [r1 s1] eqn:Htry.
  rewrite close_ok.
  assert (∀ res st1,
            scrape urlparse_error unquote_pct w product_url
              (Some (path_str (task_dir // py "product"))) true true true
              {| self := scraper0; events := trace0 |} = (inr res, st1) →
            s1 = st1 ∧
            (ScrapeResult.success res = false →
             r1 = inl (ValueError (py "Failed to scrape product: " ++
                                   default (py "None") (ScrapeResult.error res)))) ∧
            (∀ product, r1 = inr product →
               ScrapeResult.success res = true ∧ ScrapeResult.product res = Some product))
    as Hres.
  { intros res st1 Hscrape. unfold scrape_product_try, mbind, M_bind, bind in Htry.
    rewrite Hscrape in Htry.
    destruct (ScrapeResult.success res) eqn:Hs; cbn [negb] in Htry.
    - destruct (ScrapeResult.product res) as [product|] eqn:Hp; injection Htry as <- <-.
      + split; [done|]. split; [done|]. by intros product' [= <-].
      + split; [done|]. split; [done|]. done.
    - injection Htry as <- <-. split; [done|]. split; [done|]. done. }
  destruct r1 as [e|product].
  - eexists _, _, _. split; [done|]. split; [by intros s [= <-]|].
    intros scraper1 trace1 res st1 _ [= <- <-] Hscrape.
    destruct (Hres res st1 Hscrape) as (-> & Hfail & Hok).
    split; [done|]. split; [done|]. split; [done|]. done.
  - destruct progress_scrape_complete as [e|[]].
    + eexists _, _, _. split; [done|]. split; [by intros s [= <-]|].
      intros scraper1 trace1 res st1 _ [= <- <-] Hscrape.
      destruct (Hres res st1 Hscrape) as (-> & Hfail & Hok).
      split; [done|]. split; [done|]. split; [|done].
      intros Hs. by specialize (Hfail Hs).
    + eexists _, _, _. split; [done|]. split; [by intros s [= <-]|].
      intros scraper1 trace1 res st1 _ [= <- <-] Hscrape.
      destruct (Hres res st1 Hscrape) as (-> & Hfail & Hok).
      split; [done|]. split; [done|]. split; [|done].
      intros Hs. by specialize (Hfail Hs).
Qed.

End PipelineFacts.

Lemma scrape_product_closes_browser_witness :
  ∃ product s trace',
    scrape_product (λ _, None) (λ s, s) (ok_world gallery_page) (inr tt) (inr tt)
      (inr tt) (inr tt) (λ _, py "task/product") ScraperFactory.registered
      (py "https://detail.tmall.com/item.htm?id=730338739838") (Path_of (py "task")) []
    = (inr product, Some s, trace') ∧
    TaobaoScraper._context s = None ∧ TaobaoScraper._playwright s = None ∧
    length (ProductInfo.local_images product) = 2.
Proof.
  destruct (scrape_product_closes_browser (λ _, None) (λ s, s) (ok_world gallery_page)
              (inr tt) (inr tt) (λ _, py "task/product") ScraperFactory.registered
              (py "https://detail.tmall.com/item.htm?id=730338739838")
              (Path_of (py "task")) [] (inr tt) (inr tt) eq_refl eq_refl)
    as (r & scraper & trace' & Hrun & Hclosed & _).
  assert (∃ product s, r = inr product ∧ scraper = Some s ∧
                       length (ProductInfo.local_images product) = 2)
    as (product & s & -> & -> & Hlen).
  { vm_compute in Hrun. injection Hrun as <- <- _. by eexists _, _. }
  exists product, s, trace'. split; [done|].
  destruct (Hclosed s eq_refl) as [? ?]. done.
Defined.

Lemma list_index_cases {A} (xs : list A) (i : Z) :
  let n := Z.of_nat (length xs) in
  ((0 ≤ i < n)%Z ∧ ∃ x, xs !! Z.to_nat i = Some x ∧ list_index xs i = inr x) ∨
  ((- n ≤ i < 0)%Z ∧ ∃ x, xs !! Z.to_nat (n + i) = Some x ∧ list_index xs i = inr x) ∨
  ((i < - n ∨ n ≤ i)%Z ∧ list_index xs i = inl IndexError).
Proof.
  intros n. unfold list_index. fold n.
  assert (n = Z.of_nat (length xs)) as Hn by done. clearbody n.
  destruct (decide (i < 0)%Z) as [Hneg|Hneg].
  - rewrite (bool_decide_eq_true_2 _ Hneg).
    destruct (decide (0 ≤ i + n < n)%Z) as [Hk|Hk].
    + rewrite (bool_decide_eq_true_2 _ Hk). right; left. split; [lia|].
      destruct (lookup_lt_is_Some_2 xs (Z.to_nat (i + n))) as [x Hx]; [lia|].
      exists x. rewrite Hx. split; [|done]. by rewrite Z.add_comm.
    + rewrite (bool_decide_eq_false_2 _ Hk). right; right. split; [lia|done].
  - rewrite (bool_decide_eq_false_2 _ Hneg).
    destruct (decide (0 ≤ i < n)%Z) as [Hk|Hk].
    + rewrite (bool_decide_eq_true_2 _ Hk). left. split; [lia|].
      destruct (lookup_lt_is_Some_2 xs (Z.to_nat i)) as [x Hx]; [lia|].
      exists x. by rewrite Hx.
    + rewrite (bool_decide_eq_false_2 _ Hk). right; right. split; [lia|done].
Qed.

Lemma plan_scene_cases product scene :
  let local_images := ProductInfo.local_images product in
  let n := Z.of_nat (length local_images) in
  let i := image_index scene in
  let matched path :=
    {| matched_scene_number := scene_number scene;
       matched_narration := narration scene;
       matched_duration := duration scene;
       matched_focus_point := focus_point scene;
       image_path := path |} in
  ((0 ≤ i < n)%Z ∧
   plan_scene (Some product) scene = inr (matched (local_images !! Z.to_nat i)) ∧
   is_Some (local_images !! Z.to_nat i)) ∨
  ((- n ≤ i < 0)%Z ∧
   plan_scene (Some product) scene = inr (matched (local_images !! Z.to_nat (n + i))) ∧
   is_Some (local_images !! Z.to_nat (n + i))) ∨
  ((n ≤ i)%Z ∧ plan_scene (Some product) scene = inr (matched (head local_images))) ∨
  ((i < - n)%Z ∧ plan_scene (Some product) scene = inl IndexError).
Proof.
  intros local_images n i matched. unfold plan_scene. fold local_images i n.
  case_bool_decide as Hlt.
  - pose proof (list_index_cases local_images i) as Hli. cbv zeta in Hli.
    fold n in Hli.
    destruct Hli as [[Hr (x & Hx & ->)]|[[Hr (x & Hx & ->)]|[Hr ->]]].
    + left. split; [done|]. rewrite Hx. split; [done|by eexists].
    + right; left. split; [done|]. rewrite Hx. split; [done|by eexists].
    + right; right; right. split; [lia|done].
  - right; right; left. split; [lia|done].
Qed.

(** X20: [plan_visuals] gives every scene of the script one entry, in order,
    with the narration and the other fields of the scene.  The image of a
    scene is the local image at its [image_index] when that is a position
    of the list; the first local image (or none, when there is no image)
    when the index is too large; the image counted from the end when the
    index is negative and not below minus the length.  It raises, an
    [IndexError], exactly when some scene has an index below minus the
    number of local images. *)
Theorem plan_visuals_image_choice (product : ProductInfo.t)
    (scenes : list EcommerceScene) :
  let local_images := ProductInfo.local_images product in
  let n := Z.of_nat (length local_images) in
  (∀ matched, plan_visuals (Some product) scenes = inr matched →
     length matched = length scenes ∧
     ∀ k scene m, scenes !! k = Some scene → matched !! k = Some m →
       matched_scene_number m = scene_number scene ∧
       matched_narration m = narration scene ∧
       matched_duration m = duration scene ∧
       matched_focus_point m = focus_point scene ∧
       ((0 ≤ image_index scene < n)%Z →
        is_Some (image_path m) ∧
        image_path m = local_images !! Z.to_nat (image_index scene)) ∧
       ((n ≤ image_index scene)%Z → image_path m = head local_images) ∧
       ((- n ≤ image_index scene < 0)%Z →
        is_Some (image_path m) ∧
        image_path m = local_images !! Z.to_nat (n + image_index scene))) ∧
  ((∃ e, plan_visuals (Some product) scenes = inl e) ↔
   ∃ scene, scene ∈ scenes ∧ (image_index scene < - n)%Z) ∧
  (∀ e, plan_visuals (Some product) scenes = inl e → e = IndexError).
Proof.
  intros local_images n. induction scenes as [|scene rest IH].
  { split; [|split].
    - intros matched [= <-]. split; [done|]. intros k scene m Hk. done.
    - split; [by intros [e [=]]|]. by intros (scene & ?%elem_of_nil & _).
    - by intros e [=]. }
  destruct IH as (IHok & IHraise & IHexn). cbn [plan_visuals].
  pose proof (plan_scene_cases product scene) as Hscene. cbv zeta in Hscene.
  fold local_images n in Hscene.
  destruct (plan_scene (Some product) scene) as [e|m0] eqn:Hm0.
  { assert (image_index scene < - n)%Z as Hlow.
    { destruct Hscene as [(_ & [=] & _)|[(_ & [=] & _)|[(_ & [=])|(? & _)]]]. done. }
    split; [done|]. split.
    - split; [|by eexists]. intros _. exists scene. split; [apply list_elem_of_here|done].
    - intros e' [= <-].
      by destruct Hscene as [(_ & [=] & _)|[(_ & [=] & _)|[(_ & [=])|(_ & [= <-])]]]. }
  assert (¬ (image_index scene < - n)%Z) as Hnotlow.
  { destruct Hscene as [(? & _)|[(? & _)|[(? & _)|(_ & [=])]]]; lia. }
  destruct (plan_visuals (Some product) rest) as [e|matched_rest] eqn:Hrest.
  { split; [done|]. split; [|intros e' [= <-]; by apply IHexn].
    split; [|by eexists]. intros _.
    destruct (proj1 IHraise) as (scene' & Hin & Hlow); [by eexists|].
    exists scene'. split; [by right|done]. }
  split; [|split].
  - intros matched [= <-]. destruct (IHok _ eq_refl) as [Hlen Hall].
    split; [cbn; by rewrite Hlen|].
    intros [|k] scene' m; cbn [lookup list_lookup]; [|by apply Hall].
    intros [= <-] [= <-].
    destruct Hscene as [(Hr & [= ->] & Hsome)|[(Hr & [= ->] & Hsome)|[(Hr & [= ->])|(_ & [=])]]];
      cbn; repeat split; try done; intros; lia.
  - split; [by intros [e [=]]|].
    intros (scene' & [->|Hin]%elem_of_cons & Hlow); [done|].
    destruct (proj2 IHraise) as [e [=]]. by exists scene'.
  - by intros e [=].
Qed.

Section AnalyzeFacts.
Context (w : World) (progress_image : nat → Exc unit) (progress_images_complete : Exc unit).
Context (path_parent : Path → Path) (path_stem path_name : Path → str).
Context (image_analysis : Path → Exc str).

Local Abbreviation entries :=
  (analysis_entries w path_stem path_name image_analysis).

Lemma analyze_image_run product_folder i image_path a a' :
  analyze_image w progress_image path_stem path_name image_analysis
    product_folder i image_path a = (inr tt, a') →
  image_analyses a' = image_analyses a ++ entries product_folder image_path.
Proof.
  unfold analyze_image, analysis_entries, mbind, M_bind. unfold bind at 1, call.
  destruct (progress_image i) as [e|[]]; [done|].
  unfold try_except, bind, call, append_analysis, modify. cbv zeta.
  destruct (image_analysis image_path) as [e|description].
  { intros [= <-]. done. }
  cbn [image_analyses analysis_files].
  destruct (write_file w _ _) as [e|[]]; intros [= <-]; cbn [image_analyses].
  - by rewrite <- app_assoc.
  - done.
Qed.

Lemma analyze_loop_run product_folder start local_images a a' :
  for_each (enumerate start local_images) tt
    (λ _ iu, analyze_image w progress_image path_stem path_name image_analysis
               product_folder iu.1 iu.2) a = (inr tt, a') →
  image_analyses a' = image_analyses a ++ (local_images ≫= entries product_folder).
Proof.
  revert start a. induction local_images as [|img l IH]; intros start a.
  - intros [= <-]. by rewrite app_nil_r.
  - cbn [enumerate for_each]. intros ([] & a1 & Hone & Hrest)%bind_inr.
    apply analyze_image_run in Hone. apply IH in Hrest.
    rewrite Hrest, Hone. cbn [mbind list_bind]. by rewrite <- app_assoc.
Qed.

Lemma entries_length product_folder image_path :
  1 ≤ length (entries product_folder image_path) ≤ 2.
Proof.
  unfold analysis_entries. destruct (image_analysis image_path) as [e|d]; [cbn; lia|].
  cbv zeta. destruct (write_file w _ _); cbn; lia.
Qed.

(** X21: When [analyze_product] returns, [image_analyses] holds, image after
    image, the description of the image, or the placeholder when the
    analysis failed; and the description followed by the placeholder when
    the analysis succeeded but its text file could not be written.  So
    there is one entry per local image when no write fails, and never fewer
    entries than images nor more than twice as many.  Without local images
    [image_analyses] is left as it was. *)
Theorem analyze_product_entries (product : ProductInfo.t) (a a' : Analysis) :
  analyze_product w progress_image progress_images_complete path_parent path_stem
    path_name image_analysis (Some product) a = (inr tt, a') →
  match ProductInfo.local_images product with
  | [] => a' = a
  | (first :: _) as local_images =>
      image_analyses a' = local_images ≫= entries (path_parent first) ∧
      length local_images ≤ length (image_analyses a') ≤ 2 * length local_images ∧
      ((∀ path data, write_file w path data = inr tt) →
       length (image_analyses a') = length local_images ∧
       ∀ k image_path, local_images !! k = Some image_path →
         image_analyses a' !! k =
           Some (match image_analysis image_path with
                 | inr description => description
                 | inl _ => py "Product image"
                 end))
  end.
Proof.
  unfold analyze_product.
  destruct (ProductInfo.local_images product) as [|first rest] eqn:Hl.
  { by intros [= <-]. }
  unfold mbind, M_bind. intros ([] & a0 & Hreset & Hrun)%bind_inr.
  apply bind_inr in Hrun as ([] & a1 & Hloop & Hdone).
  unfold modify in Hreset. injection Hreset as <-.
  apply analyze_loop_run in Hloop. cbn [image_analyses app] in Hloop.
  unfold call in Hdone. injection Hdone as _ <-.
  split; [done|]. rewrite Hloop. clear.
  generalize (path_parent first) as folder. generalize (first :: rest) as l. clear.
  intros l folder. split.
  - induction l as [|img l IH]; [cbn [mbind list_bind length]; lia|].
    cbn [mbind list_bind]. rewrite length_app. cbn [length].
    pose proof (entries_length folder img). lia.
  - intros Hw.
    assert (l ≫= entries folder =
            (λ image_path, match image_analysis image_path with
                           | inr description => description
                           | inl _ => py "Product image"
                           end) <$> l) as ->.
    { induction l as [|img l IH]; [done|]. cbn [mbind list_bind fmap list_fmap].
      rewrite IH. f_equal.
      unfold analysis_entries. destruct (image_analysis img) as [e|d]; [done|].
      cbv zeta. by rewrite Hw. }
    split; [by rewrite length_fmap|].
    intros k image_path Hk. by rewrite list_lookup_fmap, Hk.
Qed.

End AnalyzeFacts.

Lemma analyze_product_entries_witness :
  let w := ok_world all_ok_page in
  let first := Path_of (py "out") // py "images" // py "main_01.jpg" in
  let second := Path_of (py "out") // py "images" // py "main_02.png" in
  let image_analysis (image_path : Path) : Exc str :=
    match image_path with
    | Join _ name =>
        if decide (name = py "main_01.jpg") then inr (py "a white mouse")
        else inl (Raise (py "TimeoutError") [])
    | _ => inl (Raise (py "TimeoutError") [])
    end in
  ∃ a',
    analyze_product w (λ _, inr tt) (inr tt) (λ _, Path_of (py "out") // py "images")
      (λ _, py "main") (λ _, py "main.jpg") image_analysis
      (Some (product_with_local [first; second]))
      {| image_analyses := [py "stale"]; analysis_files := [] |} = (inr tt, a') ∧
    image_analyses a' = [py "a white mouse"; py "Product image"].
Proof.
  intros w first second image_analysis.
  destruct (analyze_product w (λ _, inr tt) (inr tt) (λ _, Path_of (py "out") // py "images")
              (λ _, py "main") (λ _, py "main.jpg") image_analysis
              (Some (product_with_local [first; second]))
              {| image_analyses := [py "stale"]; analysis_files := [] |})
    as [r a'] eqn:Hrun.
  assert (r = inr tt) as -> by (vm_compute in Hrun; by injection Hrun as <- _).
  exists a'. split; [done|].
  apply analyze_product_entries in Hrun as [Hentries _].
  rewrite Hentries. by vm_compute.
Defined.

(** ** Shop icons *)

Lemma icon_ids_among_elem elements acc i :
  i ∈ icon_ids_among elements acc →
  i ∈ acc ∨ ∃ el src, el ∈ elements ∧ get_attribute_src el = inr (Some src) ∧
                      image_id src = Some i.
Proof.
  revert acc. induction elements as [|el rest IH]; intros acc; [by left|].
  cbn [icon_ids_among]. destruct (get_attribute_src el) as [e|src] eqn:Hsrc; [by left|].
  assert (image_id [] = None) as Hnil by (by vm_compute).
  cbv zeta. intros [Hin|(el' & src' & Hel & Hs & Hi)]%IH.
  - destruct src as [[|c src]|]; cbn [truthy default from_option id] in Hin.
    + rewrite Hnil in Hin. left. exact Hin.
    + destruct (image_id (c :: src)) as [i'|] eqn:Hid; [|left; exact Hin].
      apply elem_of_union in Hin as [->%elem_of_singleton|Hin]; [|by left].
      right. exists el, (c :: src). split; [apply list_elem_of_here|done].
    + rewrite Hnil in Hin. left. exact Hin.
  - right. exists el', src'. split; [by right|done].
Qed.

(** X22: Every identifier that [_extract_shop_icon_ids] returns is the content
    identifier of the [src] of an element that one of the shop icon
    selectors found, so it starts with [O1CN01]; a selector or an element
    that raises adds nothing and stops nothing but its own selector. *)
Theorem shop_icon_ids_are_image_ids (query_selector_all : str → Exc (list Element))
    (i : str) :
  i ∈ _extract_shop_icon_ids query_selector_all →
  (∃ selector elements el src,
     selector ∈ shop_icon_selectors ∧ query_selector_all selector = inr elements ∧
     el ∈ elements ∧ get_attribute_src el = inr (Some src) ∧ image_id src = Some i) ∧
  ∃ t, i = py "O1CN01" ++ t ∧ t ≠ [].
Proof.
  unfold _extract_shop_icon_ids.
  assert (∀ selectors acc,
            i ∈ foldl (λ shop_icon_ids selector,
                         match query_selector_all selector with
                         | inl _ => shop_icon_ids
                         | inr elements => icon_ids_among elements shop_icon_ids
                         end) acc selectors →
            i ∈ acc ∨
            ∃ selector elements el src,
              selector ∈ selectors ∧ query_selector_all selector = inr elements ∧
              el ∈ elements ∧ get_attribute_src el = inr (Some src) ∧
              image_id src = Some i) as Hfold.
  { induction selectors as [|sel sels IH]; intros acc; [by left|]. cbn [foldl].
    intros [Hin|(sel' & els & el & src & Hsel & Hq & Hel & Hs & Hi)]%IH.
    - destruct (query_selector_all sel) as [e|elements] eqn:Hq; [by left|].
      apply icon_ids_among_elem in Hin as [?|(el & src & Hel & Hs & Hi)]; [by left|].
      right. exists sel, elements, el, src. split; [apply list_elem_of_here|done].
    - right. exists sel', els, el, src. split; [by right|done]. }
  intros [Hin|(sel & els & el & src & Hsel & Hq & Hel & Hs & Hi)]%Hfold;
    [by apply elem_of_empty in Hin|].
  split; [by exists sel, els, el, src|].
  apply image_id_Some in Hi as (pre & t & rest & _ & -> & Hne & _). by exists t.
Qed.

Lemma shop_icon_ids_are_image_ids_witness :
  let query_selector_all (selector : str) : Exc (list Element) :=
    if decide (selector = py ".shopIconImg--YdJniOBM")
    then inr [thumbnail "//img.alicdn.com/i4/O1CN01icon_!!6000000001234.png"]
    else inl (Raise (py "TimeoutError") []) in
  py "O1CN01icon" ∈ _extract_shop_icon_ids query_selector_all ∧
  ∃ t, py "O1CN01icon" = py "O1CN01" ++ t ∧ t ≠ [].
Proof.
  intros query_selector_all.
  assert (py "O1CN01icon" ∈ _extract_shop_icon_ids query_selector_all) as Hin.
  { assert (_extract_shop_icon_ids query_selector_all = {[py "O1CN01icon"]}) as ->
      by (by vm_compute).
    by apply elem_of_singleton. }
  split; [done|].
  by destruct (shop_icon_ids_are_image_ids query_selector_all _ Hin) as [_ ?].
Defined.

(** ** The login script *)

(** X23: [do_login] leaves no browser behind either: whether the login returns
    or raises, the scraper ends with no context and no Playwright (closing
    the browser is taken not to fail).  The browser it launched was a
    visible one. *)
Theorem do_login_closes_browser (w : World) (context_close playwright_stop : Exc unit)
    (new_login_page : Exc LoginPage) (input : Exc str) (trace : list Event) :
  context_close = inr tt → playwright_stop = inr tt →
  ∃ r s evs,
    do_login w context_close playwright_stop new_login_page input trace
      = (r, Some s, trace ++ evs) ∧
    TaobaoScraper._context s = None ∧ TaobaoScraper._playwright s = None ∧
    TaobaoScraper.headless s = false ∧
    (∀ dir h, BrowserLaunched dir h ∈ evs → h = false) ∧
    (r = inr tt → ∃ dir evs', evs = BrowserLaunched dir false :: evs' ++ [PageClosed]).
Proof.
  intros -> ->. unfold do_login, __init__. cbn [mret M_ret ret default].
  unfold try_finally. rewrite login_interactive_run. cbn [self events].
  destruct (login_try w new_login_page input _) as [r s1] eqn:Hrun.
  apply login_try_run in Hrun
    as (launch & pages & Hev & Hpages & Hret & Hh & _ & _ & Hd & Hlaunch & Hsome).
  cbn [self events set_headless TaobaoScraper.headless TaobaoScraper.user_data_dir
       TaobaoScraper._context] in Hev, Hh, Hd, Hlaunch.
  rewrite close_ok. cbn [self events set_headless].
  exists r, (set_playwright None (set_context None
               (set_headless false (self s1)))), (launch ++ pages).
  split; [by rewrite Hev|]. split; [done|]. split; [done|]. split; [done|].
  split.
  - intros dir h [Hin|Hin]%elem_of_app.
    + destruct Hlaunch as [[-> _]|(_ & -> & _)]; [by apply elem_of_nil in Hin|].
      apply list_elem_of_singleton in Hin. by injection Hin as _ ->.
    + eapply Forall_forall in Hpages; [|exact Hin]. by destruct Hpages.
  - intros Hr. destruct (Hret Hr) as [evs' ->]. destruct (Hsome Hr) as [c Hc].
    destruct Hlaunch as [[-> [Hsame|[_ [e He]]]]|(_ & -> & _)].
    + rewrite Hc in Hsame. done.
    + rewrite Hr in He. done.
    + by eexists _, evs'.
Qed.

Lemma do_login_closes_browser_witness :
  ∃ s trace,
    do_login (ok_world all_ok_page) (inr tt) (inr tt)
      (inr (Build_LoginPage (inr tt) (inr tt) (inr tt) (inr tt))) (inr []) []
    = (inr tt, Some s, trace) ∧
    TaobaoScraper._context s = None ∧
    trace = [BrowserLaunched (Home // py ".pixelle" // py "browser_data") false;
             PageOpened; PageClosed].
Proof.
  destruct (do_login_closes_browser (ok_world all_ok_page) (inr tt) (inr tt)
              (inr (Build_LoginPage (inr tt) (inr tt) (inr tt) (inr tt))) (inr []) []
              eq_refl eq_refl)
    as (r & s & evs & Hrun & Hctx & _).
  exists s, evs. rewrite Hrun. split; [|split; [done|]].
  - vm_compute in Hrun. by injection Hrun as <- _ _.
  - vm_compute in Hrun. by injection Hrun as _ _ <-.
Defined.

(** ** File names of the downloads are distinct *)

Lemma fmt_02d_large i :
  100 ≤ i → fmt_02d i = py (NilZero.string_of_uint (Nat.to_uint i)).
Proof.
  intros Hi. unfold fmt_02d.
  destruct (decide (length (py (NilZero.string_of_uint (Nat.to_uint i))) ≤ 2))
    as [Hshort|Hlong].
  - apply short_uint_small in Hshort. rewrite Unsigned.of_to in Hshort. lia.
  - by replace (2 - _) with 0 by lia.
Qed.

Lemma to_uint_nonnil n : Nat.to_uint n ≠ Decimal.Nil.
Proof.
  rewrite <- (Unsigned.of_to n) at 1. rewrite Unsigned.to_of.
  apply DecimalFacts.unorm_nonnil.
Qed.

Lemma py_inj s1 s2 : py s1 = py s2 → s1 = s2.
Proof.
  unfold py. intros H.
  by rewrite <- (string_of_list_ascii_of_string s1), H, string_of_list_ascii_of_string.
Qed.

Lemma fmt_02d_inj i j : fmt_02d i = fmt_02d j → i = j.
Proof.
  intros H.
  destruct (decide (i < 100)) as [Hi|Hi], (decide (j < 100)) as [Hj|Hj].
  - rewrite !fmt_02d_two_digits in H by done.
    assert (i / 10 < 10) as Hi1 by (apply Nat.Div0.div_lt_upper_bound; lia).
    assert (j / 10 < 10) as Hj1 by (apply Nat.Div0.div_lt_upper_bound; lia).
    assert (i mod 10 < 10) as Hi2 by (apply Nat.mod_upper_bound; lia).
    assert (j mod 10 < 10) as Hj2 by (apply Nat.mod_upper_bound; lia).
    rewrite (Nat.div_mod_eq i 10), (Nat.div_mod_eq j 10).
    revert H Hi1 Hj1 Hi2 Hj2.
    generalize (i / 10) (j / 10) (i mod 10) (j mod 10). clear.
    intros a b c d H Ha Hb Hc Hd.
    apply (f_equal (fmap nat_of_ascii)) in H. cbn [fmap list_fmap] in H.
    rewrite !nat_ascii_embedding in H by lia.
    assert (48 + a = 48 + b ∧ 48 + c = 48 + d) as [? ?]; [|lia].
    split; congruence.
  - apply (f_equal length) in H. rewrite fmt_02d_two_digits in H by done.
    pose proof (fmt_02d_three_digits j). cbn in H. lia.
  - apply (f_equal length) in H. rewrite (fmt_02d_two_digits j) in H by done.
    pose proof (fmt_02d_three_digits i). cbn in H. lia.
  - rewrite !fmt_02d_large in H by lia. apply py_inj in H.
    apply (f_equal NilZero.uint_of_string) in H. rewrite !NilZero.usu in H
      by apply to_uint_nonnil.
    injection H as H. apply (f_equal Nat.of_uint) in H.
    by rewrite !Unsigned.of_to in H.
Qed.

Lemma image_filename_inj i j url url' :
  image_filename i url = image_filename j url' → i = j.
Proof.
  unfold image_filename. intros H%app_inv_head.
  apply app_inj_2 in H as [H _]; [by apply fmt_02d_inj|].
  unfold image_ext. by destruct (Str.contains _ url), (Str.contains _ url').
Qed.

Lemma download_paths_NoDup w page images_dir n (l : list str) :
  NoDup (omap (λ iu, fst <$> download_result w page images_dir iu) (enumerate n l)).
Proof.
  revert n. induction l as [|url l IH]; intros n; cbn [enumerate omap list_omap].
  { apply NoDup_nil_2. }
  destruct (download_result w page images_dir (n, url)) as [f|] eqn:Hf;
    cbn [fmap option_fmap option_map]; [|apply IH].
  apply NoDup_cons_2; [|apply IH].
  intros ([i url'] & Hin & Hres)%list_elem_of_omap.
  destruct (download_result w page images_dir (i, url')) as [f'|] eqn:Hf';
    [|done].
  cbn in Hres. injection Hres as Hres.
  apply download_result_path in Hf, Hf'. cbn [fst snd] in Hf, Hf'.
  assert (image_filename n (fix_protocol url) =
          image_filename i (fix_protocol url')) as Hname by congruence.
  apply image_filename_inj in Hname.
  apply elem_of_enumerate in Hin as (k & -> & _). lia.
Qed.

(** X24: No download overwrites another: once the images directory exists,
    [_download_images] returns, and the paths it puts in [local_images] are
    pairwise distinct, whatever the URLs are (the same URL may occur twice)
    and however many there are; each path is [main_NN] with the position of
    its URL in [main_images], counted from one, under [images]. *)
Theorem download_paths_distinct w page product output_dir st :
  mkdir w (output_dir // py "images") = inr tt →
  ∃ product' st',
    _download_images w page product output_dir st = (inr product', st') ∧
    NoDup (ProductInfo.local_images product') ∧
    (∀ path, path ∈ ProductInfo.local_images product' →
       ∃ k url, ProductInfo.main_images product !! k = Some url ∧
                path = output_dir // py "images"
                         // image_filename (S k) (fix_protocol url)).
Proof.
  intros Hmk. eexists _, _. split; [by apply download_images_spec|].
  cbn [ProductInfo.local_images ProductInfo.set_local_images].
  split; [apply download_paths_NoDup|].
  intros path ([i url] & Hin & Hres)%list_elem_of_omap.
  destruct (download_result _ _ _ (i, url)) as [f|] eqn:Hf; [|done].
  cbn in Hres. injection Hres as <-.
  apply download_result_path in Hf. cbn [fst snd] in Hf.
  apply elem_of_enumerate in Hin as (k & -> & Hk).
  exists k, url. split; [done|]. by rewrite Hf.
Qed.

Lemma download_paths_distinct_witness :
  let product := product_with [py "//img.alicdn.com/a.jpg"; py "//img.alicdn.com/a.jpg"] in
  ∃ product' st',
    _download_images (ok_world gallery_page) gallery_page product
      (Path_of (py "out")) initial_state = (inr product', st') ∧
    NoDup (ProductInfo.local_images product').
Proof.
  intros product.
  destruct (download_paths_distinct (ok_world gallery_page) gallery_page
              product (Path_of (py "out")) initial_state eq_refl)
    as (product' & st' & Hrun & Hnodup & _).
  by exists product', st'.
Defined.
